(** * playwright-render-api: the render job control plane

    A shallow embedding of the TypeScript sources of the render service
    (types/index.ts, config/env.ts, middleware/auth.ts,
    middleware/concurrency.ts, services/playwright.ts, services/storage.ts,
    routes/render.ts, routes/health.ts and, of index.ts, the mounting of the
    /render routes and the error handler),
    followed by the properties of the job registry, the admission gate, the
    readiness detector and the orchestrator's error mapping.

    Conventions of the embedding.
    - JavaScript strings are [string]; template literals are appends.
    - Values parsed from JSON request bodies are [json]; [None : option json]
      is JavaScript's [undefined].  JSON numbers are rationals.
    - Numeric settings and millisecond clocks are [Z].
    - Module-level mutable variables ([activeJobs], [browser], [supabase]),
      the job objects they point to and the wall clock form the [World];
      asynchronous functions are computations [M A] over it that either
      settle (normally or by throwing) or never settle.
    - What the browser, the storage service and the other in-flight requests
      do is not part of the program: it is supplied as a [Run] record.
    - The world keeps a trace of the calls made to the browser and to the
      storage service and of the values given to the [status] of job
      objects.
    - Logging is not modelled. *)

From Stdlib Require Import ZArith QArith Lia List Ascii Strings.Byte DecimalString.
From stdpp Require Import gmap strings.

Local Open Scope Z_scope.
#[local] Set Warnings "-register-all".

(** ** JavaScript string primitives used by the sources *)

Module Js.

(** [s.startsWith(p)] *)
Fixpoint startsWith (p s : string) : bool :=
  match p, s with
  | EmptyString, _ => true
  | String a p', String b s' => if Ascii.eqb a b then startsWith p' s' else false
  | String _ _, EmptyString => false
  end.

(** [s.slice(n)] for [0 <= n] *)
Fixpoint slice (n : nat) (s : string) : string :=
  match n, s with
  | O, _ => s
  | S n', String _ s' => slice n' s'
  | S _, EmptyString => EmptyString
  end.

(** [s.includes(p)] *)
Fixpoint includes (p s : string) : bool :=
  startsWith p s ||
  match s with
  | EmptyString => false
  | String _ s' => includes p s'
  end.

(** [s.replace(p, r)] with a string pattern: the first occurrence only. *)
Fixpoint replace (p r s : string) : string :=
  if startsWith p s then r +:+ slice (String.length p) s
  else match s with
       | EmptyString => EmptyString
       | String c s' => String c (replace p r s')
       end.

(** [s.endsWith(p)] for a one-character [p] *)
Fixpoint endsWithChar (c : ascii) (s : string) : bool :=
  match s with
  | EmptyString => false
  | String a EmptyString => Ascii.eqb a c
  | String _ s' => endsWithChar c s'
  end.

(** Drops the last character. *)
Fixpoint dropLast (s : string) : string :=
  match s with
  | EmptyString => EmptyString
  | String _ EmptyString => EmptyString
  | String a s' => String a (dropLast s')
  end.

(** [s.replace(/^\/|\/$/g, "")]: one leading and one trailing slash go. *)
Definition trimSlashes (s : string) : string :=
  let s1 := if startsWith "/" s then slice 1 s else s in
  if endsWithChar "/" s1 then dropLast s1 else s1.

(** [s.replace(/[:.]/g, "-")] *)
Fixpoint dashColonsDots (s : string) : string :=
  match s with
  | EmptyString => EmptyString
  | String c s' =>
      String (if Ascii.eqb c ":" || Ascii.eqb c "." then "-"%char else c)
             (dashColonsDots s')
  end.

(** [String(n)] for an integer-valued number. *)
Definition numberToString (n : Z) : string :=
  NilZero.string_of_int (Z.to_int n).

End Js.

(** ** JSON values *)

Inductive json :=
| JNull
| JBool (b : bool)
| JNum (q : Q)
| JStr (s : string)
| JArr (items : list json)
| JObj (props : list (string * json)).

(** Property read [o.key] on a parsed body; [None] is [undefined].
    Reading a property of a non-object value gives [undefined] (the sources
    only do so behind [?.]). *)
Fixpoint assoc (key : string) (props : list (string * json)) : option json :=
  match props with
  | [] => None
  | (k, v) :: rest => if String.eqb k key then Some v else assoc key rest
  end.

Definition prop (key : string) (v : option json) : option json :=
  match v with
  | Some (JObj props) => assoc key props
  | _ => None
  end.

(** JavaScript truthiness of a JSON value or [undefined]. *)
Definition truthy (v : option json) : bool :=
  match v with
  | None | Some JNull => false
  | Some (JBool b) => b
  | Some (JNum q) => negb (Qeq_bool q 0)
  | Some (JStr s) => negb (String.eqb s "")
  | Some (JArr _) | Some (JObj _) => true
  end.

(** [v || d] *)
Definition orElse (v : option json) (d : json) : json :=
  match v with
  | Some x => if truthy v then x else d
  | None => d
  end.

(** ** zod: the parts of the validation library the schemas use

    A schema of output type [A] reads a possibly missing JSON value found at a
    path and gives the issues it raises and, unless parsing was aborted, the
    parsed value.  Checks on a value of the right type add their issue and
    keep the value, and an object schema visits every key of its shape, so
    the issues of all keys are collected.  Issue messages are not modelled:
    an issue is its code and the path of the offending value. *)

Module Zod.

Inductive IssueCode := invalid_type | too_small | too_big | invalid_enum_value.

Record Issue := mkIssue { code : IssueCode; path : list string }.

Record Parsed (A : Type) := mkParsed { value : option A; issues : list Issue }.
Arguments mkParsed {A} _ _.
Arguments value {A} _.
Arguments issues {A} _.

Definition ZodType (A : Type) : Type := list string -> option json -> Parsed A.

Definition valid {A} (a : A) : Parsed A := mkParsed (Some a) [].
Definition aborted {A} (c : IssueCode) (p : list string) : Parsed A :=
  mkParsed None [mkIssue c p].

Definition map {A B} (f : A -> B) (r : Parsed A) : Parsed B :=
  mkParsed (f <$> value r) (issues r).

Definition ap {A B} (f : Parsed (A -> B)) (x : Parsed A) : Parsed B :=
  mkParsed
    (match value f, value x with Some g, Some a => Some (g a) | _, _ => None end)
    (issues f ++ issues x).

(** A check that fails marks the result dirty: the issue is added, the value
    stays, later checks still run. *)
Definition check {A} (ok : A -> bool) (c : IssueCode) (t : ZodType A) : ZodType A :=
  fun p v =>
    let r := t p v in
    match value r with
    | Some a => if ok a then r else mkParsed (value r) (issues r ++ [mkIssue c p])
    | None => r
    end.

(** [z.string()] *)
Definition string_ : ZodType string := fun p v =>
  match v with
  | Some (JStr s) => valid s
  | _ => aborted invalid_type p
  end.

(** [.min(n)] on a string schema *)
Definition minLength (n : nat) : ZodType string -> ZodType string :=
  check (fun s => n <=? String.length s)%nat too_small.

(** [z.number()] *)
Definition number : ZodType Q := fun p v =>
  match v with
  | Some (JNum q) => valid q
  | _ => aborted invalid_type p
  end.

(** [.min(a)] and [.max(b)] on a number schema, both inclusive *)
Definition min (a : Q) : ZodType Q -> ZodType Q :=
  check (fun q => Qle_bool a q) too_small.
Definition max (b : Q) : ZodType Q -> ZodType Q :=
  check (fun q => Qle_bool q b) too_big.

(** [z.boolean()] *)
Definition boolean : ZodType bool := fun p v =>
  match v with
  | Some (JBool b) => valid b
  | _ => aborted invalid_type p
  end.

(** [z.enum([...])]: the options are given with the value each stands for. *)
Fixpoint lookupOption {A} (s : string) (options : list (string * A)) : option A :=
  match options with
  | [] => None
  | (k, a) :: rest => if String.eqb k s then Some a else lookupOption s rest
  end.

Definition enum {A} (options : list (string * A)) : ZodType A := fun p v =>
  match v with
  | Some (JStr s) =>
      match lookupOption s options with
      | Some a => valid a
      | None => aborted invalid_enum_value p
      end
  | _ => aborted invalid_type p
  end.

(** [.optional()] *)
Definition optional {A} (t : ZodType A) : ZodType (option A) := fun p v =>
  match v with
  | None => valid None
  | Some _ => map Some (t p v)
  end.

(** [.default(d)]: a missing input is replaced by [d], then parsed. *)
Definition default {A} (d : json) (t : ZodType A) : ZodType A := fun p v =>
  match v with
  | None => t p (Some d)
  | Some _ => t p v
  end.

(** [z.object({...})]: the keys of the shape are parsed in order on the
    properties of the input, each under the path extended by its key. *)
Definition Props : Type := list string * list (string * json).

Definition key {A} (o : Props) (k : string) (t : ZodType A) : Parsed A :=
  t (o.1 ++ [k]) (assoc k o.2).

Definition object {R} (shape : Props -> Parsed R) : ZodType R := fun p v =>
  match v with
  | Some (JObj props) => shape (p, props)
  | _ => aborted invalid_type p
  end.

(** [schema.parse(data)]: the value, or the issues to be thrown in a
    [ZodError]. *)
Definition parse {A} (t : ZodType A) (data : option json) : list Issue + A :=
  let r := t [] data in
  match issues r, value r with
  | [], Some a => inr a
  | errs, _ => inl errs
  end.

End Zod.

Infix "<*>" := Zod.ap (at level 61, left associativity).
Infix "<$$>" := Zod.map (at level 61, left associativity).

(** ** types/index.ts *)

Inductive PaperSize := A4 | Letter | Legal.
Inductive Orientation := portrait | landscape.
Inductive ImageFormat := png | jpeg | webp.

Definition ImageFormat_text (f : ImageFormat) : string :=
  match f with png => "png" | jpeg => "jpeg" | webp => "webp" end.

Module Margins.
Record t := mk { top : string; bottom : string; left : string; right : string }.
End Margins.

Module PdfRenderRequest.
Record t := mk {
  url : string;
  authToken : option string;
  paperSize : PaperSize;
  orientation : Orientation;
  printBackground : bool;
  margins : Margins.t;
  filename : option string;
  uploadToStorage : bool;
  storagePath : option string;
}.
End PdfRenderRequest.

Module ImageRenderRequest.
Record t := mk {
  url : string;
  authToken : option string;
  format : ImageFormat;
  quality : Q;
  width : Q;
  height : Q;
  scale : Q;
  filename : option string;
  uploadToStorage : bool;
  storagePath : option string;
}.
End ImageRenderRequest.

Definition MarginsSchema : Zod.ZodType Margins.t :=
  Zod.object (fun o =>
    Margins.mk
      <$$> Zod.key o "top" (Zod.default (JStr "20mm") Zod.string_)
      <*> Zod.key o "bottom" (Zod.default (JStr "20mm") Zod.string_)
      <*> Zod.key o "left" (Zod.default (JStr "15mm") Zod.string_)
      <*> Zod.key o "right" (Zod.default (JStr "15mm") Zod.string_)).

Definition PdfRenderRequestSchema : Zod.ZodType PdfRenderRequest.t :=
  Zod.object (fun o =>
    PdfRenderRequest.mk
      <$$> Zod.key o "url" (Zod.minLength 1 Zod.string_)
      <*> Zod.key o "authToken" (Zod.optional Zod.string_)
      <*> Zod.key o "paperSize"
            (Zod.default (JStr "A4")
               (Zod.enum [("A4", A4); ("Letter", Letter); ("Legal", Legal)]))
      <*> Zod.key o "orientation"
            (Zod.default (JStr "portrait")
               (Zod.enum [("portrait", portrait); ("landscape", landscape)]))
      <*> Zod.key o "printBackground" (Zod.default (JBool true) Zod.boolean)
      <*> Zod.key o "margins" (Zod.default (JObj []) MarginsSchema)
      <*> Zod.key o "filename" (Zod.optional Zod.string_)
      <*> Zod.key o "uploadToStorage" (Zod.default (JBool true) Zod.boolean)
      <*> Zod.key o "storagePath" (Zod.optional Zod.string_)).

Definition ImageRenderRequestSchema : Zod.ZodType ImageRenderRequest.t :=
  Zod.object (fun o =>
    ImageRenderRequest.mk
      <$$> Zod.key o "url" (Zod.minLength 1 Zod.string_)
      <*> Zod.key o "authToken" (Zod.optional Zod.string_)
      <*> Zod.key o "format"
            (Zod.default (JStr "png")
               (Zod.enum [("png", png); ("jpeg", jpeg); ("webp", webp)]))
      <*> Zod.key o "quality"
            (Zod.default (JNum 90) (Zod.max 100 (Zod.min 1 Zod.number)))
      <*> Zod.key o "width"
            (Zod.default (JNum 1080) (Zod.max 4096 (Zod.min 1 Zod.number)))
      <*> Zod.key o "height"
            (Zod.default (JNum 1080) (Zod.max 4096 (Zod.min 1 Zod.number)))
      <*> Zod.key o "scale"
            (Zod.default (JNum 1) (Zod.max 3 (Zod.min 1 Zod.number)))
      <*> Zod.key o "filename" (Zod.optional Zod.string_)
      <*> Zod.key o "uploadToStorage" (Zod.default (JBool true) Zod.boolean)
      <*> Zod.key o "storagePath" (Zod.optional Zod.string_)).

Inductive RenderErrorCode :=
| VALIDATION_FAILED
| UNAUTHORIZED
| FORBIDDEN
| RENDER_FAILED
| READY_FLAG_TIMEOUT
| NAVIGATION_TIMEOUT
| STORAGE_FAILED
| CONCURRENCY_LIMIT
| INTERNAL_ERROR.

Inductive OutputFormat := pdfOutput | imageOutput (f : ImageFormat).

Module Metadata.
Record t := mk {
  renderTimeMs : Z;
  format : OutputFormat;
  pageCount : option Z;
  width : option Q;
  height : option Q;
}.
End Metadata.

Module RenderSuccessResponse.
Record t := mk {
  jobId : string;
  url : option string;
  dataUrl : option string;
  filename : string;
  fileSize : nat;
  expiresAt : option string;
  metadata : Metadata.t;
}.
End RenderSuccessResponse.

(** The [details] objects the sources build. *)
Inductive Details :=
| ValidationDetails (errors : list Zod.Issue)
| CapacityDetails (activeJobs : nat) (maxConcurrent : Z).

Module RenderErrorResponse.
Record t := mk {
  error : RenderErrorCode;
  message : string;
  jobId : option string;
  details : option Details;
}.
End RenderErrorResponse.

Inductive JobType := pdf | image.
Inductive JobStatus := pending | rendering | uploading | completed | failed.

(** [url] is declared a string; before validation it holds whatever the
    body carries under [url], so it is kept as a JSON value. *)
Module RenderJob.
Record t := mk {
  id : string;
  type : JobType;
  url : json;
  startedAt : Z;
  status : JobStatus;
}.
Definition with_status (s : JobStatus) (j : t) : t :=
  mk (id j) (type j) (url j) (startedAt j) s.
Definition with_url (u : json) (j : t) : t :=
  mk (id j) (type j) u (startedAt j) (status j).
End RenderJob.

(** ** config/env.ts *)

Inductive NodeEnv := development | production | test.

Module Env.
Record t := mk {
  NODE_ENV : NodeEnv;
  API_KEY : string;
  SUPABASE_URL : option string;
  SUPABASE_SERVICE_ROLE_KEY : option string;
  STORAGE_BUCKET : string;
  SIGNED_URL_EXPIRY_SECONDS : Z;
  REACT_APP_URL : string;
  MAX_CONCURRENT_JOBS : Z;
  NAVIGATION_TIMEOUT_MS : Z;
  READY_FLAG_TIMEOUT_MS : Z;
}.
End Env.

(** [MAX_CONCURRENT_JOBS: z.coerce.number().min(1).max(10).default(2)], on
    the number the variable's text coerces to ([None] when it is unset);
    [None] as a result is the failed start-up ([process.exit(1)]). *)
Definition load_MAX_CONCURRENT_JOBS (raw : option Z) : option Z :=
  match raw with
  | None => Some 2
  | Some n => if (1 <=? n) && (n <=? 10) then Some n else None
  end.

(** [READY_FLAG_TIMEOUT_MS: z.coerce.number().default(10000)] *)
Definition load_READY_FLAG_TIMEOUT_MS (raw : option Z) : option Z :=
  match raw with
  | None => Some 10000
  | Some n => Some n
  end.

(** ** The world the service runs in *)

(** References to job objects. *)
Abbreviation loc := positive.

(** What a [throw] carries: a [ZodError], an [Error] with its message, or
    any other thrown value. *)
Inductive Exn :=
| ZodError (errors : list Zod.Issue)
| Error (message : string)
| Thrown (v : json).

(** Calls made to the browser and to the storage service. *)
Inductive Call :=
| BrowserNewContext (viewportWidth viewportHeight deviceScaleFactor : Q)
| ContextNewPage
| PageEmulateMedia
| PageGoto (url : string) (timeout : Z)
| PageEvaluateFontsReady
| PageEvaluateReadyFlag (timeout : Z)
| PageWaitForTimeout (ms : Z)
| PagePdf (paperSize : PaperSize) (landscape printBackground : bool) (margin : Margins.t)
| PageScreenshot (jpegType : bool) (quality : option Q)
| PageClose
| ContextClose
| StorageUpload (bucket fullPath : string) (buffer : list byte) (contentType : string)
| StorageCreateSignedUrl (bucket fullPath : string) (expiresIn : Z).

(** What is recorded of a run: the calls above, and every value taken by the
    [status] field of a job object (at creation and at each assignment). *)
Inductive Event :=
| Called (c : Call)
| StatusIs (job : loc) (s : JobStatus).

Module SupabaseClient.
Record t := mk { supabaseUrl : string; supabaseKey : string }.
End SupabaseClient.

Module World.
Record t := mk {
  clock : Z;
  browser : bool;
  supabase : option SupabaseClient.t;
  heap : gmap loc RenderJob.t;
  activeJobs : gmap string loc;
  trace : list Event;
}.
Definition with_clock (c : Z) (w : t) : t :=
  mk c (browser w) (supabase w) (heap w) (activeJobs w) (trace w).
Definition with_supabase (s : option SupabaseClient.t) (w : t) : t :=
  mk (clock w) (browser w) s (heap w) (activeJobs w) (trace w).
Definition with_heap (h : gmap loc RenderJob.t) (w : t) : t :=
  mk (clock w) (browser w) (supabase w) h (activeJobs w) (trace w).
Definition with_activeJobs (a : gmap string loc) (w : t) : t :=
  mk (clock w) (browser w) (supabase w) (heap w) a (trace w).
Definition with_trace (t' : list Event) (w : t) : t :=
  mk (clock w) (browser w) (supabase w) (heap w) (activeJobs w) t'.
End World.

(** How a computation settles. *)
Inductive Completion (A : Type) :=
| Normal (a : A)
| Throw (e : Exn).
Arguments Normal {A} _.
Arguments Throw {A} _.

(** A computation: from a world, either a new world and a completion, or
    [None] when it never settles. *)
Definition M (A : Type) : Type := World.t -> option (World.t * Completion A).

Definition ret {A} (a : A) : M A := fun w => Some (w, Normal a).
Definition throw {A} (e : Exn) : M A := fun w => Some (w, Throw e).
Definition never {A} : M A := fun _ => None.

Definition bind {A B} (m : M A) (k : A -> M B) : M B := fun w =>
  match m w with
  | Some (w', Normal a) => k a w'
  | Some (w', Throw e) => Some (w', Throw e)
  | None => None
  end.

(** [try { m } catch (e) { h e }] *)
Definition try_catch {A} (m : M A) (h : Exn -> M A) : M A := fun w =>
  match m w with
  | Some (w', Throw e) => h e w'
  | r => r
  end.

(** [try { m } finally { f }]: [f] runs however [m] settles; the completion
    of [m] stands unless [f] throws. *)
Definition try_finally {A} (m : M A) (f : M unit) : M A := fun w =>
  match m w with
  | Some (w', c) =>
      match f w' with
      | Some (w'', Normal _) => Some (w'', c)
      | Some (w'', Throw e) => Some (w'', Throw e)
      | None => None
      end
  | None => None
  end.

(** [promise.catch(() => {})] *)
Definition swallow (m : M unit) : M unit := try_catch m (fun _ => ret tt).

Declare Scope M_scope.
Delimit Scope M_scope with M.
Notation "'let*' x := m 'in' k" := (bind m (fun x => k))
  (at level 10, x name, m at level 100, k at level 200) : M_scope.
Notation "m ;;; k" := (bind m (fun _ => k))
  (at level 100, k at level 200, right associativity) : M_scope.
Local Open Scope M_scope.

(** [Date.now()] *)
Definition Date_now : M Z := fun w => Some (w, Normal (World.clock w)).

Definition emit (e : Event) : M unit := fun w =>
  Some (World.with_trace (World.trace w ++ [e]) w, Normal tt).

Definition elapse (ms : Z) : M unit := fun w =>
  Some (World.with_clock (World.clock w + ms) w, Normal tt).

(** A call that takes [ms] and then resolves with a value or rejects. *)
Definition call {A} (c : Call) (r : Z * (Exn + A)) : M A :=
  emit (Called c) ;;;
  elapse r.1 ;;;
  match r.2 with
  | inl e => throw e
  | inr a => ret a
  end.

(** ** What the surroundings do during one request *)

(** The browser: how long each call takes and how it settles, when the
    page's fonts are ready (never, or after some time), and the value of
    [window.__RENDER_READY__] at each instant. *)
Module Browser.
Record t := mk {
  newContext : Z * (Exn + unit);
  newPage : Z * (Exn + unit);
  emulateMedia : Z * (Exn + unit);
  goto : Z * (Exn + unit);
  fontsReady : option (Z * (Exn + unit));
  renderReady : Z -> bool;
  capture : Z * (Exn + list byte);
  closePage : Z * (Exn + unit);
  closeContext : Z * (Exn + unit);
}.
End Browser.

(** The storage service: an upload resolves to its [error] (if any), the
    signing of a URL to its [data] and [error]. *)
Module Storage.
Record t := mk {
  upload : Z * (Exn + option string);
  createSignedUrl : Z * (Exn + (option string * option string));
}.
End Storage.

(** One request as the service meets it: the platform's answers ([uuidv4],
    [new URL], [toISOString]), the browser, the storage service, and what
    the other in-flight requests do to the registry and its job objects
    while this one is suspended in its render and in its upload. *)
Module Run.
Record t := mk {
  uuid : string;
  newURL : string -> string -> Exn + string;
  setSearchParam : string -> string -> string -> string;
  toISOString : Z -> string;
  browser : Browser.t;
  storage : Storage.t;
  othersDuringRender : gmap loc RenderJob.t * gmap string loc ->
                       gmap loc RenderJob.t * gmap string loc;
  othersDuringUpload : gmap loc RenderJob.t * gmap string loc ->
                       gmap loc RenderJob.t * gmap string loc;
}.
End Run.

(** [await m] in a request handler: while [m] is pending the other requests
    run. *)
Definition await {A}
  (others : gmap loc RenderJob.t * gmap string loc ->
            gmap loc RenderJob.t * gmap string loc)
  (m : M A) : M A := fun w =>
  match m w with
  | Some (w', c) =>
      let r := others (World.heap w', World.activeJobs w') in
      Some (World.with_activeJobs r.2 (World.with_heap r.1 w'), c)
  | None => None
  end.

(** ** Job objects *)

(** An object literal [{ id, type, url, startedAt, status }]. *)
Definition newJob (j : RenderJob.t) : M loc := fun w =>
  let l := fresh (dom (World.heap w)) in
  Some (World.with_trace (World.trace w ++ [StatusIs l (RenderJob.status j)])
          (World.with_heap (<[l := j]> (World.heap w)) w),
        Normal l).

(** [job.url = u] *)
Definition setUrl (job : loc) (u : json) : M unit := fun w =>
  Some (World.with_heap (alter (RenderJob.with_url u) job (World.heap w)) w, Normal tt).

(** [job.status = s] *)
Definition setStatus (job : loc) (s : JobStatus) : M unit := fun w =>
  Some (World.with_trace (World.trace w ++ [StatusIs job s])
          (World.with_heap (alter (RenderJob.with_status s) job (World.heap w)) w),
        Normal tt).

(** ** middleware/concurrency.ts *)

Definition getActiveJobCount : M nat := fun w =>
  Some (w, Normal (size (World.activeJobs w))).

(** The job objects in the registry (in no particular order). *)
Definition getActiveJobs : M (list loc) := fun w =>
  Some (w, Normal (map_to_list (World.activeJobs w)).*2).

(** [activeJobs.set(job.id, job)]; a reference held by running code always
    points to an object, the other branch is never taken. *)
Definition registerJob (job : loc) : M unit := fun w =>
  match World.heap w !! job with
  | Some j =>
      Some (World.with_activeJobs (<[RenderJob.id j := job]> (World.activeJobs w)) w,
            Normal tt)
  | None => Some (w, Normal tt)
  end.

Definition updateJobStatus (jobId : string) (status : JobStatus) : M unit := fun w =>
  match World.activeJobs w !! jobId with
  | Some job => setStatus job status w
  | None => Some (w, Normal tt)
  end.

Definition removeJob (jobId : string) : M unit := fun w =>
  Some (World.with_activeJobs (delete jobId (World.activeJobs w)) w, Normal tt).

Inductive Body :=
| SuccessBody (r : RenderSuccessResponse.t)
| ErrorBody (r : RenderErrorResponse.t)
| NotFoundBody (message : string).

Module HttpResponse.
Record t := mk { statusCode : Z; body : Body }.
End HttpResponse.

(** A middleware either answers or calls [next]. *)
Definition concurrencyLimit (env : Env.t) (next : M HttpResponse.t) : M HttpResponse.t :=
  fun w =>
  if Z.of_nat (size (World.activeJobs w)) >=? Env.MAX_CONCURRENT_JOBS env then
    let response :=
      RenderErrorResponse.mk
        CONCURRENCY_LIMIT
        ("Server is at capacity. Max "
           +:+ Js.numberToString (Env.MAX_CONCURRENT_JOBS env)
           +:+ " concurrent jobs allowed. Please retry later.")
        None
        (Some (CapacityDetails (size (World.activeJobs w)) (Env.MAX_CONCURRENT_JOBS env)))
    in
    Some (w, Normal (HttpResponse.mk 503 (ErrorBody response)))
  else next w.

(** ** middleware/auth.ts *)

Inductive Route := PostPdf | PostImage | OtherRoute (method path : string).

Module Request.
Record t := mk {
  x_api_key : option string;
  authorization : option string;
  route : Route;
  body : option json;
}.
End Request.

Definition apiKeyAuth (env : Env.t) (req : Request.t) (next : M HttpResponse.t)
  : M HttpResponse.t :=
  let providedKey : option string :=
    match Request.x_api_key req with
    | Some apiKeyHeader => Some apiKeyHeader
    | None =>
        match Request.authorization req with
        | Some authHeader =>
            if Js.startsWith "Bearer " authHeader then Some (Js.slice 7 authHeader)
            else None
        | None => None
        end
    end in
  match providedKey with
  | Some k =>
      if String.eqb k "" then
        ret (HttpResponse.mk 401 (ErrorBody (RenderErrorResponse.mk UNAUTHORIZED
          "API key required. Provide via X-API-Key header or Authorization: Bearer <key>"
          None None)))
      else if negb (String.eqb k (Env.API_KEY env)) then
        ret (HttpResponse.mk 403 (ErrorBody (RenderErrorResponse.mk FORBIDDEN
          "Invalid API key" None None)))
      else next
  | None =>
      ret (HttpResponse.mk 401 (ErrorBody (RenderErrorResponse.mk UNAUTHORIZED
        "API key required. Provide via X-API-Key header or Authorization: Bearer <key>"
        None None)))
  end.

(** ** services/playwright.ts *)

Definition getBrowser : M unit := fun w =>
  if World.browser w then Some (w, Normal tt)
  else Some (w, Throw (Error "Browser not initialized. Call initBrowser() first.")).

Definition buildRenderUrl (env : Env.t) (x : Run.t) (path : string)
  (authToken : option string) : M string :=
  let baseUrl :=
    if Js.endsWithChar "/" (Env.REACT_APP_URL env)
    then Js.dropLast (Env.REACT_APP_URL env) else Env.REACT_APP_URL env in
  match Run.newURL x (if Js.startsWith "/" path then path else "/" +:+ path) baseUrl with
  | inl e => throw e
  | inr url =>
      ret (match authToken with
           | Some token =>
               if String.eqb token "" then url
               else Run.setSearchParam x url "_renderToken" token
           | None => url
           end)
  end.

(** The interval callback of the readiness script, run at [now], then every
    100 ms (timers are taken to fire on time): it answers [true] when the
    flag is set, [false] when more than [timeout] has passed since
    [startTime], and otherwise waits for the next tick.  [fuel] bounds the
    number of ticks looked at. *)
Fixpoint pollReady (flag : Z -> bool) (startTime timeout : Z) (fuel : nat) (now : Z)
  : option (Z * bool) :=
  match fuel with
  | O => None
  | S fuel' =>
      if flag now then Some (now, true)
      else if now - startTime >? timeout then Some (now, false)
      else pollReady flag startTime timeout fuel' (now + 100)
  end.

(** The script given to [page.evaluate]: the flag is looked at once at
    once, then polled.  The number of ticks allowed is one more than are
    needed to pass the timeout. *)
Definition evaluateReadyFlag (flag : Z -> bool) (timeout : Z) : M bool := fun w =>
  let w1 := World.with_trace (World.trace w ++ [Called (PageEvaluateReadyFlag timeout)]) w in
  let startTime := World.clock w in
  if flag startTime then Some (w1, Normal true)
  else
    match pollReady flag startTime timeout (Z.to_nat (timeout / 100) + 2) (startTime + 100) with
    | Some (t, result) => Some (World.with_clock t w1, Normal result)
    | None => None
    end.

Definition waitForRenderReady (env : Env.t) (b : Browser.t) : M unit :=
  match Browser.fontsReady b with
  | Some r => call PageEvaluateFontsReady r
  | None => never
  end ;;;
  let* result := evaluateReadyFlag (Browser.renderReady b) (Env.READY_FLAG_TIMEOUT_MS env) in
  if negb result then
    throw (Error ("READY_FLAG_TIMEOUT: __RENDER_READY__ flag not set within "
                    +:+ Js.numberToString (Env.READY_FLAG_TIMEOUT_MS env) +:+ "ms"))
  else
    call (PageWaitForTimeout 150) (150, inr tt).

(** In [renderPdf] and [renderImage] the [finally] block closes the page if
    one was opened and the context if one was created; this is written here
    as one [try_finally] from the point where each exists. *)
Definition renderPdf (env : Env.t) (x : Run.t) (request : PdfRenderRequest.t)
  : M (list byte) :=
  let b := Run.browser x in
  getBrowser ;;;
  call (BrowserNewContext 1200 800 1) (Browser.newContext b) ;;;
  try_finally
    (call ContextNewPage (Browser.newPage b) ;;;
     try_finally
       (let* url := buildRenderUrl env x (PdfRenderRequest.url request)
                      (PdfRenderRequest.authToken request) in
        call (PageGoto url (Env.NAVIGATION_TIMEOUT_MS env)) (Browser.goto b) ;;;
        waitForRenderReady env b ;;;
        let* pdfBuffer :=
          call (PagePdf (PdfRenderRequest.paperSize request)
                  (match PdfRenderRequest.orientation request with
                   | landscape => true | portrait => false end)
                  (PdfRenderRequest.printBackground request)
                  (PdfRenderRequest.margins request))
               (Browser.capture b) in
        ret pdfBuffer)
       (swallow (call PageClose (Browser.closePage b))))
    (swallow (call ContextClose (Browser.closeContext b))).

Definition renderImage (env : Env.t) (x : Run.t) (request : ImageRenderRequest.t)
  : M (list byte) :=
  let b := Run.browser x in
  getBrowser ;;;
  call (BrowserNewContext (ImageRenderRequest.width request)
          (ImageRenderRequest.height request) (ImageRenderRequest.scale request))
       (Browser.newContext b) ;;;
  try_finally
    (call ContextNewPage (Browser.newPage b) ;;;
     try_finally
       (call PageEmulateMedia (Browser.emulateMedia b) ;;;
        let* url := buildRenderUrl env x (ImageRenderRequest.url request)
                      (ImageRenderRequest.authToken request) in
        call (PageGoto url (Env.NAVIGATION_TIMEOUT_MS env)) (Browser.goto b) ;;;
        waitForRenderReady env b ;;;
        let* screenshotBuffer :=
          call (PageScreenshot
                  (match ImageRenderRequest.format request with
                   | jpeg => true | webp => false | png => false end)
                  (match ImageRenderRequest.format request with
                   | jpeg => Some (ImageRenderRequest.quality request)
                   | _ => None end))
               (Browser.capture b) in
        ret screenshotBuffer)
       (swallow (call PageClose (Browser.closePage b))))
    (swallow (call ContextClose (Browser.closeContext b))).

(** ** services/storage.ts *)

Definition falsy (s : option string) : bool :=
  match s with
  | None => true
  | Some v => String.eqb v ""
  end.

Definition initStorage (env : Env.t) : M unit := fun w =>
  match World.supabase w with
  | Some _ => Some (w, Normal tt)
  | None =>
      if falsy (Env.SUPABASE_URL env) || falsy (Env.SUPABASE_SERVICE_ROLE_KEY env)
      then Some (w, Normal tt)
      else
        match Env.SUPABASE_URL env, Env.SUPABASE_SERVICE_ROLE_KEY env with
        | Some u, Some k =>
            Some (World.with_supabase (Some (SupabaseClient.mk u k)) w, Normal tt)
        | _, _ => Some (w, Normal tt)
        end
  end.

Definition isStorageAvailable : M bool := fun w =>
  Some (w, Normal (match World.supabase w with Some _ => true | None => false end)).

Definition getClient : M SupabaseClient.t := fun w =>
  match World.supabase w with
  | None =>
      Some (w, Throw (Error "STORAGE_FAILED: Supabase not configured. Set SUPABASE_URL and SUPABASE_SERVICE_ROLE_KEY or use uploadToStorage: false"))
  | Some client => Some (w, Normal client)
  end.

Module UploadResult.
Record t := mk { path : string; signedUrl : string; expiresAt : string }.
End UploadResult.

Definition uploadFile (env : Env.t) (x : Run.t) (buffer : list byte)
  (filename contentType : string) (storagePath : option string) : M UploadResult.t :=
  let* client := getClient in
  let basePath :=
    match storagePath with
    | Some p => if String.eqb p "" then "" else Js.trimSlashes p
    | None => ""
    end in
  let fullPath :=
    if String.eqb basePath "" then filename else basePath +:+ "/" +:+ filename in
  let* uploadError :=
    call (StorageUpload (Env.STORAGE_BUCKET env) fullPath buffer contentType)
         (Storage.upload (Run.storage x)) in
  match uploadError with
  | Some message => throw (Error ("STORAGE_FAILED: " +:+ message))
  | None =>
      let* signed :=
        call (StorageCreateSignedUrl (Env.STORAGE_BUCKET env) fullPath
                (Env.SIGNED_URL_EXPIRY_SECONDS env))
             (Storage.createSignedUrl (Run.storage x)) in
      match signed with
      | (Some signedUrl, None) =>
          let* now := Date_now in
          let expiresAt :=
            Run.toISOString x (now + Env.SIGNED_URL_EXPIRY_SECONDS env * 1000) in
          ret (UploadResult.mk fullPath signedUrl expiresAt)
      | _ => throw (Error "STORAGE_FAILED: Failed to create signed URL")
      end
  end.

(** ** Buffer.toString("base64") and its inverse (RFC 4648, with padding) *)

Module Base64.

Definition alphabet : list ascii :=
  String.list_ascii_of_string
    "ABCDEFGHIJKLMNOPQRSTUVWXYZabcdefghijklmnopqrstuvwxyz0123456789+/".

Definition digit (n : N) : ascii := nth (N.to_nat n) alphabet "A"%char.

Fixpoint indexOf (c : ascii) (l : list ascii) (i : N) : option N :=
  match l with
  | [] => None
  | a :: l' => if Ascii.eqb a c then Some i else indexOf c l' (i + 1)%N
  end.

Definition value (c : ascii) : option N := indexOf c alphabet 0%N.

Fixpoint encode (bs : list byte) : string :=
  match bs with
  | [] => ""
  | [a] =>
      let n := (Byte.to_N a * 16)%N in
      String (digit (n / 64)) (String (digit (n mod 64)) "==")
  | [a; b] =>
      let n := ((Byte.to_N a * 256 + Byte.to_N b) * 4)%N in
      String (digit (n / 4096))
        (String (digit (n / 64 mod 64)) (String (digit (n mod 64)) "="))
  | a :: b :: c :: rest =>
      let n := (Byte.to_N a * 65536 + Byte.to_N b * 256 + Byte.to_N c)%N in
      String (digit (n / 262144))
        (String (digit (n / 4096 mod 64))
           (String (digit (n / 64 mod 64))
              (String (digit (n mod 64)) (encode rest))))
  end.

Definition isPad (c : ascii) : bool := Ascii.eqb c "=".

Fixpoint decode (s : string) : option (list byte) :=
  match s with
  | EmptyString => Some []
  | String c1 (String c2 (String c3 (String c4 rest))) =>
      match value c1, value c2 with
      | Some v1, Some v2 =>
          if isPad c3 then
            if isPad c4 && String.eqb rest "" then
              match Byte.of_N ((v1 * 64 + v2) / 16) with
              | Some a => Some [a]
              | None => None
              end
            else None
          else
            match value c3 with
            | Some v3 =>
                if isPad c4 then
                  if String.eqb rest "" then
                    let n := ((v1 * 64 + v2) * 64 + v3)%N in
                    match Byte.of_N (n / 1024), Byte.of_N (n / 4 mod 256) with
                    | Some a, Some b => Some [a; b]
                    | _, _ => None
                    end
                  else None
                else
                  match value c4 with
                  | Some v4 =>
                      let n := (((v1 * 64 + v2) * 64 + v3) * 64 + v4)%N in
                      match Byte.of_N (n / 65536), Byte.of_N (n / 256 mod 256),
                            Byte.of_N (n mod 256), decode rest with
                      | Some a, Some b, Some c, Some bs => Some (a :: b :: c :: bs)
                      | _, _, _, _ => None
                      end
                  | None => None
                  end
            | None => None
            end
      | _, _ => None
      end
  | _ => None
  end.

End Base64.

(** Reading a [data:] URL back: the declared content type and the bytes of
    its base64 payload. *)
Fixpoint splitAtBase64Mark (s : string) : option (string * string) :=
  if Js.startsWith ";base64," s then Some (EmptyString, Js.slice 8 s)
  else match s with
       | EmptyString => None
       | String c s' =>
           match splitAtBase64Mark s' with
           | Some (t, payload) => Some (String c t, payload)
           | None => None
           end
       end.

Definition readDataUrl (u : string) : option (string * list byte) :=
  if Js.startsWith "data:" u then
    match splitAtBase64Mark (Js.slice 5 u) with
    | Some (contentType, payload) =>
        match Base64.decode payload with
        | Some bytes => Some (contentType, bytes)
        | None => None
        end
    | None => None
    end
  else None.

(** ** routes/render.ts *)

Definition handleRenderError (env : Env.t) (error : Exn) (jobId : string)
  : RenderErrorResponse.t :=
  match error with
  | ZodError errors =>
      RenderErrorResponse.mk VALIDATION_FAILED "Invalid request data"
        (Some jobId) (Some (ValidationDetails errors))
  | Error message =>
      if Js.includes "READY_FLAG_TIMEOUT" message then
        RenderErrorResponse.mk READY_FLAG_TIMEOUT
          "Page did not signal render ready in time. Ensure __RENDER_READY__ is set."
          (Some jobId) None
      else if Js.includes "NAVIGATION_TIMEOUT" message || Js.includes "Timeout" message then
        RenderErrorResponse.mk NAVIGATION_TIMEOUT "Page navigation timed out"
          (Some jobId) None
      else if Js.includes "STORAGE_FAILED" message then
        RenderErrorResponse.mk STORAGE_FAILED
          (Js.replace "STORAGE_FAILED: " "" message) (Some jobId) None
      else
        RenderErrorResponse.mk RENDER_FAILED
          (match Env.NODE_ENV env with
           | production => "Render failed"
           | _ => message
           end)
          (Some jobId) None
  | Thrown _ =>
      RenderErrorResponse.mk INTERNAL_ERROR "An unexpected error occurred"
        (Some jobId) None
  end.

Definition getStatusCode (error : RenderErrorCode) : Z :=
  match error with
  | VALIDATION_FAILED => 400
  | UNAUTHORIZED => 401
  | FORBIDDEN => 403
  | CONCURRENCY_LIMIT => 503
  | READY_FLAG_TIMEOUT | NAVIGATION_TIMEOUT => 408
  | STORAGE_FAILED | RENDER_FAILED | INTERNAL_ERROR => 500
  end.

(** [schema.parse(req.body)] *)
Definition parseBody {A} (schema : Zod.ZodType A) (body : option json) : M A :=
  match Zod.parse schema body with
  | inl errors => throw (ZodError errors)
  | inr request => ret request
  end.

(** [new Date().toISOString().replace(/[:.]/g, "-")] *)
Definition timestampNow (x : Run.t) : M string :=
  let* now := Date_now in
  ret (Js.dashColonsDots (Run.toISOString x now)).

(** [res.json(r)] answers with status 200; the handlers answer once, and the
    answer is what the computation returns. *)
Definition res_json (r : RenderSuccessResponse.t) : M HttpResponse.t :=
  ret (HttpResponse.mk 200 (SuccessBody r)).

Definition catchRenderError (env : Env.t) (jobId : string) (error : Exn)
  : M HttpResponse.t :=
  updateJobStatus jobId failed ;;;
  let errorResponse := handleRenderError env error jobId in
  ret (HttpResponse.mk (getStatusCode (RenderErrorResponse.error errorResponse))
         (ErrorBody errorResponse)).

(** POST /render/pdf *)
Definition postPdf (env : Env.t) (x : Run.t) (req : Request.t) : M HttpResponse.t :=
  let jobId := Run.uuid x in
  let* startTime := Date_now in
  let* startedAt := Date_now in
  let* job :=
    newJob (RenderJob.mk jobId pdf
              (orElse (prop "url" (Request.body req)) (JStr "unknown"))
              startedAt pending) in
  try_finally
    (try_catch
       (let* request := parseBody PdfRenderRequestSchema (Request.body req) in
        setUrl job (JStr (PdfRenderRequest.url request)) ;;;
        registerJob job ;;;
        updateJobStatus jobId rendering ;;;
        let* pdfBuffer := await (Run.othersDuringRender x) (renderPdf env x request) in
        let* timestamp := timestampNow x in
        let filename :=
          if falsy (PdfRenderRequest.filename request)
          then "render-" +:+ timestamp +:+ ".pdf"
          else default "" (PdfRenderRequest.filename request) +:+ ".pdf" in
        let* response :=
          if PdfRenderRequest.uploadToStorage request then
            updateJobStatus jobId uploading ;;;
            let* uploadResult :=
              await (Run.othersDuringUpload x)
                (uploadFile env x pdfBuffer filename "application/pdf"
                   (PdfRenderRequest.storagePath request)) in
            let* now := Date_now in
            ret (RenderSuccessResponse.mk jobId
                   (Some (UploadResult.signedUrl uploadResult)) None
                   filename (length pdfBuffer)
                   (Some (UploadResult.expiresAt uploadResult))
                   (Metadata.mk (now - startTime) pdfOutput None None None))
          else
            let* now := Date_now in
            ret (RenderSuccessResponse.mk jobId None
                   (Some ("data:application/pdf;base64," +:+ Base64.encode pdfBuffer))
                   filename (length pdfBuffer) None
                   (Metadata.mk (now - startTime) pdfOutput None None None)) in
        updateJobStatus jobId completed ;;;
        res_json response)
       (catchRenderError env jobId))
    (removeJob jobId).

(** POST /render/image *)
Definition postImage (env : Env.t) (x : Run.t) (req : Request.t) : M HttpResponse.t :=
  let jobId := Run.uuid x in
  let* startTime := Date_now in
  let* startedAt := Date_now in
  let* job :=
    newJob (RenderJob.mk jobId image
              (orElse (prop "url" (Request.body req)) (JStr "unknown"))
              startedAt pending) in
  try_finally
    (try_catch
       (let* request := parseBody ImageRenderRequestSchema (Request.body req) in
        setUrl job (JStr (ImageRenderRequest.url request)) ;;;
        registerJob job ;;;
        updateJobStatus jobId rendering ;;;
        let* imageBuffer := await (Run.othersDuringRender x) (renderImage env x request) in
        let* timestamp := timestampNow x in
        let extension := ImageFormat_text (ImageRenderRequest.format request) in
        let filename :=
          if falsy (ImageRenderRequest.filename request)
          then "render-" +:+ timestamp +:+ "." +:+ extension
          else default "" (ImageRenderRequest.filename request) +:+ "." +:+ extension in
        let contentType :=
          match ImageRenderRequest.format request with
          | jpeg => "image/jpeg"
          | webp => "image/webp"
          | png => "image/png"
          end in
        let meta now :=
          Metadata.mk (now - startTime)
            (imageOutput (ImageRenderRequest.format request)) None
            (Some (ImageRenderRequest.width request))
            (Some (ImageRenderRequest.height request)) in
        let* response :=
          if ImageRenderRequest.uploadToStorage request then
            updateJobStatus jobId uploading ;;;
            let* uploadResult :=
              await (Run.othersDuringUpload x)
                (uploadFile env x imageBuffer filename contentType
                   (ImageRenderRequest.storagePath request)) in
            let* now := Date_now in
            ret (RenderSuccessResponse.mk jobId
                   (Some (UploadResult.signedUrl uploadResult)) None
                   filename (length imageBuffer)
                   (Some (UploadResult.expiresAt uploadResult)) (meta now))
          else
            let* now := Date_now in
            ret (RenderSuccessResponse.mk jobId None
                   (Some ("data:" +:+ contentType +:+ ";base64,"
                            +:+ Base64.encode imageBuffer))
                   filename (length imageBuffer) None (meta now)) in
        updateJobStatus jobId completed ;;;
        res_json response)
       (catchRenderError env jobId))
    (removeJob jobId).

(** ** index.ts: the /render mount, the 404 handler and the error handler *)

Definition notFound (method path : string) : M HttpResponse.t :=
  ret (HttpResponse.mk 404
         (NotFoundBody ("Route " +:+ method +:+ " " +:+ path +:+ " not found"))).

Definition renderRouter (env : Env.t) (x : Run.t) (req : Request.t) : M HttpResponse.t :=
  match Request.route req with
  | PostPdf => postPdf env x req
  | PostImage => postImage env x req
  | OtherRoute method path => notFound method path
  end.

(** [app.use("/render", apiKeyAuth, concurrencyLimit, renderRouter)] *)
Definition render (env : Env.t) (x : Run.t) (req : Request.t) : M HttpResponse.t :=
  apiKeyAuth env req (concurrencyLimit env (renderRouter env x req)).

(** The error handler of the application, given [err.message]: it answers
    the errors passed on by the middleware that runs before the routes. *)
Definition errorHandler (env : Env.t) (message : string) : M HttpResponse.t :=
  ret (HttpResponse.mk 500
         (ErrorBody (RenderErrorResponse.mk INTERNAL_ERROR
            (match Env.NODE_ENV env with
             | production => "An unexpected error occurred"
             | _ => message
             end)
            None None))).

(** A request to /render as the application takes it: [express.json] either
    passes on an error (a body that is not JSON, or one over the limit),
    which goes to the error handler, or leaves the parsed body in the
    request, which goes to the /render mount. *)
Definition app (env : Env.t) (x : Run.t) (incoming : string + Request.t)
  : M HttpResponse.t :=
  match incoming with
  | inl message => errorHandler env message
  | inr req => render env x req
  end.

(** ** Vocabulary of the properties *)

(** The world reached by a computation that settles. *)
Definition exec {A} (m : M A) (w : World.t) : World.t :=
  match m w with
  | Some (w', _) => w'
  | None => w
  end.

(** A handler resumes after an [await] in the world the others left. *)
Definition resume
  (others : gmap loc RenderJob.t * gmap string loc ->
            gmap loc RenderJob.t * gmap string loc)
  (w : World.t) : World.t :=
  World.with_activeJobs (others (World.heap w, World.activeJobs w)).2
    (World.with_heap (others (World.heap w, World.activeJobs w)).1 w).

(** The job registered under an id. *)
Definition jobAt (w : World.t) (jobId : string) : option RenderJob.t :=
  match World.activeJobs w !! jobId with
  | Some l => World.heap w !! l
  | None => None
  end.

(** Every registered reference points to a job object carrying the id it is
    registered under. *)
Definition registry_ok (w : World.t) : Prop :=
  forall k l, World.activeJobs w !! k = Some l ->
    exists j, World.heap w !! l = Some j /\ RenderJob.id j = k.

(** The values taken in turn by the [status] field of one job object. *)
Fixpoint statuses (job : loc) (t : list Event) : list JobStatus :=
  match t with
  | [] => []
  | StatusIs l s :: t' =>
      if Pos.eqb l job then s :: statuses job t' else statuses job t'
  | Called _ :: t' => statuses job t'
  end.

(** The calls made. *)
Fixpoint calls (t : list Event) : list Call :=
  match t with
  | [] => []
  | Called c :: t' => c :: calls t'
  | StatusIs _ _ :: t' => calls t'
  end.

Definition isStorageCall (c : Call) : bool :=
  match c with
  | StorageUpload _ _ _ _ | StorageCreateSignedUrl _ _ _ => true
  | _ => false
  end.

(** [w'] differs from [w] by the clock and by calls, all in [P], added to
    the trace. *)
Record calls_only (P : Call -> Prop) (w w' : World.t) : Prop := mkCallsOnly {
  co_browser : World.browser w' = World.browser w;
  co_supabase : World.supabase w' = World.supabase w;
  co_heap : World.heap w' = World.heap w;
  co_activeJobs : World.activeJobs w' = World.activeJobs w;
  co_trace : exists cs,
    World.trace w' = World.trace w ++ (Called <$> cs) /\ Forall P cs;
}.

(** [wp d m w Q]: from [w], [m] settles in a world and with a completion
    satisfying [Q], or it never settles and [d] holds. *)
Definition wp {A} (d : Prop) (m : M A) (w : World.t)
  (Q : World.t -> Completion A -> Prop) : Prop :=
  match m w with
  | Some (w', c) => Q w' c
  | None => d
  end.

(** The other requests leave the registration of [jobId] alone. *)
Definition keeps (jobId : string)
  (others : gmap loc RenderJob.t * gmap string loc ->
            gmap loc RenderJob.t * gmap string loc) : Prop :=
  forall h a, (others (h, a)).2 !! jobId = a !! jobId.

(** A computation that touches the world only by calls in [P] and by
    letting time pass. *)
Definition external {A} (P : Call -> Prop) (d : Prop) (m : M A) : Prop :=
  forall w, wp d m w (fun w' _ => calls_only P w w').

Definition isBrowserCall (c : Call) : Prop := isStorageCall c = false.

(** The calls made to the storage service. *)
Definition storageCalls (t : list Event) : list Call := filter isStorageCall (calls t).

(** *** The two handlers as one orchestration

    [postPdf] and [postImage] differ in the schema, the engine and the way
    the file name, the content type and the metadata are built. *)
Module Orchestration.
Record t (R : Type) := mk {
  kind : JobType;
  schema : Zod.ZodType R;
  url : R -> string;
  engine : R -> M (list byte);
  filename : R -> string -> string;
  contentType : R -> string;
  uploadToStorage : R -> bool;
  storagePath : R -> option string;
  metadata : R -> Z -> Metadata.t;
}.
Arguments kind {R} _.
Arguments schema {R} _.
Arguments url {R} _.
Arguments engine {R} _.
Arguments filename {R} _.
Arguments contentType {R} _.
Arguments uploadToStorage {R} _.
Arguments storagePath {R} _.
Arguments metadata {R} _.
End Orchestration.

Definition pdfOrchestration (env : Env.t) (x : Run.t)
  : Orchestration.t PdfRenderRequest.t :=
  Orchestration.mk _ pdf PdfRenderRequestSchema PdfRenderRequest.url
    (renderPdf env x)
    (fun request timestamp =>
       if falsy (PdfRenderRequest.filename request)
       then "render-" +:+ timestamp +:+ ".pdf"
       else default "" (PdfRenderRequest.filename request) +:+ ".pdf")
    (fun _ => "application/pdf")
    PdfRenderRequest.uploadToStorage PdfRenderRequest.storagePath
    (fun _ ms => Metadata.mk ms pdfOutput None None None).

Definition imageOrchestration (env : Env.t) (x : Run.t)
  : Orchestration.t ImageRenderRequest.t :=
  Orchestration.mk _ image ImageRenderRequestSchema ImageRenderRequest.url
    (renderImage env x)
    (fun request timestamp =>
       if falsy (ImageRenderRequest.filename request)
       then "render-" +:+ timestamp +:+ "."
              +:+ ImageFormat_text (ImageRenderRequest.format request)
       else default "" (ImageRenderRequest.filename request) +:+ "."
              +:+ ImageFormat_text (ImageRenderRequest.format request))
    (fun request =>
       match ImageRenderRequest.format request with
       | jpeg => "image/jpeg"
       | webp => "image/webp"
       | png => "image/png"
       end)
    ImageRenderRequest.uploadToStorage ImageRenderRequest.storagePath
    (fun request ms =>
       Metadata.mk ms (imageOutput (ImageRenderRequest.format request)) None
         (Some (ImageRenderRequest.width request))
         (Some (ImageRenderRequest.height request))).

Definition orchestrate {R} (env : Env.t) (x : Run.t) (o : Orchestration.t R)
  (req : Request.t) : M HttpResponse.t :=
  let jobId := Run.uuid x in
  let* startTime := Date_now in
  let* startedAt := Date_now in
  let* job :=
    newJob (RenderJob.mk jobId (Orchestration.kind o)
              (orElse (prop "url" (Request.body req)) (JStr "unknown"))
              startedAt pending) in
  try_finally
    (try_catch
       (let* request := parseBody (Orchestration.schema o) (Request.body req) in
        setUrl job (JStr (Orchestration.url o request)) ;;;
        registerJob job ;;;
        updateJobStatus jobId rendering ;;;
        let* buffer := await (Run.othersDuringRender x) (Orchestration.engine o request) in
        let* timestamp := timestampNow x in
        let filename := Orchestration.filename o request timestamp in
        let* response :=
          if Orchestration.uploadToStorage o request then
            updateJobStatus jobId uploading ;;;
            let* uploadResult :=
              await (Run.othersDuringUpload x)
                (uploadFile env x buffer filename (Orchestration.contentType o request)
                   (Orchestration.storagePath o request)) in
            let* now := Date_now in
            ret (RenderSuccessResponse.mk jobId
                   (Some (UploadResult.signedUrl uploadResult)) None
                   filename (length buffer)
                   (Some (UploadResult.expiresAt uploadResult))
                   (Orchestration.metadata o request (now - startTime)))
          else
            let* now := Date_now in
            ret (RenderSuccessResponse.mk jobId None
                   (Some ("data:" +:+ Orchestration.contentType o request +:+ ";base64,"
                            +:+ Base64.encode buffer))
                   filename (length buffer) None
                   (Orchestration.metadata o request (now - startTime))) in
        updateJobStatus jobId completed ;;;
        res_json response)
       (catchRenderError env jobId))
    (removeJob jobId).

(** The runs of an orchestration, path by path. *)
Section Outcome.
Context {R : Type} (env : Env.t) (x : Run.t) (o : Orchestration.t R)
  (req : Request.t) (w : World.t).

(** The job object of the request. *)
Definition theJob : loc := fresh (dom (World.heap w)).

(** The world once the job object exists. *)
Definition created : World.t :=
  exec (newJob (RenderJob.mk (Run.uuid x) (Orchestration.kind o)
                  (orElse (prop "url" (Request.body req)) (JStr "unknown"))
                  (World.clock w) pending)) w.

(** The world in which the engine is started. *)
Definition renderStart (request : R) : World.t :=
  exec (updateJobStatus (Run.uuid x) rendering)
    (exec (registerJob theJob)
       (exec (setUrl theJob (JStr (Orchestration.url o request))) created)).

(** The world in which the upload is started, the engine having settled
    in [w3]. *)
Definition uploadStart (w3 : World.t) : World.t :=
  exec (updateJobStatus (Run.uuid x) uploading) (resume (Run.othersDuringRender x) w3).

(** The last two steps of every path. *)
Definition settle (s : JobStatus) (w1 : World.t) : World.t :=
  exec (removeJob (Run.uuid x)) (exec (updateJobStatus (Run.uuid x) s) w1).

Definition failure (e : Exn) : HttpResponse.t :=
  HttpResponse.mk
    (getStatusCode (RenderErrorResponse.error (handleRenderError env e (Run.uuid x))))
    (ErrorBody (handleRenderError env e (Run.uuid x))).

Definition fileNameAt (request : R) (w3 : World.t) : string :=
  Orchestration.filename o request
    (Js.dashColonsDots (Run.toISOString x (World.clock w3))).

Definition inlineResponse (request : R) (w3 : World.t) (buffer : list byte)
  : RenderSuccessResponse.t :=
  RenderSuccessResponse.mk (Run.uuid x) None
    (Some ("data:" +:+ Orchestration.contentType o request +:+ ";base64,"
             +:+ Base64.encode buffer))
    (fileNameAt request w3) (length buffer) None
    (Orchestration.metadata o request (World.clock w3 - World.clock w)).

Definition uploadedResponse (request : R) (w3 w5 : World.t) (buffer : list byte)
  (u : UploadResult.t) : RenderSuccessResponse.t :=
  RenderSuccessResponse.mk (Run.uuid x)
    (Some (UploadResult.signedUrl u)) None
    (fileNameAt request w3) (length buffer)
    (Some (UploadResult.expiresAt u))
    (Orchestration.metadata o request (World.clock w5 - World.clock w)).

Inductive Outcome : option (World.t * Completion HttpResponse.t) -> Prop :=
| invalid errors :
    Zod.parse (Orchestration.schema o) (Request.body req) = inl errors ->
    Outcome (Some (settle failed created, Normal (failure (ZodError errors))))
| engine_pending request :
    Zod.parse (Orchestration.schema o) (Request.body req) = inr request ->
    Orchestration.engine o request (renderStart request) = None ->
    Outcome None
| engine_threw request w3 e :
    Zod.parse (Orchestration.schema o) (Request.body req) = inr request ->
    Orchestration.engine o request (renderStart request) = Some (w3, Throw e) ->
    Outcome (Some (settle failed (resume (Run.othersDuringRender x) w3),
                   Normal (failure e)))
| answered_inline request w3 buffer :
    Zod.parse (Orchestration.schema o) (Request.body req) = inr request ->
    Orchestration.engine o request (renderStart request) = Some (w3, Normal buffer) ->
    Orchestration.uploadToStorage o request = false ->
    Outcome (Some (settle completed (resume (Run.othersDuringRender x) w3),
                   Normal (HttpResponse.mk 200
                             (SuccessBody (inlineResponse request w3 buffer)))))
| upload_threw request w3 buffer w5 e :
    Zod.parse (Orchestration.schema o) (Request.body req) = inr request ->
    Orchestration.engine o request (renderStart request) = Some (w3, Normal buffer) ->
    Orchestration.uploadToStorage o request = true ->
    uploadFile env x buffer (fileNameAt request w3) (Orchestration.contentType o request)
      (Orchestration.storagePath o request) (uploadStart w3) = Some (w5, Throw e) ->
    Outcome (Some (settle failed (resume (Run.othersDuringUpload x) w5),
                   Normal (failure e)))
| answered_uploaded request w3 buffer w5 u :
    Zod.parse (Orchestration.schema o) (Request.body req) = inr request ->
    Orchestration.engine o request (renderStart request) = Some (w3, Normal buffer) ->
    Orchestration.uploadToStorage o request = true ->
    uploadFile env x buffer (fileNameAt request w3) (Orchestration.contentType o request)
      (Orchestration.storagePath o request) (uploadStart w3) = Some (w5, Normal u) ->
    Outcome (Some (settle completed (resume (Run.othersDuringUpload x) w5),
                   Normal (HttpResponse.mk 200
                             (SuccessBody (uploadedResponse request w3 w5 buffer u))))).

End Outcome.

(** *** Validation *)

(** The per-key reading of [ImageRenderRequestSchema]: the issues each key
    of the shape raises on the properties of a body. *)
Definition imageKeyIssues (props : list (string * json)) : list (string * list Zod.Issue) :=
  let o : Zod.Props := ([], props) in
  [ ("url", Zod.issues (Zod.key o "url" (Zod.minLength 1 Zod.string_)));
    ("authToken", Zod.issues (Zod.key o "authToken" (Zod.optional Zod.string_)));
    ("format", Zod.issues (Zod.key o "format"
        (Zod.default (JStr "png")
           (Zod.enum [("png", png); ("jpeg", jpeg); ("webp", webp)]))));
    ("quality", Zod.issues (Zod.key o "quality"
        (Zod.default (JNum 90) (Zod.max 100 (Zod.min 1 Zod.number)))));
    ("width", Zod.issues (Zod.key o "width"
        (Zod.default (JNum 1080) (Zod.max 4096 (Zod.min 1 Zod.number)))));
    ("height", Zod.issues (Zod.key o "height"
        (Zod.default (JNum 1080) (Zod.max 4096 (Zod.min 1 Zod.number)))));
    ("scale", Zod.issues (Zod.key o "scale"
        (Zod.default (JNum 1) (Zod.max 3 (Zod.min 1 Zod.number)))));
    ("filename", Zod.issues (Zod.key o "filename" (Zod.optional Zod.string_)));
    ("uploadToStorage", Zod.issues (Zod.key o "uploadToStorage"
        (Zod.default (JBool true) Zod.boolean)));
    ("storagePath", Zod.issues (Zod.key o "storagePath" (Zod.optional Zod.string_))) ].

(** The per-key reading of [PdfRenderRequestSchema]. *)
Definition pdfKeyIssues (props : list (string * json)) : list (string * list Zod.Issue) :=
  let o : Zod.Props := ([], props) in
  [ ("url", Zod.issues (Zod.key o "url" (Zod.minLength 1 Zod.string_)));
    ("authToken", Zod.issues (Zod.key o "authToken" (Zod.optional Zod.string_)));
    ("paperSize", Zod.issues (Zod.key o "paperSize"
        (Zod.default (JStr "A4")
           (Zod.enum [("A4", A4); ("Letter", Letter); ("Legal", Legal)]))));
    ("orientation", Zod.issues (Zod.key o "orientation"
        (Zod.default (JStr "portrait")
           (Zod.enum [("portrait", portrait); ("landscape", landscape)]))));
    ("printBackground", Zod.issues (Zod.key o "printBackground"
        (Zod.default (JBool true) Zod.boolean)));
    ("margins", Zod.issues (Zod.key o "margins" (Zod.default (JObj []) MarginsSchema)));
    ("filename", Zod.issues (Zod.key o "filename" (Zod.optional Zod.string_)));
    ("uploadToStorage", Zod.issues (Zod.key o "uploadToStorage"
        (Zod.default (JBool true) Zod.boolean)));
    ("storagePath", Zod.issues (Zod.key o "storagePath" (Zod.optional Zod.string_))) ].

(** A result without issues carries a value. *)
Definition settled {A} (r : Zod.Parsed A) : Prop :=
  Zod.issues r = [] -> is_Some (Zod.value r).

(** The issues of a schema that is not an object are raised at the path it
    was given. *)
Definition flat {A} (t : Zod.ZodType A) : Prop :=
  forall p v i, i ∈ Zod.issues (t p v) -> Zod.path i = p.

(** The issues of a schema are raised at or below the path it was given. *)
Definition rooted {A} (t : Zod.ZodType A) : Prop :=
  forall p v i, i ∈ Zod.issues (t p v) -> exists rest, Zod.path i = p ++ rest.

(** *** Messages *)

(** The fixed message of a READY_FLAG_TIMEOUT answer. *)
Definition readyMessage : string :=
  "Page did not signal render ready in time. Ensure __RENDER_READY__ is set.".

(** The message of the readiness detector's failure. *)
Definition readyFlagTimeoutMessage (timeout : Z) : string :=
  "READY_FLAG_TIMEOUT: __RENDER_READY__ flag not set within "
    +:+ Js.numberToString timeout +:+ "ms".

(** *** The life of a job

    The statuses a job object goes through and the answer given, according
    to whether the validated request asks for an upload ([None]: the body
    did not validate). *)
Definition isFailure (c : Completion HttpResponse.t) : Prop :=
  exists s r, c = Normal (HttpResponse.mk s (ErrorBody r)).

Definition isInline (c : Completion HttpResponse.t) : Prop :=
  exists r, c = Normal (HttpResponse.mk 200 (SuccessBody r)) /\
            RenderSuccessResponse.url r = None /\
            is_Some (RenderSuccessResponse.dataUrl r).

Definition isLink (c : Completion HttpResponse.t) : Prop :=
  exists r, c = Normal (HttpResponse.mk 200 (SuccessBody r)) /\
            is_Some (RenderSuccessResponse.url r) /\
            RenderSuccessResponse.dataUrl r = None.

Inductive Lifecycle : option bool -> list JobStatus -> Completion HttpResponse.t -> Prop :=
| life_invalid c : isFailure c -> Lifecycle None [pending] c
| life_render_failed up c :
    isFailure c -> Lifecycle (Some up) [pending; rendering; failed] c
| life_inline c :
    isInline c -> Lifecycle (Some false) [pending; rendering; completed] c
| life_upload_failed c :
    isFailure c -> Lifecycle (Some true) [pending; rendering; uploading; failed] c
| life_link c :
    isLink c -> Lifecycle (Some true) [pending; rendering; uploading; completed] c.

Definition uploadRequested {R} (o : Orchestration.t R) (req : Request.t) : option bool :=
  match Zod.parse (Orchestration.schema o) (Request.body req) with
  | inr request => Some (Orchestration.uploadToStorage o request)
  | inl _ => None
  end.

(** ** Sample runs *)

Definition sampleEnv : Env.t :=
  Env.mk production "secret" None None "renders" 3600 "http://app.local/" 2 15000 10000.

Definition sampleBrowser : Browser.t :=
  Browser.mk (20, inr tt) (10, inr tt) (5, inr tt) (300, inr tt)
    (Some (40, inr tt)) (fun t => 600 <=? t)
    (80, inr [x25; x50; x44; x46]%byte) (5, inr tt) (5, inr tt).

Definition sampleStorage : Storage.t :=
  Storage.mk (120, inr None) (30, inr (Some "https://storage.local/signed", None)).

Definition sampleRun : Run.t :=
  Run.mk "job-1" (fun path base => inr (base +:+ path))
    (fun u k v => u +:+ "?" +:+ k +:+ "=" +:+ v)
    (fun _ => "2026-02-02T10:30:00.000Z")
    sampleBrowser sampleStorage (fun r => r) (fun r => r).

Definition emptyWorld : World.t := World.mk 0 true None ∅ ∅ [].

Definition pdfRequest (body : json) : Request.t :=
  Request.mk (Some "secret") None PostPdf (Some body).

(** A budget of 10050 ms, and a page that sets its flag 10060 ms after the
    fonts are ready. *)
Definition lateEnv : Env.t :=
  Env.mk production "secret" None None "renders" 3600 "http://app.local/" 2 15000 10050.

Definition lateBrowser : Browser.t :=
  Browser.mk (20, inr tt) (10, inr tt) (5, inr tt) (300, inr tt)
    (Some (0, inr tt)) (fun t => 10060 <=? t)
    (80, inr [x25; x50; x44; x46]%byte) (5, inr tt) (5, inr tt).

Definition sampleJob : RenderJob.t := RenderJob.mk "a" pdf (JStr "/report") 0 pending.
Definition sampleWorld : World.t :=
  World.mk 0 true None {[ 1%positive := sampleJob ]} {[ "a" := 1%positive ]} [].

Definition inlinePdfBody : json :=
  JObj [("url", JStr "/render/a4/invoice-123"); ("uploadToStorage", JBool false)].

Definition inlinePdfRequest : PdfRenderRequest.t :=
  PdfRenderRequest.mk "/render/a4/invoice-123" None A4 portrait true
    (Margins.mk "20mm" "20mm" "15mm" "15mm") None false None.

Definition storedPdfBody : json := JObj [("url", JStr "/render/a4/invoice-123")].

Definition storedPdfRequest : PdfRenderRequest.t :=
  PdfRenderRequest.mk "/render/a4/invoice-123" None A4 portrait true
    (Margins.mk "20mm" "20mm" "15mm" "15mm") None true None.

Definition productionEnv : Env.t :=
  Env.mk production "secret" (Some "https://project.supabase.co") (Some "service-role")
    "renders" 3600 "http://app.local" 2 15000 10000.

Definition developmentEnv : Env.t :=
  Env.mk development "secret" (Some "https://project.supabase.co") (Some "service-role")
    "renders" 3600 "http://app.local" 2 15000 10000.

Definition boundaryBody : json :=
  JObj [("url", JStr "/render/social/post-456");
        ("width", JNum 4096); ("height", JNum 4096); ("scale", JNum 3)].

Definition oversizedProps : list (string * json) :=
  [("url", JStr "/render/social/post-456"); ("width", JNum 4097); ("quality", JNum 0)].

Definition secondJob : RenderJob.t := RenderJob.mk "b" image (JStr "/card") 5 rendering.

(** A world with two jobs in flight. *)
Definition busyWorld : World.t :=
  World.mk 10 true None
    {[ 1%positive := sampleJob; 2%positive := secondJob ]}
    {[ "a" := 1%positive; "b" := 2%positive ]} [].

Definition anonymousRequest : Request.t := Request.mk None None PostPdf None.

(** A page that never sets its flag. *)
Definition silentRun : Run.t :=
  Run.mk "job-2" (Run.newURL sampleRun) (Run.setSearchParam sampleRun)
    (Run.toISOString sampleRun)
    (Browser.mk (20, inr tt) (10, inr tt) (5, inr tt) (300, inr tt)
       (Some (40, inr tt)) (fun _ => false)
       (80, inr [x25; x50; x44; x46]%byte) (5, inr tt) (5, inr tt))
    sampleStorage (fun r => r) (fun r => r).

(** ** More of the service *)

(** ** config/env.ts: the Chromium settings *)

(** [v.split(c)] for a one-character separator: the pieces between the
    separators, of which there is always at least one. *)
Fixpoint split (c : ascii) (s : string) : list string :=
  match s with
  | EmptyString => [EmptyString]
  | String a s' =>
      if Ascii.eqb a c then EmptyString :: split c s'
      else match split c s' with
           | piece :: pieces => String a piece :: pieces
           | [] => [String a EmptyString]
           end
  end.

(** [l.join(sep)] *)
Fixpoint join (sep : string) (l : list string) : string :=
  match l with
  | [] => EmptyString
  | [s] => s
  | s :: l' => s +:+ sep +:+ join sep l'
  end.

(** [CHROMIUM_HEADLESS: z.string().transform((v) => v === "true").default("true")] *)
Definition load_CHROMIUM_HEADLESS (raw : option string) : bool :=
  String.eqb (default "true" raw) "true".

(** [CHROMIUM_ARGS: z.string().transform((v) => v.split(",").filter(Boolean))
    .default("--no-sandbox,--disable-setuid-sandbox,--disable-dev-shm-usage")] *)
Definition load_CHROMIUM_ARGS (raw : option string) : list string :=
  List.filter (fun piece => negb (String.eqb piece ""))
    (split ","
       (default "--no-sandbox,--disable-setuid-sandbox,--disable-dev-shm-usage" raw)).

(** ** services/playwright.ts: the life of the browser *)

Definition setBrowser (b : bool) : M unit := fun w =>
  Some (World.mk (World.clock w) b (World.supabase w) (World.heap w)
          (World.activeJobs w) (World.trace w),
        Normal tt).

(** [initBrowser]; [launch] is how long [chromium.launch] takes and how it
    settles. *)
Definition initBrowser (launch : Z * (Exn + unit)) : M unit := fun w =>
  if World.browser w then Some (w, Normal tt)
  else
    (elapse launch.1 ;;;
     match launch.2 with
     | inl e => throw e
     | inr _ => setBrowser true
     end) w.

(** [closeBrowser]; [close] is how [browser.close()] settles. *)
Definition closeBrowser (close : Z * (Exn + unit)) : M unit := fun w =>
  if World.browser w then
    (elapse close.1 ;;;
     match close.2 with
     | inl e => throw e
     | inr _ => setBrowser false
     end) w
  else Some (w, Normal tt).

(** ** routes/health.ts *)

Inductive HealthStatus := healthy | degraded | unhealthy.

Module HealthJob.
Record t := mk { id : string; type : JobType; status : JobStatus; startedAt : string }.
End HealthJob.

Module HealthResponse.
Record t := mk {
  status : HealthStatus;
  timestamp : string;
  uptime : Z;
  version : string;
  environment : NodeEnv;
  active : nat;
  maxConcurrent : Z;
  details : option (list HealthJob.t);
}.
End HealthResponse.

(** What the route reads of the process: the time the module was loaded,
    [process.env.npm_package_version], and the platform's [toISOString]. *)
Module Process.
Record t := mk {
  startTime : Z;
  npm_package_version : option string;
  toISOString : Z -> string;
}.
End Process.

(** [getActiveJobs().map((job) => ({ id, type, status, startedAt }))] *)
Definition jobDetails (p : Process.t) : M (list HealthJob.t) :=
  let* jobs := getActiveJobs in
  fun w =>
    Some (w, Normal (omap (fun job =>
                             match World.heap w !! job with
                             | Some j =>
                                 Some (HealthJob.mk (RenderJob.id j) (RenderJob.type j)
                                         (RenderJob.status j)
                                         (Process.toISOString p (RenderJob.startedAt j)))
                             | None => None
                             end) jobs)).

(** GET /health: the status code and the body. *)
Definition getHealth (env : Env.t) (p : Process.t) : M (Z * HealthResponse.t) :=
  let* activeJobs := getActiveJobCount in
  let isAtCapacity := Z.of_nat activeJobs >=? Env.MAX_CONCURRENT_JOBS env in
  let* now := Date_now in
  let* now' := Date_now in
  let status := if isAtCapacity then degraded else healthy in
  let* details :=
    match Env.NODE_ENV env with
    | production => ret None
    | _ => let* jobs := jobDetails p in ret (Some jobs)
    end in
  ret (match status with healthy => 200 | _ => 503 end,
       HealthResponse.mk status
         (Process.toISOString p now)
         ((now' - Process.startTime p) / 1000)
         (if falsy (Process.npm_package_version p) then "1.0.0"
          else default "" (Process.npm_package_version p))
         (Env.NODE_ENV env)
         activeJobs
         (Env.MAX_CONCURRENT_JOBS env)
         details).

(** *** The calls of one render *)

(** What the engines do with a page, in order. *)
Definition pageSteps (env : Env.t) (url : string) (capture : Call) : list Call :=
  [ PageGoto url (Env.NAVIGATION_TIMEOUT_MS env);
    PageEvaluateFontsReady;
    PageEvaluateReadyFlag (Env.READY_FLAG_TIMEOUT_MS env);
    PageWaitForTimeout 150;
    capture ].

Definition pdfCapture (request : PdfRenderRequest.t) : Call :=
  PagePdf (PdfRenderRequest.paperSize request)
    (match PdfRenderRequest.orientation request with
     | landscape => true | portrait => false end)
    (PdfRenderRequest.printBackground request)
    (PdfRenderRequest.margins request).

Definition imageCapture (request : ImageRenderRequest.t) : Call :=
  PageScreenshot
    (match ImageRenderRequest.format request with
     | jpeg => true | webp => false | png => false end)
    (match ImageRenderRequest.format request with
     | jpeg => Some (ImageRenderRequest.quality request)
     | _ => None end).

Definition imageContext (request : ImageRenderRequest.t) : Call :=
  BrowserNewContext (ImageRenderRequest.width request)
    (ImageRenderRequest.height request) (ImageRenderRequest.scale request).

(** The calls of a render, given those made between the opening of the page
    and its closing: nothing without a browser, no closing of what was not
    opened. *)
Definition renderCalls (w : World.t) (b : Browser.t) (context : Call)
  (onPage : list Call) : list Call :=
  if World.browser w then
    match (Browser.newContext b).2, (Browser.newPage b).2 with
    | inl _, _ => [context]
    | inr _, inl _ => [context; ContextNewPage; ContextClose]
    | inr _, inr _ => [context; ContextNewPage] ++ onPage ++ [PageClose; ContextClose]
    end
  else [].

(** The same run, the two closings settling otherwise. *)
Definition closingWith (closePage closeContext : Z * (Exn + unit)) (x : Run.t) : Run.t :=
  let b := Run.browser x in
  Run.mk (Run.uuid x) (Run.newURL x) (Run.setSearchParam x) (Run.toISOString x)
    (Browser.mk (Browser.newContext b) (Browser.newPage b) (Browser.emulateMedia b)
       (Browser.goto b) (Browser.fontsReady b) (Browser.renderReady b)
       (Browser.capture b) closePage closeContext)
    (Run.storage x) (Run.othersDuringRender x) (Run.othersDuringUpload x).

(** A storage path with something in it and no slash at either end. *)
Definition trimmed (p : string) : Prop :=
  p <> "" /\ Js.startsWith "/" p = false /\ Js.endsWithChar "/" p = false.

(** A world in which the storage client exists. *)
Definition storageWorld : World.t :=
  World.mk 0 true (Some (SupabaseClient.mk "https://project.supabase.co" "service-role"))
    ∅ ∅ [].

(** A request for a WebP image, returned inline. *)
Definition webpBody : json :=
  JObj [("url", JStr "/render/social/post-456"); ("format", JStr "webp");
        ("uploadToStorage", JBool false)].

(** The texts of the enumerations of [PdfRenderRequestSchema]. *)
Definition PaperSize_text (s : PaperSize) : string :=
  match s with A4 => "A4" | Letter => "Letter" | Legal => "Legal" end.

Definition Orientation_text (o : Orientation) : string :=
  match o with portrait => "portrait" | landscape => "landscape" end.

(** * Properties *)

(** ** The embedding at work *)

Example base64_of_Man : Base64.encode ["M"; "a"; "n"]%byte = "TWFu".
Proof. reflexivity. Qed.

Example base64_padding :
  Base64.encode ["M"; "a"]%byte = "TWE=" /\ Base64.encode ["M"]%byte = "TQ==".
Proof. split; reflexivity. Qed.

Example base64_back : Base64.decode "TWE=" = Some ["M"; "a"]%byte.
Proof. reflexivity. Qed.

Example storage_path_trimmed : Js.trimSlashes "/org-123/invoices/" = "org-123/invoices".
Proof. reflexivity. Qed.

Example timestamp_made_safe :
  Js.dashColonsDots "2026-02-02T10:30:00.000Z" = "2026-02-02T10-30-00-000Z".
Proof. reflexivity. Qed.

Example storage_marker_removed :
  Js.replace "STORAGE_FAILED: " "" "STORAGE_FAILED: Failed to create signed URL"
    = "Failed to create signed URL".
Proof. reflexivity. Qed.

Example two_issues_at_once :
  Zod.parse ImageRenderRequestSchema (Some (JObj oversizedProps))
    = inl [Zod.mkIssue Zod.too_small ["quality"]; Zod.mkIssue Zod.too_big ["width"]].
Proof. vm_compute. reflexivity. Qed.

Example never_ready_run :
  match postPdf sampleEnv silentRun (pdfRequest inlinePdfBody) emptyWorld with
  | Some (w', Normal (HttpResponse.mk status (ErrorBody r))) =>
      status = 408 /\
      RenderErrorResponse.error r = READY_FLAG_TIMEOUT /\
      statuses 1%positive (World.trace w') = [pending; rendering; failed] /\
      World.clock w' = 20 + 10 + 300 + 40 + 101 * 100 + 5 + 5
  | _ => False
  end.
Proof. vm_compute. repeat split. Qed.

Example full_house_rejected :
  match render sampleEnv sampleRun (pdfRequest inlinePdfBody) busyWorld with
  | Some (w', Normal (HttpResponse.mk status (ErrorBody r))) =>
      w' = busyWorld /\ status = 503 /\
      RenderErrorResponse.message r
        = "Server is at capacity. Max 2 concurrent jobs allowed. Please retry later."
  | _ => False
  end.
Proof. vm_compute. repeat split. Qed.

Example inline_pdf_run :
  match postPdf sampleEnv sampleRun (pdfRequest inlinePdfBody) emptyWorld with
  | Some (w', Normal r) =>
      HttpResponse.statusCode r = 200 /\
      statuses 1%positive (World.trace w') = [pending; rendering; completed] /\
      World.clock w' = 20 + 10 + 300 + 40 + 3 * 100 + 150 + 80 + 5 + 5
  | _ => False
  end.
Proof. vm_compute. repeat split. Qed.

(** ** The handlers are orchestrations, and their runs are the listed paths *)

Lemma postPdf_orchestrate env x req :
  postPdf env x req = orchestrate env x (pdfOrchestration env x) req.
Proof. reflexivity. Qed.

Lemma postImage_orchestrate env x req :
  postImage env x req = orchestrate env x (imageOrchestration env x) req.
Proof. reflexivity. Qed.

Lemma updateJobStatus_exec id s w :
  updateJobStatus id s w = Some (exec (updateJobStatus id s) w, Normal tt).
Proof. unfold exec, updateJobStatus, setStatus. destruct (_ !! _); reflexivity. Qed.

Lemma registerJob_exec l w :
  registerJob l w = Some (exec (registerJob l) w, Normal tt).
Proof. unfold exec, registerJob. destruct (_ !! _); reflexivity. Qed.

Lemma uploadFile_settles env x buffer filename contentType storagePath w :
  uploadFile env x buffer filename contentType storagePath w <> None.
Proof.
  unfold uploadFile, bind, getClient, call, emit, elapse, Date_now, ret, throw, bind.
  destruct (World.supabase w); [|done].
  destruct (Storage.upload (Run.storage x)) as [d1 [e|[m|]]]; cbn; try done.
  destruct (Storage.createSignedUrl (Run.storage x)) as [d2 [e|[[u|] [m|]]]]; cbn; done.
Qed.

Lemma setUrl_exec l u w : setUrl l u w = Some (exec (setUrl l u) w, Normal tt).
Proof. reflexivity. Qed.
Lemma removeJob_exec id w : removeJob id w = Some (exec (removeJob id) w, Normal tt).
Proof. reflexivity. Qed.

Lemma orchestrate_outcome {R} env x (o : Orchestration.t R) req w :
  Outcome env x o req w (orchestrate env x o req w).
Proof.
  unfold orchestrate.
  cbn [bind Date_now newJob].
  change (World.with_trace _ _) with (created x o req w).
  change (fresh (dom (World.heap w))) with (theJob w).
  unfold try_finally, try_catch, bind, parseBody, catchRenderError, bind.
  destruct (Zod.parse _ _) as [errors|request] eqn:Hp.
  - cbn [throw]. rewrite updateJobStatus_exec. cbn [ret]. rewrite removeJob_exec.
    exact (invalid env x o req w errors Hp).
  - cbn [ret]. rewrite setUrl_exec, registerJob_exec, updateJobStatus_exec.
    change (exec (updateJobStatus _ _) _) with (renderStart x o req w request).
    unfold await.
    destruct (Orchestration.engine o request _) as [[w3 [buffer|e]]|] eqn:He.
    + fold (resume (Run.othersDuringRender x) w3).
      cbn [timestampNow bind Date_now ret].
      destruct (Orchestration.uploadToStorage o request) eqn:Hu.
      * rewrite updateJobStatus_exec.
        change (exec (updateJobStatus _ _) _) with (uploadStart x w3).
        change (Js.dashColonsDots _) with
          (Js.dashColonsDots (Run.toISOString x (World.clock w3))).
        fold (fileNameAt x o request w3).
        destruct (uploadFile _ _ _ _ _ _ _) as [[w5 [u|e]]|] eqn:Hup.
        -- fold (resume (Run.othersDuringUpload x) w5).
           cbn [res_json ret]. rewrite updateJobStatus_exec. cbn [removeJob].
           exact (answered_uploaded env x o req w request w3 buffer w5 u Hp He Hu Hup).
        -- fold (resume (Run.othersDuringUpload x) w5).
           rewrite updateJobStatus_exec. cbn [removeJob].
           exact (upload_threw env x o req w request w3 buffer w5 e Hp He Hu Hup).
        -- by apply uploadFile_settles in Hup.
      * cbn [res_json ret]. rewrite updateJobStatus_exec. cbn [removeJob].
        exact (answered_inline env x o req w request w3 buffer Hp He Hu).
    + fold (resume (Run.othersDuringRender x) w3).
      rewrite updateJobStatus_exec. cbn [removeJob].
      exact (engine_threw env x o req w request w3 e Hp He).
    + exact (engine_pending env x o req w request Hp He).
Qed.


(** *** Rules for [wp] *)
Section WpRules.
Context {A B : Type} (d : Prop).

Lemma wp_ret (a : A) w Q : Q w (Normal a) -> wp d (ret a) w Q.
Proof. done. Qed.

Lemma wp_throw e w (Q : World.t -> Completion A -> Prop) :
  Q w (Throw e) -> wp d (throw e) w Q.
Proof. done. Qed.

Lemma wp_never w (Q : World.t -> Completion A -> Prop) : d -> wp d never w Q.
Proof. done. Qed.

Lemma wp_bind (m : M A) (k : A -> M B) w Q :
  wp d m w (fun w' c =>
    match c with
    | Normal a => wp d (k a) w' Q
    | Throw e => Q w' (Throw e)
    end) ->
  wp d (bind m k) w Q.
Proof.
  unfold wp, bind. destruct (m w) as [[w' [a|e]]|]; done.
Qed.

Lemma wp_try_catch (m : M A) (h : Exn -> M A) w Q :
  wp d m w (fun w' c =>
    match c with
    | Normal a => Q w' (Normal a)
    | Throw e => wp d (h e) w' Q
    end) ->
  wp d (try_catch m h) w Q.
Proof.
  unfold wp, try_catch. destruct (m w) as [[w' [a|e]]|]; done.
Qed.

Lemma wp_try_finally (m : M A) (f : M unit) w Q :
  wp d m w (fun w' c =>
    wp d f w' (fun w'' c' =>
      Q w'' (match c' with Normal _ => c | Throw e => Throw e end))) ->
  wp d (try_finally m f) w Q.
Proof.
  unfold wp, try_finally. destruct (m w) as [[w' c]|]; [|done].
  destruct (f w') as [[w'' [[]|e]]|]; done.
Qed.

Lemma wp_mono (m : M A) w (Q Q' : World.t -> Completion A -> Prop) :
  (forall w' c, Q w' c -> Q' w' c) -> wp d m w Q -> wp d m w Q'.
Proof.
  unfold wp. destruct (m w) as [[w' c]|]; auto.
Qed.

Lemma wp_call (c : Call) (r : Z * (Exn + A)) w Q :
  Q (World.with_clock (World.clock w + r.1)
       (World.with_trace (World.trace w ++ [Called c]) w))
    (match r.2 with inl e => Throw e | inr a => Normal a end) ->
  wp d (call c r) w Q.
Proof.
  unfold wp, call, bind, emit, elapse. cbn. destruct r.2; done.
Qed.

End WpRules.

Lemma wp_elim {A} d (m : M A) w Q w' c :
  wp d m w Q -> m w = Some (w', c) -> Q w' c.
Proof. unfold wp. intros H E. by rewrite E in H. Qed.

(** *** Computations that only call out *)
Lemma calls_only_refl P w : calls_only P w w.
Proof. split; try done. exists []. split; [by rewrite app_nil_r|constructor]. Qed.

Lemma calls_only_trans P w1 w2 w3 :
  calls_only P w1 w2 -> calls_only P w2 w3 -> calls_only P w1 w3.
Proof.
  intros [Hb Hs Hh Ha (cs & Ht & Hc)] [Hb' Hs' Hh' Ha' (cs' & Ht' & Hc')].
  split; try congruence.
  exists (cs ++ cs'). split.
  - rewrite Ht', Ht, fmap_app. by rewrite app_assoc.
  - by apply Forall_app.
Qed.

Lemma calls_only_call (P : Call -> Prop) c ms w :
  P c ->
  calls_only P w (World.with_clock (World.clock w + ms)
                  (World.with_trace (World.trace w ++ [Called c]) w)).
Proof. intros Hc. split; try done. exists [c]. split; [done|by constructor]. Qed.

Lemma calls_only_clock P t w : calls_only P w (World.with_clock t w).
Proof. split; try done. exists []. split; [by rewrite app_nil_r|constructor]. Qed.


Section External.
Context (P : Call -> Prop) (d : Prop).

Lemma external_ret {A} (a : A) : external P d (ret a).
Proof. intros w. apply wp_ret, calls_only_refl. Qed.

Lemma external_throw {A} e : external P d (@throw A e).
Proof. intros w. apply wp_throw, calls_only_refl. Qed.

Lemma external_never {A} : d -> external P d (@never A).
Proof. intros Hd w. by apply wp_never. Qed.

Lemma external_call {A} c (r : Z * (Exn + A)) : P c -> external P d (call c r).
Proof. intros Hc w. apply wp_call. by apply calls_only_call. Qed.

Lemma external_bind {A B} (m : M A) (k : A -> M B) :
  external P d m -> (forall a, external P d (k a)) -> external P d (bind m k).
Proof.
  intros Hm Hk w. apply wp_bind. eapply wp_mono; [|apply Hm].
  intros w' [a|e] Hw; [|done].
  eapply wp_mono; [|apply Hk]. intros w'' c'' Hw'. cbn in *. by eapply calls_only_trans.
Qed.

Lemma external_try_catch {A} (m : M A) h :
  external P d m -> (forall e, external P d (h e)) -> external P d (try_catch m h).
Proof.
  intros Hm Hh w. apply wp_try_catch. eapply wp_mono; [|apply Hm].
  intros w' [a|e] Hw; [done|].
  eapply wp_mono; [|apply Hh]. intros w'' c'' Hw'. cbn in *. by eapply calls_only_trans.
Qed.

Lemma external_try_finally {A} (m : M A) f :
  external P d m -> external P d f -> external P d (try_finally m f).
Proof.
  intros Hm Hf w. apply wp_try_finally. eapply wp_mono; [|apply Hm].
  intros w' c Hw. eapply wp_mono; [|apply Hf].
  intros w'' c'' Hw'. cbn in *. by eapply calls_only_trans.
Qed.

Lemma external_swallow (m : M unit) : external P d m -> external P d (swallow m).
Proof. intros Hm. apply external_try_catch; [done|]. intros e. apply external_ret. Qed.

Lemma external_Date_now : external P d Date_now.
Proof. intros w. apply calls_only_refl. Qed.

Lemma external_getBrowser : external P d getBrowser.
Proof. intros w. unfold wp, getBrowser. destruct (World.browser w); apply calls_only_refl. Qed.

Lemma external_buildRenderUrl env x path authToken :
  external P d (buildRenderUrl env x path authToken).
Proof.
  unfold buildRenderUrl. destruct (Run.newURL _ _ _); [apply external_throw|apply external_ret].
Qed.

End External.

(** *** The readiness poll *)
Lemma pollReady_true flag start timeout n : forall fuel now,
  (n < fuel)%nat ->
  (forall i, (i < n)%nat ->
     flag (now + 100 * Z.of_nat i) = false /\ now + 100 * Z.of_nat i - start <= timeout) ->
  flag (now + 100 * Z.of_nat n) = true ->
  pollReady flag start timeout fuel now = Some (now + 100 * Z.of_nat n, true).
Proof.
  induction n as [|n IH]; intros fuel now Hfuel Hbefore Hn.
  - destruct fuel as [|fuel]; [lia|]. cbn [pollReady].
    replace (now + 100 * Z.of_nat 0) with now in * by lia. by rewrite Hn.
  - destruct fuel as [|fuel]; [lia|]. cbn [pollReady].
    destruct (Hbefore 0%nat) as [H0 H0']; [lia|].
    replace (now + 100 * Z.of_nat 0) with now in * by lia.
    rewrite H0. destruct (Z.gtb_spec (now - start) timeout); [lia|].
    rewrite (IH fuel (now + 100)).
    + f_equal. f_equal. lia.
    + lia.
    + intros i Hi. destruct (Hbefore (S i)) as [H1 H2]; [lia|].
      replace (now + 100 + 100 * Z.of_nat i) with (now + 100 * Z.of_nat (S i)) by lia.
      done.
    + replace (now + 100 + 100 * Z.of_nat n) with (now + 100 * Z.of_nat (S n)) by lia.
      done.
Qed.

Lemma pollReady_false flag start timeout n : forall fuel now,
  (n < fuel)%nat ->
  (forall i, (i < n)%nat ->
     flag (now + 100 * Z.of_nat i) = false /\ now + 100 * Z.of_nat i - start <= timeout) ->
  flag (now + 100 * Z.of_nat n) = false ->
  now + 100 * Z.of_nat n - start > timeout ->
  pollReady flag start timeout fuel now = Some (now + 100 * Z.of_nat n, false).
Proof.
  induction n as [|n IH]; intros fuel now Hfuel Hbefore Hn Hlate.
  - destruct fuel as [|fuel]; [lia|]. cbn [pollReady].
    replace (now + 100 * Z.of_nat 0) with now in * by lia. rewrite Hn.
    by destruct (Z.gtb_spec (now - start) timeout); [|lia].
  - destruct fuel as [|fuel]; [lia|]. cbn [pollReady].
    destruct (Hbefore 0%nat) as [H0 H0']; [lia|].
    replace (now + 100 * Z.of_nat 0) with now in * by lia.
    rewrite H0. destruct (Z.gtb_spec (now - start) timeout); [lia|].
    rewrite (IH fuel (now + 100)).
    + f_equal. f_equal. lia.
    + lia.
    + intros i Hi. destruct (Hbefore (S i)) as [H1 H2]; [lia|].
      replace (now + 100 + 100 * Z.of_nat i) with (now + 100 * Z.of_nat (S i)) by lia.
      done.
    + replace (now + 100 + 100 * Z.of_nat n) with (now + 100 * Z.of_nat (S n)) by lia.
      done.
    + lia.
Qed.

(** With the ticks [evaluateReadyFlag] allows, the polling always answers. *)
Lemma pollReady_settles flag start timeout : forall fuel now,
  (now - start > timeout /\ (1 <= fuel)%nat) \/
  (now - start <= timeout /\
   (Z.to_nat ((timeout - (now - start)) / 100) + 2 <= fuel)%nat) ->
  is_Some (pollReady flag start timeout fuel now).
Proof.
  induction fuel as [|fuel IH]; intros now Hfuel; [lia|].
  cbn [pollReady]. destruct (flag now); [eauto|].
  destruct (Z.gtb_spec (now - start) timeout) as [Hgt|Hle]; [eauto|].
  apply IH. destruct Hfuel as [[? _]|[_ Hfuel]]; [lia|].
  destruct (Z_lt_le_dec timeout (now + 100 - start)) as [Hlate|Hearly].
  - left. lia.
  - right. split; [lia|].
    assert ((timeout - (now + 100 - start)) / 100 = (timeout - (now - start)) / 100 - 1)
      as -> by (Z.to_euclidean_division_equations; lia).
    assert (1 <= (timeout - (now - start)) / 100)
      by (Z.to_euclidean_division_equations; lia).
    lia.
Qed.

Lemma evaluateReadyFlag_settles flag timeout w :
  is_Some (evaluateReadyFlag flag timeout w).
Proof.
  unfold evaluateReadyFlag. destruct (flag (World.clock w)); [eauto|].
  destruct (pollReady_settles flag (World.clock w) timeout
              (Z.to_nat (timeout / 100) + 2) (World.clock w + 100)) as [[t r] ->];
    [|eauto].
  destruct (Z_lt_le_dec timeout 100).
  - left. lia.
  - right. split; [lia|].
    assert ((timeout - (World.clock w + 100 - World.clock w)) / 100 = timeout / 100 - 1)
      as -> by (Z.to_euclidean_division_equations; lia).
    assert (1 <= timeout / 100) by (Z.to_euclidean_division_equations; lia).
    lia.
Qed.

Lemma external_evaluateReadyFlag P d flag timeout :
  P (PageEvaluateReadyFlag timeout) -> external P d (evaluateReadyFlag flag timeout).
Proof.
  intros HP w. unfold wp.
  destruct (evaluateReadyFlag_settles flag timeout w) as [[w' c] E]. rewrite E.
  unfold evaluateReadyFlag in E.
  assert (calls_only P w
            (World.with_trace (World.trace w ++ [Called (PageEvaluateReadyFlag timeout)]) w))
    as Hw1.
  { split; try done. exists [PageEvaluateReadyFlag timeout]. split; [done|by constructor]. }
  destruct (flag (World.clock w)).
  - by simplify_eq.
  - destruct (pollReady _ _ _ _ _) as [[t r]|]; [|done]. simplify_eq.
    eapply calls_only_trans; [exact Hw1|apply calls_only_clock].
Qed.

Lemma external_waitForRenderReady env b :
  external isBrowserCall (Browser.fontsReady b = None) (waitForRenderReady env b).
Proof.
  unfold waitForRenderReady.
  apply external_bind.
  - destruct (Browser.fontsReady b) eqn:E.
    + by apply external_call.
    + by apply external_never.
  - intros _. apply external_bind; [by apply external_evaluateReadyFlag|].
    intros []; cbn [negb]; [by apply external_call|apply external_throw].
Qed.

Lemma external_renderPdf env x request :
  external isBrowserCall (Browser.fontsReady (Run.browser x) = None)
    (renderPdf env x request).
Proof.
  unfold renderPdf.
  apply external_bind; [apply external_getBrowser|intros _].
  apply external_bind; [by apply external_call|intros _].
  apply external_try_finally; [|by apply external_swallow, external_call].
  apply external_bind; [by apply external_call|intros _].
  apply external_try_finally; [|by apply external_swallow, external_call].
  apply external_bind; [apply external_buildRenderUrl|intros url].
  apply external_bind; [by apply external_call|intros _].
  apply external_bind; [apply external_waitForRenderReady|intros _].
  apply external_bind; [by apply external_call|intros bytes].
  apply external_ret.
Qed.

Lemma external_renderImage env x request :
  external isBrowserCall (Browser.fontsReady (Run.browser x) = None)
    (renderImage env x request).
Proof.
  unfold renderImage.
  apply external_bind; [apply external_getBrowser|intros _].
  apply external_bind; [by apply external_call|intros _].
  apply external_try_finally; [|by apply external_swallow, external_call].
  apply external_bind; [by apply external_call|intros _].
  apply external_try_finally; [|by apply external_swallow, external_call].
  apply external_bind; [by apply external_call|intros _].
  apply external_bind; [apply external_buildRenderUrl|intros url].
  apply external_bind; [by apply external_call|intros _].
  apply external_bind; [apply external_waitForRenderReady|intros _].
  apply external_bind; [by apply external_call|intros bytes].
  apply external_ret.
Qed.

Lemma external_uploadFile d env x buffer filename contentType storagePath :
  external (fun _ => True) d (uploadFile env x buffer filename contentType storagePath).
Proof.
  unfold uploadFile.
  apply external_bind.
  { intros w. unfold wp, getClient. destruct (World.supabase w); apply calls_only_refl. }
  intros client.
  apply external_bind; [by apply external_call|].
  intros [message|]; [apply external_throw|].
  apply external_bind; [by apply external_call|].
  intros [[signedUrl|] [err|]]; try apply external_throw.
  apply external_bind; [apply external_Date_now|intros now]. apply external_ret.
Qed.

(** *** The registry along a run *)
Lemma updateJobStatus_activeJobs id s w :
  World.activeJobs (exec (updateJobStatus id s) w) = World.activeJobs w.
Proof. unfold exec, updateJobStatus, setStatus. by destruct (_ !! _). Qed.

Lemma updateJobStatus_trace id s w :
  World.trace (exec (updateJobStatus id s) w) =
  World.trace w ++
    match World.activeJobs w !! id with Some l => [StatusIs l s] | None => [] end.
Proof.
  unfold exec, updateJobStatus, setStatus.
  destruct (_ !! _); cbn; [done|by rewrite app_nil_r].
Qed.

Lemma updateJobStatus_supabase id s w :
  World.supabase (exec (updateJobStatus id s) w) = World.supabase w.
Proof. unfold exec, updateJobStatus, setStatus. by destruct (_ !! _). Qed.

Lemma settle_absent x s w1 : World.activeJobs (settle x s w1) !! Run.uuid x = None.
Proof. unfold settle, exec at 1, removeJob. cbn. apply lookup_delete_eq. Qed.

Lemma settle_trace x s w1 :
  World.trace (settle x s w1) =
  World.trace w1 ++
    match World.activeJobs w1 !! Run.uuid x with Some l => [StatusIs l s] | None => [] end.
Proof. unfold settle, exec at 1, removeJob. cbn. apply updateJobStatus_trace. Qed.

Lemma orchestrate_answers {R} env x (o : Orchestration.t R) req w w' c :
  orchestrate env x o req w = Some (w', c) ->
  World.activeJobs w' !! Run.uuid x = None /\ exists r, c = Normal r.
Proof.
  intros E. pose proof (orchestrate_outcome env x o req w) as H. rewrite E in H.
  inversion H; subst; (split; [apply settle_absent|eauto]).
Qed.

Lemma orchestrate_settles {R} env x (o : Orchestration.t R) req w :
  (forall request w2, Orchestration.engine o request w2 <> None) ->
  is_Some (orchestrate env x o req w).
Proof.
  intros Hengine. pose proof (orchestrate_outcome env x o req w) as H.
  destruct (orchestrate env x o req w) as [r|]; [eauto|].
  inversion H as [| request Hp He | | | |]. by apply Hengine in He.
Qed.

Lemma renderPdf_settles env x request w :
  Browser.fontsReady (Run.browser x) <> None -> renderPdf env x request w <> None.
Proof.
  intros Hf E. pose proof (external_renderPdf env x request w) as H.
  unfold wp in H. by rewrite E in H.
Qed.

Lemma renderImage_settles env x request w :
  Browser.fontsReady (Run.browser x) <> None -> renderImage env x request w <> None.
Proof.
  intros Hf E. pose proof (external_renderImage env x request w) as H.
  unfold wp in H. by rewrite E in H.
Qed.

(** ** Every request is answered and leaves no job *)

(** C2: whichever way a render request goes (validation, rendering or the
    upload may throw anything, and the other requests may do anything to the
    registry meanwhile), once the handler has finished the job's id is no
    longer in the registry, and the handler has answered instead of
    throwing.  The handler does finish unless the page's fonts never become
    ready. *)
Theorem job_removed_when_request_finishes env x req w :
  (forall w' c, postPdf env x req w = Some (w', c) ->
     World.activeJobs w' !! Run.uuid x = None /\ exists r, c = Normal r) /\
  (forall w' c, postImage env x req w = Some (w', c) ->
     World.activeJobs w' !! Run.uuid x = None /\ exists r, c = Normal r) /\
  (Browser.fontsReady (Run.browser x) <> None ->
     is_Some (postPdf env x req w) /\ is_Some (postImage env x req w)).
Proof.
  split; [|split].
  - intros w' c. rewrite postPdf_orchestrate. apply orchestrate_answers.
  - intros w' c. rewrite postImage_orchestrate. apply orchestrate_answers.
  - intros Hf. split.
    + rewrite postPdf_orchestrate. apply orchestrate_settles.
      intros request w2. by apply renderPdf_settles.
    + rewrite postImage_orchestrate. apply orchestrate_settles.
      intros request w2. by apply renderImage_settles.
Qed.

Lemma job_removed_when_request_finishes_witness :
  Browser.fontsReady (Run.browser sampleRun) <> None /\
  is_Some (postPdf sampleEnv sampleRun (pdfRequest storedPdfBody) busyWorld) /\
  forall w' c,
    postPdf sampleEnv sampleRun (pdfRequest storedPdfBody) busyWorld = Some (w', c) ->
    World.activeJobs w' !! "job-1" = None /\ exists r, c = Normal r.
Proof.
  assert (Browser.fontsReady (Run.browser sampleRun) <> None) as Hfonts by discriminate.
  destruct (job_removed_when_request_finishes sampleEnv sampleRun
              (pdfRequest storedPdfBody) busyWorld) as (Hpdf & _ & Hsettles).
  split; [exact Hfonts|]. split; [exact (proj1 (Hsettles Hfonts))|exact Hpdf].
Defined.

Lemma orchestrate_failure_status {R} env x (o : Orchestration.t R) req w w' s r :
  orchestrate env x o req w = Some (w', Normal (HttpResponse.mk s (ErrorBody r))) ->
  s = getStatusCode (RenderErrorResponse.error r).
Proof.
  intros E. pose proof (orchestrate_outcome env x o req w) as H. rewrite E in H.
  inversion H; subst; try done; unfold failure in *; by simplify_eq.
Qed.

(** C3: [getStatusCode] is the stated table, and every failure response of
    the /render mount (authentication, admission gate, both handlers) has
    the status that [getStatusCode] gives to its error code. *)
Theorem status_code_from_error_code :
  getStatusCode VALIDATION_FAILED = 400 /\
  getStatusCode UNAUTHORIZED = 401 /\
  getStatusCode FORBIDDEN = 403 /\
  getStatusCode CONCURRENCY_LIMIT = 503 /\
  getStatusCode READY_FLAG_TIMEOUT = 408 /\
  getStatusCode NAVIGATION_TIMEOUT = 408 /\
  getStatusCode STORAGE_FAILED = 500 /\
  getStatusCode RENDER_FAILED = 500 /\
  getStatusCode INTERNAL_ERROR = 500 /\
  forall env x req w w' s r,
    render env x req w = Some (w', Normal (HttpResponse.mk s (ErrorBody r))) ->
    s = getStatusCode (RenderErrorResponse.error r).
Proof.
  repeat (split; [reflexivity|]).
  intros env x req w w' s r. unfold render, apiKeyAuth.
  assert (forall w0, concurrencyLimit env (renderRouter env x req) w0
            = Some (w', Normal (HttpResponse.mk s (ErrorBody r))) ->
          s = getStatusCode (RenderErrorResponse.error r)) as Hgate.
  { intros w0. unfold concurrencyLimit.
    destruct (_ >=? _); [intros; by simplify_eq|].
    unfold renderRouter. destruct (Request.route req).
    - rewrite postPdf_orchestrate. apply orchestrate_failure_status.
    - rewrite postImage_orchestrate. apply orchestrate_failure_status.
    - unfold notFound, ret. intros; simplify_eq. }
  destruct (Request.x_api_key req) as [k|].
  - destruct (String.eqb k ""); [unfold ret; intros; by simplify_eq|].
    destruct (negb _); [unfold ret; intros; by simplify_eq|]. apply Hgate.
  - destruct (Request.authorization req) as [a|].
    + destruct (Js.startsWith _ _).
      * destruct (String.eqb _ ""); [unfold ret; intros; by simplify_eq|].
        destruct (negb _); [unfold ret; intros; by simplify_eq|]. apply Hgate.
      * unfold ret; intros; by simplify_eq.
    + unfold ret; intros; by simplify_eq.
Qed.

Lemma status_code_from_error_code_witness :
  exists r,
    render sampleEnv sampleRun anonymousRequest emptyWorld
      = Some (emptyWorld, Normal (HttpResponse.mk 401 (ErrorBody r))) /\
    401 = getStatusCode (RenderErrorResponse.error r).
Proof.
  eexists. split; [reflexivity|].
  destruct status_code_from_error_code as (_ & _ & _ & _ & _ & _ & _ & _ & _ & Hall).
  eapply (Hall sampleEnv sampleRun anonymousRequest emptyWorld). reflexivity.
Defined.

(** ** The job registry *)
Lemma registry_ok_registerJob l w : registry_ok w -> registry_ok (exec (registerJob l) w).
Proof.
  intros Hok k l'. unfold exec, registerJob.
  destruct (World.heap w !! l) as [j|] eqn:Hj; cbn; [|apply Hok].
  destruct (decide (RenderJob.id j = k)) as [<-|Hne].
  - rewrite lookup_insert_eq. intros [= <-]. eauto.
  - rewrite lookup_insert_ne by done. apply Hok.
Qed.

Lemma registry_ok_updateJobStatus id s w :
  registry_ok w -> registry_ok (exec (updateJobStatus id s) w).
Proof.
  intros Hok k l'. unfold exec, updateJobStatus, setStatus.
  destruct (World.activeJobs w !! id) as [l|] eqn:Hl; cbn; [|apply Hok].
  intros Hk. destruct (Hok k l' Hk) as (j & Hj & Hid).
  destruct (decide (l = l')) as [->|Hne].
  - exists (RenderJob.with_status s j). by rewrite lookup_alter_eq, Hj.
  - exists j. by rewrite lookup_alter_ne.
Qed.

Lemma registry_ok_removeJob id w : registry_ok w -> registry_ok (exec (removeJob id) w).
Proof.
  intros Hok k l'. unfold exec, removeJob. cbn.
  intros Hk. apply lookup_delete_Some in Hk as [_ Hk]. by apply Hok.
Qed.

Lemma registry_ok_newJob j w : registry_ok w -> registry_ok (exec (newJob j) w).
Proof.
  intros Hok k l'. unfold exec, newJob. cbn. intros Hk.
  destruct (Hok k l' Hk) as (j' & Hj' & Hid). exists j'. split; [|done].
  rewrite lookup_insert_ne; [done|].
  intros <-. apply (is_fresh (dom (World.heap w))). apply elem_of_dom. eauto.
Qed.

(** C9: [registerJob] enters the job under its id; [updateJobStatus] on a
    registered id changes the [status] field of that job object and nothing
    else (its other fields, every other job object, the registry and so the
    count stay as they were) and leaves the whole world as it is on an id
    that is not registered; [removeJob] deletes the id and only it;
    [getActiveJobCount] and [getActiveJobs] return without changing the
    world. *)
Theorem registry_contract (w : World.t) (jobId : string) (status : JobStatus) (job : loc) :
  (forall j, World.heap w !! job = Some j ->
     registerJob job w = Some (exec (registerJob job) w, Normal tt) /\
     World.activeJobs (exec (registerJob job) w) !! RenderJob.id j = Some job /\
     jobAt (exec (registerJob job) w) (RenderJob.id j) = Some j /\
     (forall k, k <> RenderJob.id j ->
        World.activeJobs (exec (registerJob job) w) !! k = World.activeJobs w !! k) /\
     World.heap (exec (registerJob job) w) = World.heap w) /\
  (forall j, World.activeJobs w !! jobId = Some job -> World.heap w !! job = Some j ->
     updateJobStatus jobId status w = Some (exec (updateJobStatus jobId status) w, Normal tt) /\
     jobAt (exec (updateJobStatus jobId status) w) jobId =
       Some (RenderJob.mk (RenderJob.id j) (RenderJob.type j) (RenderJob.url j)
               (RenderJob.startedAt j) status) /\
     World.activeJobs (exec (updateJobStatus jobId status) w) = World.activeJobs w /\
     size (World.activeJobs (exec (updateJobStatus jobId status) w))
       = size (World.activeJobs w) /\
     (forall l, l <> job ->
        World.heap (exec (updateJobStatus jobId status) w) !! l = World.heap w !! l) /\
     (registry_ok w -> forall k, k <> jobId ->
        jobAt (exec (updateJobStatus jobId status) w) k = jobAt w k)) /\
  (World.activeJobs w !! jobId = None ->
     updateJobStatus jobId status w = Some (w, Normal tt)) /\
  (removeJob jobId w = Some (exec (removeJob jobId) w, Normal tt) /\
   World.activeJobs (exec (removeJob jobId) w) !! jobId = None /\
   (forall k, k <> jobId ->
      World.activeJobs (exec (removeJob jobId) w) !! k = World.activeJobs w !! k) /\
   World.heap (exec (removeJob jobId) w) = World.heap w) /\
  getActiveJobCount w = Some (w, Normal (size (World.activeJobs w))) /\
  (exists jobs, getActiveJobs w = Some (w, Normal jobs)).
Proof.
  repeat split.
  - apply registerJob_exec.
  - unfold exec, registerJob. rewrite H. cbn. apply lookup_insert_eq.
  - unfold jobAt, exec, registerJob. rewrite H. cbn. by rewrite lookup_insert_eq.
  - intros k Hk. unfold exec, registerJob. rewrite H. cbn. by rewrite lookup_insert_ne.
  - unfold exec, registerJob. by rewrite H.
  - apply updateJobStatus_exec.
  - unfold jobAt, exec, updateJobStatus, setStatus. rewrite H. cbn.
    by rewrite H, lookup_alter_eq, H0.
  - apply updateJobStatus_activeJobs.
  - by rewrite updateJobStatus_activeJobs.
  - intros l Hl. unfold exec, updateJobStatus, setStatus. rewrite H. cbn.
    by rewrite lookup_alter_ne.
  - intros Hok k Hk. unfold jobAt. rewrite updateJobStatus_activeJobs.
    destruct (World.activeJobs w !! k) as [l|] eqn:Hkl; [|done].
    unfold exec, updateJobStatus, setStatus. rewrite H. cbn.
    rewrite lookup_alter_ne; [done|].
    intros <-. destruct (Hok _ _ H) as (j1 & Hj1 & Hid1).
    destruct (Hok _ _ Hkl) as (j2 & Hj2 & Hid2). congruence.
  - intros Habsent. unfold updateJobStatus. by rewrite Habsent.
  - unfold exec, removeJob. cbn. apply lookup_delete_eq.
  - intros k Hk. unfold exec, removeJob. cbn. by rewrite lookup_delete_ne.
  - by eexists.
Qed.


Lemma sampleWorld_ok : registry_ok sampleWorld.
Proof.
  intros k l Hk.
  change (({[ "a" := 1%positive ]} : gmap string positive) !! k = Some l) in Hk.
  apply lookup_singleton_Some in Hk as [<- <-].
  exists sampleJob. split; reflexivity.
Defined.

Lemma registry_contract_witness :
  jobAt (exec (updateJobStatus "a" rendering) sampleWorld) "a"
    = Some (RenderJob.mk "a" pdf (JStr "/report") 0 rendering) /\
  size (World.activeJobs (exec (updateJobStatus "a" rendering) sampleWorld)) = 1%nat /\
  jobAt (exec (updateJobStatus "a" rendering) sampleWorld) "b" = jobAt sampleWorld "b" /\
  updateJobStatus "zz" rendering sampleWorld = Some (sampleWorld, Normal tt) /\
  jobAt (exec (registerJob 1%positive) sampleWorld) "a" = Some sampleJob.
Proof.
  destruct (registry_contract sampleWorld "a" rendering 1%positive)
    as (Hreg & Hupd & _ & _ & _ & _).
  destruct (registry_contract sampleWorld "zz" rendering 1%positive)
    as (_ & _ & Habsent & _ & _ & _).
  destruct (Hupd sampleJob eq_refl eq_refl) as (_ & Hjob & _ & Hsize & _ & Hothers).
  destruct (Hreg sampleJob eq_refl) as (_ & _ & Hat & _ & _).
  split; [exact Hjob|].
  split; [exact Hsize|].
  split; [apply (Hothers sampleWorld_ok); discriminate|].
  split; [apply Habsent; reflexivity|].
  exact Hat.
Defined.

(** C1: with as many registered jobs as [MAX_CONCURRENT_JOBS] or more, the
    gate answers 503 CONCURRENCY_LIMIT and the world is left exactly as it
    was: what comes next (the handlers, hence the engine and the
    registration) is not run.  With fewer, the gate hands the request on.
    The same holds of the whole /render mount for a request carrying the API
    key.  The setting defaults to 2 and is accepted from 1 to 10. *)
Theorem admission_gate (env : Env.t) (next : M HttpResponse.t) (w : World.t) :
  (Env.MAX_CONCURRENT_JOBS env <= Z.of_nat (size (World.activeJobs w)) ->
     exists r,
       concurrencyLimit env next w = Some (w, Normal (HttpResponse.mk 503 (ErrorBody r))) /\
       RenderErrorResponse.error r = CONCURRENCY_LIMIT) /\
  (Z.of_nat (size (World.activeJobs w)) < Env.MAX_CONCURRENT_JOBS env ->
     concurrencyLimit env next w = next w) /\
  (forall x req,
     Request.x_api_key req = Some (Env.API_KEY env) -> Env.API_KEY env <> "" ->
     (Env.MAX_CONCURRENT_JOBS env <= Z.of_nat (size (World.activeJobs w)) ->
        exists r,
          render env x req w = Some (w, Normal (HttpResponse.mk 503 (ErrorBody r))) /\
          RenderErrorResponse.error r = CONCURRENCY_LIMIT) /\
     (Z.of_nat (size (World.activeJobs w)) < Env.MAX_CONCURRENT_JOBS env ->
        render env x req w = renderRouter env x req w)) /\
  load_MAX_CONCURRENT_JOBS None = Some 2 /\
  (forall n, 1 <= n <= 10 -> load_MAX_CONCURRENT_JOBS (Some n) = Some n) /\
  (forall n, n < 1 \/ 10 < n -> load_MAX_CONCURRENT_JOBS (Some n) = None).
Proof.
  assert (forall nxt, Env.MAX_CONCURRENT_JOBS env <= Z.of_nat (size (World.activeJobs w)) ->
     exists r,
       concurrencyLimit env nxt w = Some (w, Normal (HttpResponse.mk 503 (ErrorBody r))) /\
       RenderErrorResponse.error r = CONCURRENCY_LIMIT) as Hfull.
  { intros nxt Hle. unfold concurrencyLimit.
    destruct (Z.geb_spec (Z.of_nat (size (World.activeJobs w))) (Env.MAX_CONCURRENT_JOBS env));
      [|lia].
    eexists. split; reflexivity. }
  assert (forall nxt, Z.of_nat (size (World.activeJobs w)) < Env.MAX_CONCURRENT_JOBS env ->
     concurrencyLimit env nxt w = nxt w) as Hroom.
  { intros nxt Hlt. unfold concurrencyLimit.
    by destruct (Z.geb_spec (Z.of_nat (size (World.activeJobs w))) (Env.MAX_CONCURRENT_JOBS env));
      [lia|]. }
  split; [apply Hfull|]. split; [apply Hroom|]. split.
  - intros x req Hkey Hne.
    assert (render env x req w = concurrencyLimit env (renderRouter env x req) w) as ->.
    { unfold render, apiKeyAuth. rewrite Hkey.
      destruct (String.eqb_spec (Env.API_KEY env) ""); [done|].
      by rewrite String.eqb_refl. }
    split; [apply Hfull|apply Hroom].
  - split; [reflexivity|]. split.
    + intros n [H1 H2]. unfold load_MAX_CONCURRENT_JOBS.
      destruct (Z.leb_spec 1 n); [|lia]. by destruct (Z.leb_spec n 10); [|lia].
    + intros n Hn. unfold load_MAX_CONCURRENT_JOBS.
      destruct (Z.leb_spec 1 n); [|done]. by destruct (Z.leb_spec n 10); [lia|].
Qed.

Lemma admission_gate_witness :
  Env.MAX_CONCURRENT_JOBS sampleEnv <= Z.of_nat (size (World.activeJobs busyWorld)) /\
  Request.x_api_key (pdfRequest inlinePdfBody) = Some (Env.API_KEY sampleEnv) /\
  exists r,
    render sampleEnv sampleRun (pdfRequest inlinePdfBody) busyWorld
      = Some (busyWorld, Normal (HttpResponse.mk 503 (ErrorBody r))) /\
    RenderErrorResponse.error r = CONCURRENCY_LIMIT.
Proof.
  assert (Env.MAX_CONCURRENT_JOBS sampleEnv <= Z.of_nat (size (World.activeJobs busyWorld)))
    as Hfull by (vm_compute; discriminate).
  split; [exact Hfull|]. split; [reflexivity|].
  destruct (admission_gate sampleEnv (renderRouter sampleEnv sampleRun (pdfRequest inlinePdfBody))
              busyWorld) as (_ & _ & Hmount & _).
  destruct (Hmount sampleRun (pdfRequest inlinePdfBody) eq_refl) as [Hreject _];
    [discriminate|].
  exact (Hreject Hfull).
Defined.

(** ** The life of a job *)


Lemma statuses_app l t1 t2 : statuses l (t1 ++ t2) = statuses l t1 ++ statuses l t2.
Proof.
  induction t1 as [|[c|l' s] t1 IH]; cbn; [done|done|].
  destruct (Pos.eqb l' l); cbn; by rewrite IH.
Qed.

Lemma statuses_calls l cs : statuses l (Called <$> cs) = [].
Proof. induction cs; cbn; done. Qed.

Lemma statuses_one l s : statuses l [StatusIs l s] = [s].
Proof. cbn. by rewrite Pos.eqb_refl. Qed.

Section Paths.
Context {R : Type} (env : Env.t) (x : Run.t) (o : Orchestration.t R)
  (req : Request.t) (w : World.t).

Lemma created_trace :
  World.trace (created x o req w) = World.trace w ++ [StatusIs (theJob w) pending].
Proof. reflexivity. Qed.

Lemma created_activeJobs : World.activeJobs (created x o req w) = World.activeJobs w.
Proof. reflexivity. Qed.

Lemma renderStart_registered request :
  World.activeJobs (renderStart x o req w request) !! Run.uuid x = Some (theJob w).
Proof.
  unfold renderStart. rewrite updateJobStatus_activeJobs.
  unfold exec at 1, registerJob.
  unfold exec at 1, setUrl. cbn [World.heap World.with_heap].
  unfold created, exec, newJob. cbn [World.heap World.with_heap World.with_trace].
  fold (theJob w). rewrite lookup_alter_eq, lookup_insert_eq. cbn.
  apply lookup_insert_eq.
Qed.

Lemma renderStart_trace request :
  World.trace (renderStart x o req w request) =
  World.trace w ++ [StatusIs (theJob w) pending; StatusIs (theJob w) rendering].
Proof.
  unfold renderStart at 1. rewrite updateJobStatus_trace.
  fold (renderStart x o req w request).
  assert (World.activeJobs (exec (registerJob (theJob w))
            (exec (setUrl (theJob w) (JStr (Orchestration.url o request)))
               (created x o req w))) !! Run.uuid x = Some (theJob w)) as ->.
  { rewrite <- (renderStart_registered request). unfold renderStart.
    by rewrite updateJobStatus_activeJobs. }
  assert (World.trace (exec (registerJob (theJob w))
            (exec (setUrl (theJob w) (JStr (Orchestration.url o request)))
               (created x o req w))) = World.trace (created x o req w)) as ->.
  { unfold exec at 1, registerJob. by destruct (_ !! _). }
  rewrite created_trace, <- app_assoc. done.
Qed.

End Paths.

Lemma resume_trace others w : World.trace (resume others w) = World.trace w.
Proof. reflexivity. Qed.

Lemma resume_registered jobId others w :
  keeps jobId others ->
  World.activeJobs (resume others w) !! jobId = World.activeJobs w !! jobId.
Proof. intros Hk. unfold resume. cbn. apply Hk. Qed.

Lemma engine_trace {A} P d (m : M A) w w3 c :
  external P d m -> m w = Some (w3, c) ->
  World.activeJobs w3 = World.activeJobs w /\
  exists cs, World.trace w3 = World.trace w ++ (Called <$> cs) /\ Forall P cs.
Proof.
  intros Hm E. pose proof (wp_elim _ _ _ _ _ _ (Hm w) E) as [_ _ _ Ha Ht]. split; done.
Qed.

Lemma orchestrate_lifecycle {R} env x (o : Orchestration.t R) req w w' c :
  (forall request, exists P d, external P d (Orchestration.engine o request)) ->
  World.activeJobs w !! Run.uuid x = None ->
  keeps (Run.uuid x) (Run.othersDuringRender x) ->
  keeps (Run.uuid x) (Run.othersDuringUpload x) ->
  orchestrate env x o req w = Some (w', c) ->
  World.activeJobs w' !! Run.uuid x = None /\
  exists rest,
    World.trace w' = World.trace w ++ rest /\
    Lifecycle (uploadRequested o req) (statuses (theJob w) rest) c.
Proof.
  intros Hext Hnew Hk1 Hk2 E.
  pose proof (orchestrate_outcome env x o req w) as H. rewrite E in H.
  unfold uploadRequested.
  inversion H as
    [ errors Hp
    | request Hp He
    | request w3 e Hp He
    | request w3 buffer Hp He Hu
    | request w3 buffer w5 e Hp He Hu Hup
    | request w3 buffer w5 u Hp He Hu Hup ]; subst; rewrite Hp;
    (split; [apply settle_absent|]).
  - (* the body does not validate *)
    exists [StatusIs (theJob w) pending]. split.
    + by rewrite settle_trace, created_activeJobs, Hnew, app_nil_r, created_trace.
    + rewrite statuses_one. apply life_invalid. unfold failure. by eexists _, _.
  - (* the engine threw *)
    destruct (Hext request) as (P & d & Hengine).
    destruct (engine_trace P d _ _ _ _ Hengine He) as (Ha & cs & Ht & _).
    exists ([StatusIs (theJob w) pending; StatusIs (theJob w) rendering]
              ++ (Called <$> cs) ++ [StatusIs (theJob w) failed]). split.
    + rewrite settle_trace, resume_trace, resume_registered, Ha, renderStart_registered by done.
      rewrite Ht, renderStart_trace. by rewrite <- !app_assoc.
    + rewrite !statuses_app, statuses_calls. cbn. rewrite Pos.eqb_refl.
      apply life_render_failed. unfold failure. by eexists _, _.
  - (* inline answer *)
    destruct (Hext request) as (P & d & Hengine).
    destruct (engine_trace P d _ _ _ _ Hengine He) as (Ha & cs & Ht & _).
    exists ([StatusIs (theJob w) pending; StatusIs (theJob w) rendering]
              ++ (Called <$> cs) ++ [StatusIs (theJob w) completed]). split.
    + rewrite settle_trace, resume_trace, resume_registered, Ha, renderStart_registered by done.
      rewrite Ht, renderStart_trace. by rewrite <- !app_assoc.
    + rewrite !statuses_app, statuses_calls. cbn. rewrite Pos.eqb_refl, Hu.
      apply life_inline. eexists. split; [reflexivity|]. split; [done|]. by eexists.
  - (* the upload threw *)
    destruct (Hext request) as (P & d & Hengine).
    destruct (engine_trace P d _ _ _ _ Hengine He) as (Ha & cs & Ht & _).
    destruct (engine_trace _ False _ _ _ _
                (external_uploadFile False env x _ _ _ _) Hup) as (Ha' & cs' & Ht' & _).
    assert (World.activeJobs (resume (Run.othersDuringRender x) w3) !! Run.uuid x
              = Some (theJob w)) as Hreg
      by (by rewrite resume_registered, Ha, renderStart_registered).
    exists ([StatusIs (theJob w) pending; StatusIs (theJob w) rendering]
              ++ (Called <$> cs) ++ [StatusIs (theJob w) uploading]
              ++ (Called <$> cs') ++ [StatusIs (theJob w) failed]). split.
    + rewrite settle_trace, resume_trace, resume_registered, Ha' by done.
      unfold uploadStart. rewrite updateJobStatus_activeJobs, Hreg.
      rewrite Ht'. unfold uploadStart. rewrite updateJobStatus_trace, Hreg.
      rewrite resume_trace, Ht, renderStart_trace. by rewrite <- !app_assoc.
    + rewrite !statuses_app, !statuses_calls. cbn. rewrite Pos.eqb_refl, Hu.
      apply life_upload_failed. unfold failure. by eexists _, _.
  - (* link answer *)
    destruct (Hext request) as (P & d & Hengine).
    destruct (engine_trace P d _ _ _ _ Hengine He) as (Ha & cs & Ht & _).
    destruct (engine_trace _ False _ _ _ _
                (external_uploadFile False env x _ _ _ _) Hup) as (Ha' & cs' & Ht' & _).
    assert (World.activeJobs (resume (Run.othersDuringRender x) w3) !! Run.uuid x
              = Some (theJob w)) as Hreg
      by (by rewrite resume_registered, Ha, renderStart_registered).
    exists ([StatusIs (theJob w) pending; StatusIs (theJob w) rendering]
              ++ (Called <$> cs) ++ [StatusIs (theJob w) uploading]
              ++ (Called <$> cs') ++ [StatusIs (theJob w) completed]). split.
    + rewrite settle_trace, resume_trace, resume_registered, Ha' by done.
      unfold uploadStart. rewrite updateJobStatus_activeJobs, Hreg.
      rewrite Ht'. unfold uploadStart. rewrite updateJobStatus_trace, Hreg.
      rewrite resume_trace, Ht, renderStart_trace. by rewrite <- !app_assoc.
    + rewrite !statuses_app, !statuses_calls. cbn. rewrite Pos.eqb_refl, Hu.
      apply life_link. eexists. split; [reflexivity|]. split; [by eexists|done].
Qed.


Lemma external_engine_pdf env x request :
  exists P d, external P d (Orchestration.engine (pdfOrchestration env x) request).
Proof. eexists _, _. apply external_renderPdf. Qed.

Lemma external_engine_image env x request :
  exists P d, external P d (Orchestration.engine (imageOrchestration env x) request).
Proof. eexists _, _. apply external_renderImage. Qed.




(** ** The readiness detector *)

Lemma evaluateReadyFlag_at_once flag timeout w :
  flag (World.clock w) = true ->
  exists w', evaluateReadyFlag flag timeout w = Some (w', Normal true) /\
             World.clock w' = World.clock w.
Proof. intros H. unfold evaluateReadyFlag. rewrite H. by eexists. Qed.

Lemma evaluateReadyFlag_observed flag timeout w n :
  1 <= n ->
  100 * (n - 1) <= Z.max 0 timeout ->
  (forall i, 0 <= i < n -> flag (World.clock w + 100 * i) = false) ->
  flag (World.clock w + 100 * n) = true ->
  exists w', evaluateReadyFlag flag timeout w = Some (w', Normal true) /\
             World.clock w' = World.clock w + 100 * n.
Proof.
  intros Hn Hbudget Hbefore Hat. unfold evaluateReadyFlag.
  assert (flag (World.clock w) = false) as ->.
  { specialize (Hbefore 0). rewrite Z.mul_0_r, Z.add_0_r in Hbefore. apply Hbefore. lia. }
  rewrite (pollReady_true flag (World.clock w) timeout (Z.to_nat (n - 1))).
  - eexists. split; [reflexivity|]. cbn. lia.
  - destruct (Z_lt_le_dec timeout 0); [lia|].
    assert (n - 1 <= timeout / 100) by (Z.to_euclidean_division_equations; lia). lia.
  - intros i Hi. split.
    + rewrite <- (Hbefore (1 + Z.of_nat i)); [f_equal|]; lia.
    + lia.
  - rewrite <- Hat. f_equal. lia.
Qed.

Lemma evaluateReadyFlag_timed_out flag timeout w :
  0 <= timeout ->
  (forall i, 0 <= i <= timeout / 100 + 1 -> flag (World.clock w + 100 * i) = false) ->
  exists w', evaluateReadyFlag flag timeout w = Some (w', Normal false) /\
             World.clock w' = World.clock w + 100 * (timeout / 100 + 1).
Proof.
  intros Htimeout Hnever. unfold evaluateReadyFlag.
  assert (flag (World.clock w) = false) as ->.
  { specialize (Hnever 0). rewrite Z.mul_0_r, Z.add_0_r in Hnever. apply Hnever.
    Z.to_euclidean_division_equations; lia. }
  rewrite (pollReady_false flag (World.clock w) timeout (Z.to_nat (timeout / 100))).
  - eexists. split; [reflexivity|]. cbn.
    assert (0 <= timeout / 100) by (Z.to_euclidean_division_equations; lia). lia.
  - lia.
  - intros i Hi.
    assert (0 <= timeout / 100) by (Z.to_euclidean_division_equations; lia).
    split.
    + rewrite <- (Hnever (1 + Z.of_nat i)); [f_equal|]; lia.
    + Z.to_euclidean_division_equations; lia.
  - assert (0 <= timeout / 100) by (Z.to_euclidean_division_equations; lia).
    rewrite <- (Hnever (timeout / 100 + 1)); [f_equal|]; lia.
  - Z.to_euclidean_division_equations; lia.
Qed.

Lemma fonts_then env b w ms :
  Browser.fontsReady b = Some (ms, inr tt) ->
  waitForRenderReady env b w =
  bind (evaluateReadyFlag (Browser.renderReady b) (Env.READY_FLAG_TIMEOUT_MS env))
    (fun result =>
       if negb result
       then throw (Error (readyFlagTimeoutMessage (Env.READY_FLAG_TIMEOUT_MS env)))
       else call (PageWaitForTimeout 150) (150, inr tt))
    (World.with_clock (World.clock w + ms)
       (World.with_trace (World.trace w ++ [Called PageEvaluateFontsReady]) w)).
Proof. intros H. unfold waitForRenderReady. rewrite H. reflexivity. Qed.

Lemma includes_cons p c s :
  Js.includes p (String c s) = Js.startsWith p (String c s) || Js.includes p s.
Proof. reflexivity. Qed.

Lemma includes_app_r p a b : Js.includes p b = true -> Js.includes p (a +:+ b) = true.
Proof.
  intros H. induction a as [|c a IH]; [done|].
  change (String c a +:+ b) with (String c (a +:+ b)).
  rewrite includes_cons, IH. apply orb_true_r.
Qed.

Lemma startsWith_app p b : Js.startsWith p (p +:+ b) = true.
Proof.
  induction p as [|c p IH]; [done|].
  change (Js.startsWith (String c p) (String c p +:+ b))
    with (if Ascii.eqb c c then Js.startsWith p (p +:+ b) else false).
  by rewrite Ascii.eqb_refl.
Qed.

Lemma includes_here p b : Js.includes p (p +:+ b) = true.
Proof.
  destruct (p +:+ b) eqn:E.
  - destruct p; [done|discriminate E].
  - rewrite includes_cons, <- E, startsWith_app. done.
Qed.

Lemma readyFlagTimeout_names_budget timeout :
  Js.includes (Js.numberToString timeout) (readyFlagTimeoutMessage timeout) = true.
Proof. unfold readyFlagTimeoutMessage. apply includes_app_r, includes_here. Qed.

Lemma detector_unbounded env b w :
  Browser.fontsReady b = None -> waitForRenderReady env b w = None.
Proof. intros H. unfold waitForRenderReady. by rewrite H. Qed.

Lemma detector_at_once env b w ms :
  Browser.fontsReady b = Some (ms, inr tt) ->
  Browser.renderReady b (World.clock w + ms) = true ->
  exists w', waitForRenderReady env b w = Some (w', Normal tt) /\
             World.clock w' = World.clock w + ms + 150.
Proof.
  intros Hfonts Hflag. rewrite (fonts_then env b w ms Hfonts). unfold bind.
  edestruct evaluateReadyFlag_at_once as (w1 & -> & Hclock); [exact Hflag|].
  cbn. eexists. split; [reflexivity|]. cbn. rewrite Hclock. reflexivity.
Qed.

Lemma detector_observed env b w ms n :
  Browser.fontsReady b = Some (ms, inr tt) ->
  1 <= n ->
  100 * (n - 1) <= Z.max 0 (Env.READY_FLAG_TIMEOUT_MS env) ->
  (forall i, 0 <= i < n -> Browser.renderReady b (World.clock w + ms + 100 * i) = false) ->
  Browser.renderReady b (World.clock w + ms + 100 * n) = true ->
  exists w', waitForRenderReady env b w = Some (w', Normal tt) /\
             World.clock w' = World.clock w + ms + 100 * n + 150.
Proof.
  intros Hfonts Hn Hbudget Hbefore Hat. rewrite (fonts_then env b w ms Hfonts). unfold bind.
  edestruct (evaluateReadyFlag_observed (Browser.renderReady b)
               (Env.READY_FLAG_TIMEOUT_MS env)
               (World.with_clock (World.clock w + ms)
                  (World.with_trace (World.trace w ++ [Called PageEvaluateFontsReady]) w)) n)
    as (w1 & -> & Hclock); [done..|].
  cbn. eexists. split; [reflexivity|]. cbn. rewrite Hclock. reflexivity.
Qed.

Lemma detector_timed_out env b w ms :
  Browser.fontsReady b = Some (ms, inr tt) ->
  0 <= Env.READY_FLAG_TIMEOUT_MS env ->
  (forall i, 0 <= i <= Env.READY_FLAG_TIMEOUT_MS env / 100 + 1 ->
     Browser.renderReady b (World.clock w + ms + 100 * i) = false) ->
  exists w',
    waitForRenderReady env b w =
      Some (w', Throw (Error (readyFlagTimeoutMessage (Env.READY_FLAG_TIMEOUT_MS env)))) /\
    World.clock w' = World.clock w + ms + 100 * (Env.READY_FLAG_TIMEOUT_MS env / 100 + 1).
Proof.
  intros Hfonts Htimeout Hnever. rewrite (fonts_then env b w ms Hfonts). unfold bind.
  edestruct (evaluateReadyFlag_timed_out (Browser.renderReady b)
               (Env.READY_FLAG_TIMEOUT_MS env)
               (World.with_clock (World.clock w + ms)
                  (World.with_trace (World.trace w ++ [Called PageEvaluateFontsReady]) w)))
    as (w1 & -> & Hclock); [done..|].
  cbn. eexists. split; [reflexivity|]. exact Hclock.
Qed.

(** *** Runs are determined *)

Lemma Outcome_functional {R} env x (o : Orchestration.t R) req w r r' :
  Outcome env x o req w r -> Outcome env x o req w r' -> r = r'.
Proof.
  intros H H'.
  inversion H; inversion H'; subst; try congruence;
    repeat match goal with
    | H1 : ?a = inr ?r1, H2 : ?a = inr ?r2 |- _ =>
        assert (r1 = r2) by congruence; subst; clear H2
    | H1 : ?a = Some (?w1, Normal ?b1), H2 : ?a = Some (?w2, Normal ?b2) |- _ =>
        assert (w1 = w2 /\ b1 = b2) as [? ?] by (split; congruence); subst; clear H2
    | H1 : ?a = Some (?w1, Throw ?b1), H2 : ?a = Some (?w2, Throw ?b2) |- _ =>
        assert (w1 = w2 /\ b1 = b2) as [? ?] by (split; congruence); subst; clear H2
    end; congruence.
Qed.

Lemma wp_intro {A} d (m : M A) w Q w' c : m w = Some (w', c) -> Q w' c -> wp d m w Q.
Proof. unfold wp. by intros ->. Qed.

Lemma wp_total {A} (m : M A) w Q :
  wp False m w Q -> exists w' c, m w = Some (w', c) /\ Q w' c.
Proof. unfold wp. destruct (m w) as [[w' c]|]; [eauto|done]. Qed.

Lemma wp_swallow_call d c r w Q :
  Q (World.with_clock (World.clock w + r.1)
       (World.with_trace (World.trace w ++ [Called c]) w)) (Normal tt) ->
  wp d (swallow (call c r)) w Q.
Proof.
  intros HQ. unfold wp, swallow, try_catch, call, bind, emit, elapse. cbn.
  destruct r.2 as [e|[]]; exact HQ.
Qed.

Lemma renderPdf_ready_timeout env x request w ms :
  World.browser w = true ->
  (Browser.newContext (Run.browser x)).2 = inr tt ->
  (Browser.newPage (Run.browser x)).2 = inr tt ->
  (forall path base, exists u, Run.newURL x path base = inr u) ->
  (Browser.goto (Run.browser x)).2 = inr tt ->
  Browser.fontsReady (Run.browser x) = Some (ms, inr tt) ->
  0 <= Env.READY_FLAG_TIMEOUT_MS env ->
  (forall t, Browser.renderReady (Run.browser x) t = false) ->
  exists w3,
    renderPdf env x request w =
      Some (w3, Throw (Error (readyFlagTimeoutMessage (Env.READY_FLAG_TIMEOUT_MS env)))).
Proof.
  intros Hbrowser Hctx Hpage Hurl Hgoto Hfonts Htimeout Hnever.
  cut (wp False (renderPdf env x request) w (fun _ c =>
         c = Throw (Error (readyFlagTimeoutMessage (Env.READY_FLAG_TIMEOUT_MS env))))).
  { intros H. apply wp_total in H as (w3 & c & E & ->). eauto. }
  unfold renderPdf.
  apply wp_bind. unfold wp at 1, getBrowser. rewrite Hbrowser.
  apply wp_bind, wp_call. rewrite Hctx.
  apply wp_try_finally, wp_bind, wp_call. rewrite Hpage.
  apply wp_try_finally, wp_bind.
  unfold wp at 1, buildRenderUrl.
  match goal with |- context [Run.newURL x ?p ?b] => destruct (Hurl p b) as [u ->] end.
  cbn [ret].
  apply wp_bind, wp_call. rewrite Hgoto.
  apply wp_bind.
  edestruct detector_timed_out as (w1 & E & _); [exact Hfonts|exact Htimeout| |].
  { intros i _. apply Hnever. }
  eapply wp_intro; [exact E|].
  apply wp_swallow_call, wp_swallow_call. reflexivity.
Qed.

Lemma renderImage_ready_timeout env x request w ms :
  World.browser w = true ->
  (Browser.newContext (Run.browser x)).2 = inr tt ->
  (Browser.newPage (Run.browser x)).2 = inr tt ->
  (Browser.emulateMedia (Run.browser x)).2 = inr tt ->
  (forall path base, exists u, Run.newURL x path base = inr u) ->
  (Browser.goto (Run.browser x)).2 = inr tt ->
  Browser.fontsReady (Run.browser x) = Some (ms, inr tt) ->
  0 <= Env.READY_FLAG_TIMEOUT_MS env ->
  (forall t, Browser.renderReady (Run.browser x) t = false) ->
  exists w3,
    renderImage env x request w =
      Some (w3, Throw (Error (readyFlagTimeoutMessage (Env.READY_FLAG_TIMEOUT_MS env)))).
Proof.
  intros Hbrowser Hctx Hpage Hmedia Hurl Hgoto Hfonts Htimeout Hnever.
  cut (wp False (renderImage env x request) w (fun _ c =>
         c = Throw (Error (readyFlagTimeoutMessage (Env.READY_FLAG_TIMEOUT_MS env))))).
  { intros H. apply wp_total in H as (w3 & c & E & ->). eauto. }
  unfold renderImage.
  apply wp_bind. unfold wp at 1, getBrowser. rewrite Hbrowser.
  apply wp_bind, wp_call. rewrite Hctx.
  apply wp_try_finally, wp_bind, wp_call. rewrite Hpage.
  apply wp_try_finally, wp_bind, wp_call. rewrite Hmedia.
  apply wp_bind.
  unfold wp at 1, buildRenderUrl.
  match goal with |- context [Run.newURL x ?p ?b] => destruct (Hurl p b) as [u ->] end.
  cbn [ret].
  apply wp_bind, wp_call. rewrite Hgoto.
  apply wp_bind.
  edestruct detector_timed_out as (w1 & E & _); [exact Hfonts|exact Htimeout| |].
  { intros i _. apply Hnever. }
  eapply wp_intro; [exact E|].
  apply wp_swallow_call, wp_swallow_call. reflexivity.
Qed.

Lemma updateJobStatus_browser id s w :
  World.browser (exec (updateJobStatus id s) w) = World.browser w.
Proof. unfold exec, updateJobStatus, setStatus. by destruct (_ !! _). Qed.

Lemma registerJob_browser l w : World.browser (exec (registerJob l) w) = World.browser w.
Proof. unfold exec, registerJob. by destruct (_ !! _). Qed.

Lemma registerJob_supabase l w : World.supabase (exec (registerJob l) w) = World.supabase w.
Proof. unfold exec, registerJob. by destruct (_ !! _). Qed.

Lemma renderStart_browser {R} x (o : Orchestration.t R) req w request :
  World.browser (renderStart x o req w request) = World.browser w.
Proof. unfold renderStart. by rewrite updateJobStatus_browser, registerJob_browser. Qed.

Lemma renderStart_supabase {R} x (o : Orchestration.t R) req w request :
  World.supabase (renderStart x o req w request) = World.supabase w.
Proof. unfold renderStart. by rewrite updateJobStatus_supabase, registerJob_supabase. Qed.

Lemma orchestrate_engine_threw {R} env x (o : Orchestration.t R) req w request w3 e :
  Zod.parse (Orchestration.schema o) (Request.body req) = inr request ->
  Orchestration.engine o request (renderStart x o req w request) = Some (w3, Throw e) ->
  orchestrate env x o req w =
    Some (settle x failed (resume (Run.othersDuringRender x) w3), Normal (failure env x e)).
Proof.
  intros Hp He. eapply Outcome_functional; [apply orchestrate_outcome|].
  by eapply engine_threw.
Qed.

(** C5 (amended): the detector waits for the fonts without any bound, then
    looks at the flag at once and every 100 ms.  A flag seen set makes it
    succeed 150 ms later.  It fails only at the first look that comes more
    than the budget after the polling began, if the flag is still unset
    then, with a message naming the budget, which the handlers answer as
    408 READY_FLAG_TIMEOUT.  The budget defaults to 10000. *)
Theorem readiness_detector env b w :
  (Browser.fontsReady b = None -> waitForRenderReady env b w = None) /\
  (forall ms, Browser.fontsReady b = Some (ms, inr tt) ->
     (Browser.renderReady b (World.clock w + ms) = true ->
        exists w', waitForRenderReady env b w = Some (w', Normal tt) /\
                   World.clock w' = World.clock w + ms + 150) /\
     (forall n, 1 <= n ->
        100 * (n - 1) <= Z.max 0 (Env.READY_FLAG_TIMEOUT_MS env) ->
        (forall i, 0 <= i < n ->
           Browser.renderReady b (World.clock w + ms + 100 * i) = false) ->
        Browser.renderReady b (World.clock w + ms + 100 * n) = true ->
        exists w', waitForRenderReady env b w = Some (w', Normal tt) /\
                   World.clock w' = World.clock w + ms + 100 * n + 150) /\
     (0 <= Env.READY_FLAG_TIMEOUT_MS env ->
        (forall i, 0 <= i <= Env.READY_FLAG_TIMEOUT_MS env / 100 + 1 ->
           Browser.renderReady b (World.clock w + ms + 100 * i) = false) ->
        exists w',
          waitForRenderReady env b w =
            Some (w', Throw (Error (readyFlagTimeoutMessage (Env.READY_FLAG_TIMEOUT_MS env)))) /\
          World.clock w' =
            World.clock w + ms + 100 * (Env.READY_FLAG_TIMEOUT_MS env / 100 + 1))) /\
  Js.includes (Js.numberToString (Env.READY_FLAG_TIMEOUT_MS env))
    (readyFlagTimeoutMessage (Env.READY_FLAG_TIMEOUT_MS env)) = true /\
  load_READY_FLAG_TIMEOUT_MS None = Some 10000 /\
  (forall env' jobId,
     RenderErrorResponse.error
       (handleRenderError env'
          (Error (readyFlagTimeoutMessage (Env.READY_FLAG_TIMEOUT_MS env))) jobId)
       = READY_FLAG_TIMEOUT /\
     getStatusCode READY_FLAG_TIMEOUT = 408) /\
  (forall x req ms,
     Run.browser x = b ->
     World.browser w = true ->
     (Browser.newContext b).2 = inr tt ->
     (Browser.newPage b).2 = inr tt ->
     (Browser.emulateMedia b).2 = inr tt ->
     (forall path base, exists u, Run.newURL x path base = inr u) ->
     (Browser.goto b).2 = inr tt ->
     Browser.fontsReady b = Some (ms, inr tt) ->
     0 <= Env.READY_FLAG_TIMEOUT_MS env ->
     (forall t, Browser.renderReady b t = false) ->
     (forall request, Zod.parse PdfRenderRequestSchema (Request.body req) = inr request ->
        exists w' r,
          postPdf env x req w = Some (w', Normal (HttpResponse.mk 408 (ErrorBody r))) /\
          RenderErrorResponse.error r = READY_FLAG_TIMEOUT) /\
     (forall request, Zod.parse ImageRenderRequestSchema (Request.body req) = inr request ->
        exists w' r,
          postImage env x req w = Some (w', Normal (HttpResponse.mk 408 (ErrorBody r))) /\
          RenderErrorResponse.error r = READY_FLAG_TIMEOUT)).
Proof.
  split; [apply detector_unbounded|].
  split.
  { intros ms Hfonts. split; [by apply detector_at_once|].
    split; [intros n; by apply detector_observed|by apply detector_timed_out]. }
  split; [apply readyFlagTimeout_names_budget|].
  split; [reflexivity|].
  split; [intros env' jobId; split; reflexivity|].
  intros x req ms <- Hbrowser Hctx Hpage Hmedia Hurl Hgoto Hfonts Htimeout Hnever.
  split.
  - intros request Hp. rewrite postPdf_orchestrate.
    edestruct (renderPdf_ready_timeout env x request
                 (renderStart x (pdfOrchestration env x) req w request)) as [w3 He];
      [by rewrite renderStart_browser|done..|].
    erewrite orchestrate_engine_threw by done.
    eexists _, _. split; reflexivity.
  - intros request Hp. rewrite postImage_orchestrate.
    edestruct (renderImage_ready_timeout env x request
                 (renderStart x (imageOrchestration env x) req w request)) as [w3 He];
      [by rewrite renderStart_browser|done..|].
    erewrite orchestrate_engine_threw by done.
    eexists _, _. split; reflexivity.
Qed.


Lemma readiness_detector_witness :
  Browser.fontsReady sampleBrowser = Some (40, inr tt) /\
  (forall i, 0 <= i < 6 -> Browser.renderReady sampleBrowser (0 + 40 + 100 * i) = false) /\
  Browser.renderReady sampleBrowser (0 + 40 + 100 * 6) = true /\
  exists w', waitForRenderReady sampleEnv sampleBrowser emptyWorld = Some (w', Normal tt) /\
             World.clock w' = 0 + 40 + 100 * 6 + 150.
Proof.
  assert (forall i, 0 <= i < 6 ->
            Browser.renderReady sampleBrowser (0 + 40 + 100 * i) = false) as Hbefore.
  { intros i Hi. apply Z.leb_gt. lia. }
  split; [reflexivity|]. split; [exact Hbefore|]. split; [reflexivity|].
  destruct (readiness_detector sampleEnv sampleBrowser emptyWorld) as (_ & Hready & _).
  destruct (Hready 40 eq_refl) as (_ & Hobserved & _).
  apply (Hobserved 6); [lia|vm_compute; discriminate|exact Hbefore|reflexivity].
Defined.

(** C5 as stated fails: a flag set after the budget has elapsed, but before
    the next look, still makes the detector succeed. *)
Lemma late_signal_still_succeeds :
  ~ (forall env b w ms,
       Browser.fontsReady b = Some (ms, inr tt) ->
       0 <= Env.READY_FLAG_TIMEOUT_MS env ->
       (forall t, World.clock w + ms <= t <= World.clock w + ms + Env.READY_FLAG_TIMEOUT_MS env ->
          Browser.renderReady b t = false) ->
       exists w' e, waitForRenderReady env b w = Some (w', Throw e)).
Proof.
  intros H.
  destruct (H lateEnv lateBrowser emptyWorld 0) as (w' & e & E).
  - reflexivity.
  - vm_compute. discriminate.
  - intros t Ht. apply Z.leb_gt. cbn in Ht. lia.
  - vm_compute in E. discriminate E.
Qed.

(** ** Base64 and data URLs *)

Lemma digit_value n : (n < 64)%N -> Base64.value (Base64.digit n) = Some n.
Proof.
  intros Hn.
  assert (forallb (fun k => match Base64.value (Base64.digit (N.of_nat k)) with
                            | Some v => N.eqb v (N.of_nat k)
                            | None => false
                            end) (seq 0 64) = true) as Hall by (vm_compute; reflexivity).
  rewrite forallb_forall in Hall.
  specialize (Hall (N.to_nat n)). rewrite N2Nat.id in Hall.
  destruct (Base64.value (Base64.digit n)) as [v|].
  - f_equal. apply N.eqb_eq. apply Hall. apply in_seq. lia.
  - discriminate Hall. apply in_seq. lia.
Qed.

Lemma digit_not_pad n : (n < 64)%N -> Base64.isPad (Base64.digit n) = false.
Proof.
  intros Hn.
  assert (forallb (fun k => negb (Base64.isPad (Base64.digit (N.of_nat k)))) (seq 0 64) = true)
    as Hall by (vm_compute; reflexivity).
  rewrite forallb_forall in Hall.
  specialize (Hall (N.to_nat n)). rewrite N2Nat.id in Hall.
  apply negb_true_iff, Hall, in_seq. lia.
Qed.

Lemma of_N_of_to_N a n : n = Byte.to_N a -> Byte.of_N n = Some a.
Proof. intros ->. apply Byte.of_to_N. Qed.

Lemma decode_encode bs : Base64.decode (Base64.encode bs) = Some bs.
Proof.
  remember (length bs) as n eqn:Hlen.
  revert bs Hlen. induction n as [n IH] using lt_wf_ind. intros bs Hlen.
  destruct bs as [|a [|b [|c rest]]].
  - reflexivity.
  - pose proof (Byte.to_N_bounded a) as Ha.
    cbn [Base64.encode Base64.decode].
    rewrite !digit_value by (try apply N.mod_lt; try apply N.Div0.div_lt_upper_bound; lia).
    change (Base64.isPad "=") with true. cbn.
    rewrite (of_N_of_to_N a); [done|].
    zify. Z.to_euclidean_division_equations. lia.
  - pose proof (Byte.to_N_bounded a) as Ha. pose proof (Byte.to_N_bounded b) as Hb.
    cbn [Base64.encode Base64.decode].
    rewrite !digit_value by (try apply N.mod_lt; try apply N.Div0.div_lt_upper_bound; lia).
    rewrite digit_not_pad by (apply N.mod_lt; lia).
    change (Base64.isPad "=") with true. cbn.
    rewrite (of_N_of_to_N a), (of_N_of_to_N b); [done| |];
      zify; Z.to_euclidean_division_equations; lia.
  - pose proof (Byte.to_N_bounded a) as Ha. pose proof (Byte.to_N_bounded b) as Hb.
    pose proof (Byte.to_N_bounded c) as Hc.
    cbn [Base64.encode Base64.decode].
    rewrite !digit_value by (try apply N.mod_lt; try apply N.Div0.div_lt_upper_bound; lia).
    rewrite !digit_not_pad by (apply N.mod_lt; lia).
    rewrite (IH (length rest)) by (cbn in Hlen; lia || done).
    rewrite (of_N_of_to_N a), (of_N_of_to_N b), (of_N_of_to_N c); [done| | |];
      zify; Z.to_euclidean_division_equations; lia.
Qed.

Lemma readDataUrl_pdf bs :
  readDataUrl ("data:application/pdf;base64," +:+ Base64.encode bs)
    = Some ("application/pdf", bs).
Proof.
  unfold readDataUrl.
  change (Js.startsWith "data:" ("data:application/pdf;base64," +:+ Base64.encode bs))
    with true.
  change (splitAtBase64Mark (Js.slice 5 ("data:application/pdf;base64," +:+ Base64.encode bs)))
    with (Some ("application/pdf", Base64.encode bs)).
  cbv iota beta. by rewrite decode_encode.
Qed.

Lemma renderPdf_bytes env x request w w3 buffer :
  renderPdf env x request w = Some (w3, Normal buffer) ->
  (Browser.capture (Run.browser x)).2 = inr buffer.
Proof.
  intros E.
  cut (wp True (renderPdf env x request) w (fun _ c =>
         forall bs, c = Normal bs -> (Browser.capture (Run.browser x)).2 = inr bs)).
  { intros H. by apply (wp_elim _ _ _ _ _ _ H E). }
  clear E. unfold renderPdf.
  apply wp_bind. unfold wp at 1, getBrowser.
  destruct (World.browser w); [|discriminate].
  apply wp_bind, wp_call. destruct (Browser.newContext _).2; [discriminate|].
  apply wp_try_finally, wp_bind, wp_call.
  destruct (Browser.newPage _).2; [by apply wp_swallow_call|].
  apply wp_try_finally, wp_bind.
  unfold wp at 1, buildRenderUrl. destruct (Run.newURL _ _ _); cbn [throw ret].
  { by do 2 apply wp_swallow_call. }
  apply wp_bind, wp_call.
  destruct (Browser.goto _).2; [by do 2 apply wp_swallow_call|].
  apply wp_bind.
  unfold wp at 1. destruct (waitForRenderReady _ _ _) as [[w1 [[]|e]]|]; [| |done].
  2:{ by do 2 apply wp_swallow_call. }
  apply wp_bind, wp_call.
  destruct (Browser.capture _).2 as [e|bs] eqn:Hc.
  { by do 2 apply wp_swallow_call. }
  apply wp_ret. do 2 apply wp_swallow_call. by intros ? [= <-].
Qed.

Lemma orchestrate_inline {R} env x (o : Orchestration.t R) req w request w3 buffer :
  Zod.parse (Orchestration.schema o) (Request.body req) = inr request ->
  Orchestration.engine o request (renderStart x o req w request) = Some (w3, Normal buffer) ->
  Orchestration.uploadToStorage o request = false ->
  orchestrate env x o req w =
    Some (settle x completed (resume (Run.othersDuringRender x) w3),
          Normal (HttpResponse.mk 200 (SuccessBody (inlineResponse x o w request w3 buffer)))).
Proof.
  intros Hp He Hu. eapply Outcome_functional; [apply orchestrate_outcome|].
  by eapply answered_inline.
Qed.

(** C6: when a PDF request that does not ask for an upload renders, the
    handler answers 200 with a [dataUrl] and no [url]; read back, the data
    URL declares application/pdf and its base64 payload decodes to the very
    bytes the browser's capture produced, and [fileSize] is their number. *)
Theorem pdf_data_url_round_trip env x req w request w3 buffer :
  Zod.parse PdfRenderRequestSchema (Request.body req) = inr request ->
  PdfRenderRequest.uploadToStorage request = false ->
  renderPdf env x request (renderStart x (pdfOrchestration env x) req w request)
    = Some (w3, Normal buffer) ->
  (Browser.capture (Run.browser x)).2 = inr buffer /\
  exists w' r u,
    postPdf env x req w = Some (w', Normal (HttpResponse.mk 200 (SuccessBody r))) /\
    RenderSuccessResponse.dataUrl r = Some u /\
    RenderSuccessResponse.url r = None /\
    readDataUrl u = Some ("application/pdf", buffer) /\
    RenderSuccessResponse.fileSize r = length buffer.
Proof.
  intros Hp Hu He. split; [by eapply renderPdf_bytes|].
  rewrite postPdf_orchestrate.
  rewrite (orchestrate_inline env x (pdfOrchestration env x) req w request w3 buffer Hp He Hu).
  eexists _, _, _. split; [reflexivity|]. split; [reflexivity|]. split; [reflexivity|].
  split; [apply readDataUrl_pdf|reflexivity].
Qed.


Lemma pdf_data_url_round_trip_witness :
  Zod.parse PdfRenderRequestSchema (Request.body (pdfRequest inlinePdfBody))
    = inr inlinePdfRequest /\
  PdfRenderRequest.uploadToStorage inlinePdfRequest = false /\
  renderPdf sampleEnv sampleRun inlinePdfRequest
    (renderStart sampleRun (pdfOrchestration sampleEnv sampleRun)
       (pdfRequest inlinePdfBody) emptyWorld inlinePdfRequest)
    = Some (exec (renderPdf sampleEnv sampleRun inlinePdfRequest)
              (renderStart sampleRun (pdfOrchestration sampleEnv sampleRun)
                 (pdfRequest inlinePdfBody) emptyWorld inlinePdfRequest),
            Normal [x25; x50; x44; x46]%byte) /\
  exists w' r u,
    postPdf sampleEnv sampleRun (pdfRequest inlinePdfBody) emptyWorld
      = Some (w', Normal (HttpResponse.mk 200 (SuccessBody r))) /\
    RenderSuccessResponse.dataUrl r = Some u /\
    RenderSuccessResponse.url r = None /\
    readDataUrl u = Some ("application/pdf", [x25; x50; x44; x46]%byte) /\
    RenderSuccessResponse.fileSize r = 4%nat.
Proof.
  assert (Zod.parse PdfRenderRequestSchema (Request.body (pdfRequest inlinePdfBody))
            = inr inlinePdfRequest) as Hp by (vm_compute; reflexivity).
  assert (PdfRenderRequest.uploadToStorage inlinePdfRequest = false) as Hu by reflexivity.
  assert (renderPdf sampleEnv sampleRun inlinePdfRequest
            (renderStart sampleRun (pdfOrchestration sampleEnv sampleRun)
               (pdfRequest inlinePdfBody) emptyWorld inlinePdfRequest)
          = Some (exec (renderPdf sampleEnv sampleRun inlinePdfRequest)
                    (renderStart sampleRun (pdfOrchestration sampleEnv sampleRun)
                       (pdfRequest inlinePdfBody) emptyWorld inlinePdfRequest),
                  Normal [x25; x50; x44; x46]%byte)) as He by (vm_compute; reflexivity).
  split; [exact Hp|]. split; [exact Hu|]. split; [exact He|].
  exact (proj2 (pdf_data_url_round_trip sampleEnv sampleRun (pdfRequest inlinePdfBody)
                  emptyWorld inlinePdfRequest _ _ Hp Hu He)).
Defined.

(** ** Storage that was never configured *)

Lemma calls_app t1 t2 : calls (t1 ++ t2) = calls t1 ++ calls t2.
Proof. induction t1 as [|[c|l s] t1 IH]; cbn; [done| |done]. by rewrite IH. Qed.

Lemma calls_Called cs : calls (Called <$> cs) = cs.
Proof. induction cs as [|c cs IH]; cbn; [done|]. by rewrite IH. Qed.

Lemma storageCalls_app t1 t2 : storageCalls (t1 ++ t2) = storageCalls t1 ++ storageCalls t2.
Proof. unfold storageCalls. by rewrite calls_app, filter_app. Qed.

Lemma storageCalls_browser cs :
  Forall isBrowserCall cs -> storageCalls (Called <$> cs) = [].
Proof.
  unfold storageCalls. rewrite calls_Called.
  induction 1 as [|c cs Hc _ IH]; [done|].
  rewrite filter_cons. unfold isBrowserCall in Hc.
  destruct (decide (isStorageCall c)) as [Hs|_]; [|done].
  rewrite Hc in Hs. done.
Qed.

Lemma storageCalls_updateJobStatus id s w :
  storageCalls (World.trace (exec (updateJobStatus id s) w)) = storageCalls (World.trace w).
Proof.
  rewrite updateJobStatus_trace, storageCalls_app.
  destruct (_ !! _); cbn; by rewrite app_nil_r.
Qed.

Lemma uploadFile_unconfigured env x buffer filename contentType storagePath w :
  World.supabase w = None ->
  uploadFile env x buffer filename contentType storagePath w =
    Some (w, Throw (Error "STORAGE_FAILED: Supabase not configured. Set SUPABASE_URL and SUPABASE_SERVICE_ROLE_KEY or use uploadToStorage: false")).
Proof. intros H. unfold uploadFile, bind, getClient. by rewrite H. Qed.

Lemma initStorage_skipped env w :
  World.supabase w = None ->
  falsy (Env.SUPABASE_URL env) || falsy (Env.SUPABASE_SERVICE_ROLE_KEY env) = true ->
  initStorage env w = Some (w, Normal tt).
Proof. intros Hs Hf. unfold initStorage. by rewrite Hs, Hf. Qed.

Lemma orchestrate_upload_threw {R} env x (o : Orchestration.t R) req w request w3 buffer w5 e :
  Zod.parse (Orchestration.schema o) (Request.body req) = inr request ->
  Orchestration.engine o request (renderStart x o req w request) = Some (w3, Normal buffer) ->
  Orchestration.uploadToStorage o request = true ->
  uploadFile env x buffer (fileNameAt x o request w3) (Orchestration.contentType o request)
    (Orchestration.storagePath o request) (uploadStart x w3) = Some (w5, Throw e) ->
  orchestrate env x o req w =
    Some (settle x failed (resume (Run.othersDuringUpload x) w5), Normal (failure env x e)).
Proof.
  intros Hp He Hu Hup. eapply Outcome_functional; [apply orchestrate_outcome|].
  by eapply upload_threw.
Qed.

Lemma orchestrate_unconfigured {R} env x (o : Orchestration.t R) req w request w3 buffer :
  external isBrowserCall (Browser.fontsReady (Run.browser x) = None)
    (Orchestration.engine o request) ->
  World.supabase w = None ->
  Zod.parse (Orchestration.schema o) (Request.body req) = inr request ->
  Orchestration.uploadToStorage o request = true ->
  Orchestration.engine o request (renderStart x o req w request) = Some (w3, Normal buffer) ->
  exists w' r,
    orchestrate env x o req w = Some (w', Normal (HttpResponse.mk 500 (ErrorBody r))) /\
    RenderErrorResponse.error r = STORAGE_FAILED /\
    storageCalls (World.trace w') = storageCalls (World.trace w).
Proof.
  intros Hext Hs Hp Hu He.
  pose proof (wp_elim _ _ _ _ _ _ (Hext _) He) as [_ Hs3 _ _ (cs & Ht & Hcs)].
  assert (World.supabase (uploadStart x w3) = None) as Hs4.
  { unfold uploadStart. rewrite updateJobStatus_supabase. cbn.
    by rewrite Hs3, renderStart_supabase. }
  erewrite orchestrate_upload_threw; [|done..|by apply uploadFile_unconfigured].
  eexists _, _. split; [reflexivity|]. split; [reflexivity|].
  rewrite settle_trace, storageCalls_app, resume_trace.
  unfold uploadStart. rewrite storageCalls_updateJobStatus, resume_trace, Ht.
  rewrite storageCalls_app, storageCalls_browser, renderStart_trace by done.
  rewrite storageCalls_app. destruct (_ !! _); cbn; by rewrite !app_nil_r.
Qed.

(** C10: with the credentials missing, [initStorage] creates no client; then
    every request of either kind that asks for an upload and renders is
    answered 500 STORAGE_FAILED, and no call to the storage service was
    made. *)
Theorem storage_not_configured env x req w :
  (forall w0, World.supabase w0 = None ->
     falsy (Env.SUPABASE_URL env) || falsy (Env.SUPABASE_SERVICE_ROLE_KEY env) = true ->
     initStorage env w0 = Some (w0, Normal tt)) /\
  (World.supabase w = None ->
     (forall request w3 buffer,
        Zod.parse PdfRenderRequestSchema (Request.body req) = inr request ->
        PdfRenderRequest.uploadToStorage request = true ->
        renderPdf env x request (renderStart x (pdfOrchestration env x) req w request)
          = Some (w3, Normal buffer) ->
        exists w' r,
          postPdf env x req w = Some (w', Normal (HttpResponse.mk 500 (ErrorBody r))) /\
          RenderErrorResponse.error r = STORAGE_FAILED /\
          storageCalls (World.trace w') = storageCalls (World.trace w)) /\
     (forall request w3 buffer,
        Zod.parse ImageRenderRequestSchema (Request.body req) = inr request ->
        ImageRenderRequest.uploadToStorage request = true ->
        renderImage env x request (renderStart x (imageOrchestration env x) req w request)
          = Some (w3, Normal buffer) ->
        exists w' r,
          postImage env x req w = Some (w', Normal (HttpResponse.mk 500 (ErrorBody r))) /\
          RenderErrorResponse.error r = STORAGE_FAILED /\
          storageCalls (World.trace w') = storageCalls (World.trace w))).
Proof.
  split; [intros w0; apply initStorage_skipped|].
  intros Hs. split; intros request w3 buffer Hp Hu He.
  - rewrite postPdf_orchestrate.
    eapply orchestrate_unconfigured; [apply external_renderPdf|done..].
  - rewrite postImage_orchestrate.
    eapply orchestrate_unconfigured; [apply external_renderImage|done..].
Qed.

Lemma storage_not_configured_witness :
  World.supabase emptyWorld = None /\
  falsy (Env.SUPABASE_URL sampleEnv) || falsy (Env.SUPABASE_SERVICE_ROLE_KEY sampleEnv) = true /\
  initStorage sampleEnv emptyWorld = Some (emptyWorld, Normal tt) /\
  Zod.parse PdfRenderRequestSchema (Request.body (pdfRequest storedPdfBody))
    = inr storedPdfRequest /\
  exists w' r,
    postPdf sampleEnv sampleRun (pdfRequest storedPdfBody) emptyWorld
      = Some (w', Normal (HttpResponse.mk 500 (ErrorBody r))) /\
    RenderErrorResponse.error r = STORAGE_FAILED /\
    storageCalls (World.trace w') = [].
Proof.
  assert (World.supabase emptyWorld = None) as Hs by reflexivity.
  assert (falsy (Env.SUPABASE_URL sampleEnv)
            || falsy (Env.SUPABASE_SERVICE_ROLE_KEY sampleEnv) = true) as Hf by reflexivity.
  assert (Zod.parse PdfRenderRequestSchema (Request.body (pdfRequest storedPdfBody))
            = inr storedPdfRequest) as Hp by (vm_compute; reflexivity).
  assert (renderPdf sampleEnv sampleRun storedPdfRequest
            (renderStart sampleRun (pdfOrchestration sampleEnv sampleRun)
               (pdfRequest storedPdfBody) emptyWorld storedPdfRequest)
          = Some (exec (renderPdf sampleEnv sampleRun storedPdfRequest)
                    (renderStart sampleRun (pdfOrchestration sampleEnv sampleRun)
                       (pdfRequest storedPdfBody) emptyWorld storedPdfRequest),
                  Normal [x25; x50; x44; x46]%byte)) as He by (vm_compute; reflexivity).
  destruct (storage_not_configured sampleEnv sampleRun (pdfRequest storedPdfBody) emptyWorld)
    as [Hinit Hrun].
  split; [exact Hs|]. split; [exact Hf|]. split; [exact (Hinit emptyWorld Hs Hf)|].
  split; [exact Hp|].
  exact (proj1 (Hrun Hs) storedPdfRequest _ _ Hp eq_refl He).
Defined.

(** ** Error messages *)


Lemma orchestrate_failure_body {R} env x (o : Orchestration.t R) req w w' s r :
  orchestrate env x o req w = Some (w', Normal (HttpResponse.mk s (ErrorBody r))) ->
  exists e, r = handleRenderError env e (Run.uuid x).
Proof.
  intros E. pose proof (orchestrate_outcome env x o req w) as H. rewrite E in H.
  inversion H as [errors| |request w3 e| |request w3 buffer w5 e|]; subst;
    try done; unfold failure in *; simplify_eq.
  - by exists (ZodError errors).
  - by exists e.
  - by exists e.
Qed.

(** C8 (amended): for the failures that the render handlers answer, the
    message is that of [handleRenderError]: in production, two failures
    answered with the same error code other than STORAGE_FAILED get the
    same message whatever the internal error text; the message of each code
    is fixed, except that RENDER_FAILED carries the original text outside
    production (and "Render failed" in production) and STORAGE_FAILED
    carries the error text without its marker in every mode.  For an error
    that reaches the error handler of the application (a request body that
    cannot be read), the answer is 500 INTERNAL_ERROR with "An unexpected
    error occurred" in production, whatever the error text, and with the
    original message outside production. *)
Theorem error_message_redaction env jobId :
  (Env.NODE_ENV env = production ->
     forall e1 e2,
       RenderErrorResponse.error (handleRenderError env e1 jobId)
         = RenderErrorResponse.error (handleRenderError env e2 jobId) ->
       RenderErrorResponse.error (handleRenderError env e1 jobId) <> STORAGE_FAILED ->
       RenderErrorResponse.message (handleRenderError env e1 jobId)
         = RenderErrorResponse.message (handleRenderError env e2 jobId)) /\
  (forall e,
     match RenderErrorResponse.error (handleRenderError env e jobId) with
     | VALIDATION_FAILED =>
         RenderErrorResponse.message (handleRenderError env e jobId) = "Invalid request data"
     | READY_FLAG_TIMEOUT =>
         RenderErrorResponse.message (handleRenderError env e jobId) = readyMessage
     | NAVIGATION_TIMEOUT =>
         RenderErrorResponse.message (handleRenderError env e jobId)
           = "Page navigation timed out"
     | INTERNAL_ERROR =>
         RenderErrorResponse.message (handleRenderError env e jobId)
           = "An unexpected error occurred"
     | STORAGE_FAILED =>
         exists text, e = Error text /\
           RenderErrorResponse.message (handleRenderError env e jobId)
             = Js.replace "STORAGE_FAILED: " "" text
     | RENDER_FAILED =>
         exists text, e = Error text /\
           RenderErrorResponse.message (handleRenderError env e jobId)
             = match Env.NODE_ENV env with
               | production => "Render failed"
               | _ => text
               end
     | UNAUTHORIZED | FORBIDDEN | CONCURRENCY_LIMIT => False
     end) /\
  (forall x req w w' s r,
     postPdf env x req w = Some (w', Normal (HttpResponse.mk s (ErrorBody r))) \/
     postImage env x req w = Some (w', Normal (HttpResponse.mk s (ErrorBody r))) ->
     exists e, r = handleRenderError env e (Run.uuid x)) /\
  (forall x message w,
     exists r,
       app env x (inl message) w = Some (w, Normal (HttpResponse.mk 500 (ErrorBody r))) /\
       RenderErrorResponse.error r = INTERNAL_ERROR /\
       RenderErrorResponse.message r =
         match Env.NODE_ENV env with
         | production => "An unexpected error occurred"
         | _ => message
         end) /\
  (Env.NODE_ENV env = production ->
     forall x message1 message2 w,
       app env x (inl message1) w = app env x (inl message2) w).
Proof.
  match goal with |- _ /\ ?Q /\ _ => assert Q as Hclass end.
  { intros [errors|text|v]; unfold handleRenderError; [done| |done].
    destruct (Js.includes "READY_FLAG_TIMEOUT" text); [done|].
    destruct (Js.includes "NAVIGATION_TIMEOUT" text || Js.includes "Timeout" text); [done|].
    destruct (Js.includes "STORAGE_FAILED" text); cbn; eauto. }
  split; [|split; [exact Hclass|split; [|split]]].
  - intros Hprod e1 e2 Hsame Hnot.
    pose proof (Hclass e1) as H1. pose proof (Hclass e2) as H2.
    rewrite <- Hsame in H2.
    destruct (RenderErrorResponse.error (handleRenderError env e1 jobId));
      try congruence; try done.
    destruct H1 as (t1 & _ & ->), H2 as (t2 & _ & ->). by rewrite Hprod.
  - intros x req w w' s r [E|E].
    + rewrite postPdf_orchestrate in E. by eapply orchestrate_failure_body.
    + rewrite postImage_orchestrate in E. by eapply orchestrate_failure_body.
  - intros x message w. by eexists.
  - intros Hprod x message1 message2 w. unfold app, errorHandler. by rewrite Hprod.
Qed.


Lemma error_message_redaction_witness :
  Env.NODE_ENV productionEnv = production /\
  RenderErrorResponse.error (handleRenderError productionEnv (Error "net::ERR_FAILED at 10.0.0.7") "j")
    = RenderErrorResponse.error (handleRenderError productionEnv (Error "page crashed") "j") /\
  RenderErrorResponse.message (handleRenderError productionEnv (Error "net::ERR_FAILED at 10.0.0.7") "j")
    = RenderErrorResponse.message (handleRenderError productionEnv (Error "page crashed") "j").
Proof.
  split; [reflexivity|]. split; [reflexivity|].
  apply (proj1 (error_message_redaction productionEnv "j") eq_refl);
    [reflexivity|discriminate].
Defined.

(** C8 as stated fails: in production, two storage failures differing only
    in the internal text are answered with different messages. *)
Lemma storage_message_not_redacted :
  ~ (forall env text1 text2 jobId,
       Env.NODE_ENV env = production ->
       RenderErrorResponse.message (handleRenderError env (Error text1) jobId)
         = RenderErrorResponse.message (handleRenderError env (Error text2) jobId)).
Proof.
  intros H.
  specialize (H productionEnv "STORAGE_FAILED: bucket renders not found"
                "STORAGE_FAILED: quota exceeded for project" "j" eq_refl).
  vm_compute in H. discriminate H.
Qed.

(** C8 as stated fails in its second clause too: outside production, a
    failure of the render handlers other than RENDER_FAILED is not answered
    with the original message (here a navigation timeout). *)
Lemma timeout_message_not_surfaced :
  ~ (forall env text jobId,
       Env.NODE_ENV env <> production ->
       RenderErrorResponse.message (handleRenderError env (Error text) jobId) = text).
Proof.
  intros H.
  assert (Env.NODE_ENV developmentEnv <> production) as Hdev by discriminate.
  specialize (H developmentEnv "page.goto: Timeout 15000ms exceeded." "j" Hdev).
  vm_compute in H. discriminate H.
Qed.



(** ** Validation *)


Lemma settled_valid {A} (a : A) : settled (Zod.valid a).
Proof. intros _. by eexists. Qed.

Lemma settled_aborted {A} c p : settled (@Zod.aborted A c p).
Proof. intros H. discriminate H. Qed.

Lemma settled_map {A B} (f : A -> B) r : settled r -> settled (f <$$> r).
Proof. intros Hr H. destruct (Hr H) as [a Ha]. cbn. rewrite Ha. by eexists. Qed.

Lemma settled_ap {A B} (f : Zod.Parsed (A -> B)) x : settled f -> settled x -> settled (f <*> x).
Proof.
  intros Hf Hx H. cbn in H. apply app_eq_nil in H as [H1 H2].
  destruct (Hf H1) as [g Hg], (Hx H2) as [a Ha]. cbn. rewrite Hg, Ha. by eexists.
Qed.

Lemma settled_check {A} ok c (t : Zod.ZodType A) p v :
  settled (t p v) -> settled (Zod.check ok c t p v).
Proof.
  intros Ht. unfold Zod.check. destruct (Zod.value (t p v)) as [a|] eqn:Ha; [|done].
  destruct (ok a); [done|]. intros _. cbn. by eexists.
Qed.

Lemma settled_string p v : settled (Zod.string_ p v).
Proof. destruct v as [[]|]; try apply settled_aborted. apply settled_valid. Qed.

Lemma settled_number p v : settled (Zod.number p v).
Proof. destruct v as [[]|]; try apply settled_aborted. apply settled_valid. Qed.

Lemma settled_boolean p v : settled (Zod.boolean p v).
Proof. destruct v as [[]|]; try apply settled_aborted. apply settled_valid. Qed.

Lemma settled_enum {A} (options : list (string * A)) p v : settled (Zod.enum options p v).
Proof.
  destruct v as [[]|]; try apply settled_aborted. cbn.
  destruct (Zod.lookupOption _ _); [apply settled_valid|apply settled_aborted].
Qed.

Lemma settled_optional {A} (t : Zod.ZodType A) p v :
  (forall p v, settled (t p v)) -> settled (Zod.optional t p v).
Proof. intros Ht. destruct v; [apply settled_map, Ht|apply settled_valid]. Qed.

Lemma settled_default {A} d (t : Zod.ZodType A) p v :
  (forall p v, settled (t p v)) -> settled (Zod.default d t p v).
Proof. intros Ht. destruct v; apply Ht. Qed.

Lemma settled_image p v : settled (ImageRenderRequestSchema p v).
Proof.
  unfold ImageRenderRequestSchema, Zod.object.
  destruct v as [[]|]; try apply settled_aborted.
  unfold Zod.key.
  repeat (apply settled_ap || apply settled_map);
    repeat first
      [ apply settled_optional; intros ? ?
      | apply settled_default; intros ? ?
      | apply settled_check
      | apply settled_string | apply settled_number | apply settled_boolean
      | apply settled_enum ].
Qed.

Lemma settled_margins p v : settled (MarginsSchema p v).
Proof.
  unfold MarginsSchema, Zod.object.
  destruct v as [[]|]; try apply settled_aborted.
  unfold Zod.key.
  repeat (apply settled_ap || apply settled_map);
    apply settled_default; intros ? ?; apply settled_string.
Qed.

Lemma settled_pdf p v : settled (PdfRenderRequestSchema p v).
Proof.
  unfold PdfRenderRequestSchema, Zod.object.
  destruct v as [[]|]; try apply settled_aborted.
  unfold Zod.key.
  repeat (apply settled_ap || apply settled_map);
    repeat first
      [ apply settled_optional; intros ? ?
      | apply settled_default; intros ? ?
      | apply settled_check
      | apply settled_margins
      | apply settled_string | apply settled_number | apply settled_boolean
      | apply settled_enum ].
Qed.

Lemma parse_issues {A} (t : Zod.ZodType A) data :
  settled (t [] data) ->
  match Zod.parse t data with
  | inl errors => errors = Zod.issues (t [] data) /\ errors <> []
  | inr a => Zod.issues (t [] data) = [] /\ Zod.value (t [] data) = Some a
  end.
Proof.
  intros Hs. unfold Zod.parse.
  destruct (Zod.issues (t [] data)) as [|i errs] eqn:Hi.
  - destruct (Hs Hi) as [a ->]. done.
  - done.
Qed.

Lemma image_issues props :
  Zod.issues (ImageRenderRequestSchema [] (Some (JObj props)))
    = concat (imageKeyIssues props).*2.
Proof.
  unfold ImageRenderRequestSchema, Zod.object, imageKeyIssues.
  cbn [Zod.issues Zod.ap Zod.map fmap list_fmap concat snd].
  by rewrite <- !app_assoc, app_nil_r.
Qed.


Lemma flat_aborted {A} c p i : i ∈ Zod.issues (@Zod.aborted A c p) -> Zod.path i = p.
Proof. cbn. intros H. by apply list_elem_of_singleton in H as ->. Qed.

Lemma flat_valid {A} (a : A) p i : i ∈ Zod.issues (Zod.valid a) -> Zod.path i = p.
Proof. cbn. intros H. by apply elem_of_nil in H. Qed.

Lemma flat_string : flat Zod.string_.
Proof. intros p [[]|] i; first [apply flat_aborted|apply flat_valid]. Qed.

Lemma flat_number : flat Zod.number.
Proof. intros p [[]|] i; first [apply flat_aborted|apply flat_valid]. Qed.

Lemma flat_boolean : flat Zod.boolean.
Proof. intros p [[]|] i; first [apply flat_aborted|apply flat_valid]. Qed.

Lemma flat_enum {A} (options : list (string * A)) : flat (Zod.enum options).
Proof.
  intros p [[]|] i; try apply flat_aborted. cbn.
  destruct (Zod.lookupOption _ _); [apply flat_valid|apply flat_aborted].
Qed.

Lemma flat_check {A} ok c (t : Zod.ZodType A) : flat t -> flat (Zod.check ok c t).
Proof.
  intros Ht p v i. unfold Zod.check.
  destruct (Zod.value (t p v)); [|apply Ht].
  destruct (ok a); [apply Ht|]. cbn. rewrite elem_of_app, list_elem_of_singleton.
  intros [Hi| ->]; [by eapply Ht|done].
Qed.

Lemma flat_optional {A} (t : Zod.ZodType A) : flat t -> flat (Zod.optional t).
Proof. intros Ht p [v|] i; [apply Ht|apply flat_valid]. Qed.

Lemma flat_default {A} d (t : Zod.ZodType A) : flat t -> flat (Zod.default d t).
Proof. intros Ht p [v|] i; apply Ht. Qed.

Lemma elem_of_concat {A} (x : A) (ls : list (list A)) l :
  l ∈ ls -> x ∈ l -> x ∈ concat ls.
Proof.
  intros Hl Hx. apply list_elem_of_In, in_concat. exists l.
  split; by apply list_elem_of_In.
Qed.

Lemma lookupOption_elem {A} k (v : A) l : Zod.lookupOption k l = Some v -> (k, v) ∈ l.
Proof.
  induction l as [|[k' v'] l IH]; cbn; [done|].
  destruct (String.eqb_spec k' k) as [->|_].
  - intros [= ->]. apply list_elem_of_here.
  - intros H. apply list_elem_of_further. by apply IH.
Qed.

Lemma image_key_paths props k errs i :
  (k, errs) ∈ imageKeyIssues props -> i ∈ errs -> Zod.path i = [k].
Proof.
  unfold imageKeyIssues. intros Hk Hi.
  repeat (apply elem_of_cons in Hk as [Hk|Hk];
          [injection Hk as -> ->; revert Hi; unfold Zod.key;
           repeat first [ apply flat_optional | apply flat_default | apply flat_check
                        | apply flat_string | apply flat_number | apply flat_boolean
                        | apply flat_enum ]|]).
  by apply elem_of_nil in Hk.
Qed.

Lemma pdf_issues props :
  Zod.issues (PdfRenderRequestSchema [] (Some (JObj props)))
    = concat (pdfKeyIssues props).*2.
Proof.
  unfold PdfRenderRequestSchema, Zod.object, pdfKeyIssues.
  cbn [Zod.issues Zod.ap Zod.map fmap list_fmap concat snd].
  by rewrite <- !app_assoc, app_nil_r.
Qed.


Lemma flat_rooted {A} (t : Zod.ZodType A) : flat t -> rooted t.
Proof. intros Ht p v i Hi. exists []. rewrite app_nil_r. by eapply Ht. Qed.

Lemma rooted_default {A} d (t : Zod.ZodType A) : rooted t -> rooted (Zod.default d t).
Proof. intros Ht p [v|] i; apply Ht. Qed.

Lemma rooted_margins : rooted MarginsSchema.
Proof.
  intros p v i. unfold MarginsSchema, Zod.object.
  destruct v as [[]|]; try (intros Hi; exists []; rewrite app_nil_r; revert Hi; apply flat_aborted).
  cbn [Zod.issues Zod.ap Zod.map]. unfold Zod.key. cbn [fst snd].
  rewrite !elem_of_app.
  intros [[[Hi|Hi]|Hi]|Hi];
    apply (flat_default _ _ flat_string) in Hi; rewrite Hi; by eexists.
Qed.

Lemma pdf_key_paths props k errs i :
  (k, errs) ∈ pdfKeyIssues props -> i ∈ errs -> exists rest, Zod.path i = k :: rest.
Proof.
  unfold pdfKeyIssues. intros Hk Hi.
  repeat (apply elem_of_cons in Hk as [Hk|Hk];
          [injection Hk as -> ->; revert Hi; unfold Zod.key; cbn [fst snd app];
           first
             [ apply (rooted_default _ _ rooted_margins)
             | apply flat_rooted;
               repeat first [ apply flat_optional | apply flat_default | apply flat_check
                            | apply flat_string | apply flat_number | apply flat_boolean
                            | apply flat_enum ] ]|]).
  by apply elem_of_nil in Hk.
Qed.

Lemma number_range_issues a b p q :
  Zod.issues (Zod.max b (Zod.min a Zod.number) p (Some (JNum q))) =
    (if Qle_bool a q then [] else [Zod.mkIssue Zod.too_small p]) ++
    (if Qle_bool q b then [] else [Zod.mkIssue Zod.too_big p]).
Proof.
  unfold Zod.max, Zod.min, Zod.check, Zod.number.
  cbn [Zod.value Zod.valid]. destruct (Qle_bool a q); cbn [Zod.value Zod.valid];
    destruct (Qle_bool q b); reflexivity.
Qed.

Lemma orchestrate_invalid {R} env x (o : Orchestration.t R) req w errors :
  Zod.parse (Orchestration.schema o) (Request.body req) = inl errors ->
  orchestrate env x o req w =
    Some (settle x failed (created x o req w), Normal (failure env x (ZodError errors))).
Proof.
  intros Hp. eapply Outcome_functional; [apply orchestrate_outcome|]. by eapply invalid.
Qed.


Lemma image_all_issues props :
  match Zod.parse ImageRenderRequestSchema (Some (JObj props)) with
  | inl errors => errors = concat (imageKeyIssues props).*2 /\ errors <> []
  | inr _ => concat (imageKeyIssues props).*2 = []
  end.
Proof.
  pose proof (parse_issues ImageRenderRequestSchema (Some (JObj props))
                (settled_image _ _)) as Hparse.
  rewrite image_issues in Hparse.
  destruct (Zod.parse _ _); [done|]. by destruct Hparse.
Qed.

Lemma pdf_all_issues props :
  match Zod.parse PdfRenderRequestSchema (Some (JObj props)) with
  | inl errors => errors = concat (pdfKeyIssues props).*2 /\ errors <> []
  | inr _ => concat (pdfKeyIssues props).*2 = []
  end.
Proof.
  pose proof (parse_issues PdfRenderRequestSchema (Some (JObj props))
                (settled_pdf _ _)) as Hparse.
  rewrite pdf_issues in Hparse.
  destruct (Zod.parse _ _); [done|]. by destruct Hparse.
Qed.

Lemma image_range key bound props q :
  (key, bound) ∈ [("width", 4096%Q); ("height", 4096%Q); ("scale", 3%Q)] ->
  assoc key props = Some (JNum q) ->
  Zod.lookupOption key (imageKeyIssues props) =
    Some ((if Qle_bool 1 q then [] else [Zod.mkIssue Zod.too_small [key]]) ++
          (if Qle_bool q bound then [] else [Zod.mkIssue Zod.too_big [key]])).
Proof.
  intros Hkey Hq.
  repeat (apply elem_of_cons in Hkey as [Hkey|Hkey];
          [injection Hkey as -> ->;
           cbn [Zod.lookupOption imageKeyIssues String.eqb Ascii.eqb Bool.eqb];
           unfold Zod.key, Zod.default; cbn [fst snd app]; rewrite Hq;
           by rewrite number_range_issues|]).
  by apply elem_of_nil in Hkey.
Qed.

Lemma invalid_answer {R} env x (o : Orchestration.t R) req w errors :
  Zod.parse (Orchestration.schema o) (Request.body req) = inl errors ->
  exists w',
    orchestrate env x o req w =
      Some (w', Normal (HttpResponse.mk 400
              (ErrorBody (RenderErrorResponse.mk VALIDATION_FAILED
                 "Invalid request data" (Some (Run.uuid x))
                 (Some (ValidationDetails errors)))))).
Proof. intros Hp. erewrite orchestrate_invalid by done. by eexists. Qed.

(** C7: a body is accepted exactly when none of the keys of the schema
    raises an issue, and is otherwise rejected with the issues of all its
    keys together, each at a path naming its key (for image and for PDF
    requests); width and height raise no issue exactly from 1 to 4096 and
    scale from 1 to 3, so width 4096, height 4096, scale 3 is accepted and
    width 4097 is rejected with an issue at path width; a rejected body is
    answered 400 VALIDATION_FAILED with the issues as details. *)
Theorem request_validation props :
  (* image requests: accepted exactly when no key raises an issue, and
     rejected with the issues of all keys, each under its key *)
  match Zod.parse ImageRenderRequestSchema (Some (JObj props)) with
  | inl errors => errors = concat (imageKeyIssues props).*2 /\ errors <> []
  | inr _ => concat (imageKeyIssues props).*2 = []
  end /\
  (forall errors k errs i,
     Zod.parse ImageRenderRequestSchema (Some (JObj props)) = inl errors ->
     (k, errs) ∈ imageKeyIssues props -> i ∈ errs ->
     i ∈ errors /\ Zod.path i = [k]) /\
  (* PDF requests likewise *)
  match Zod.parse PdfRenderRequestSchema (Some (JObj props)) with
  | inl errors => errors = concat (pdfKeyIssues props).*2 /\ errors <> []
  | inr _ => concat (pdfKeyIssues props).*2 = []
  end /\
  (forall errors k errs i,
     Zod.parse PdfRenderRequestSchema (Some (JObj props)) = inl errors ->
     (k, errs) ∈ pdfKeyIssues props -> i ∈ errs ->
     i ∈ errors /\ exists rest, Zod.path i = k :: rest) /\
  (* the ranges of width, height and scale *)
  (forall key bound q,
     (key, bound) ∈ [("width", 4096%Q); ("height", 4096%Q); ("scale", 3%Q)] ->
     assoc key props = Some (JNum q) ->
     Zod.lookupOption key (imageKeyIssues props) =
       Some ((if Qle_bool 1 q then [] else [Zod.mkIssue Zod.too_small [key]]) ++
             (if Qle_bool q bound then [] else [Zod.mkIssue Zod.too_big [key]]))) /\
  (* the boundary request is accepted *)
  (exists request,
     Zod.parse ImageRenderRequestSchema (Some boundaryBody) = inr request /\
     ImageRenderRequest.width request = 4096%Q /\
     ImageRenderRequest.height request = 4096%Q /\
     ImageRenderRequest.scale request = 3%Q) /\
  (* width 4097 is rejected under its name *)
  (assoc "width" props = Some (JNum 4097) ->
     exists errors,
       Zod.parse ImageRenderRequestSchema (Some (JObj props)) = inl errors /\
       Zod.mkIssue Zod.too_big ["width"] ∈ errors) /\
  (* a rejected body is answered 400 VALIDATION_FAILED with the issues *)
  (forall env x req w errors,
     (Zod.parse ImageRenderRequestSchema (Request.body req) = inl errors ->
      exists w',
        postImage env x req w =
          Some (w', Normal (HttpResponse.mk 400
                  (ErrorBody (RenderErrorResponse.mk VALIDATION_FAILED
                     "Invalid request data" (Some (Run.uuid x))
                     (Some (ValidationDetails errors))))))) /\
     (Zod.parse PdfRenderRequestSchema (Request.body req) = inl errors ->
      exists w',
        postPdf env x req w =
          Some (w', Normal (HttpResponse.mk 400
                  (ErrorBody (RenderErrorResponse.mk VALIDATION_FAILED
                     "Invalid request data" (Some (Run.uuid x))
                     (Some (ValidationDetails errors)))))))) /\
  (* a body that is not an object raises one issue, at the root *)
  (forall body, (forall fields, body <> Some (JObj fields)) ->
     Zod.parse ImageRenderRequestSchema body = inl [Zod.mkIssue Zod.invalid_type []] /\
     Zod.parse PdfRenderRequestSchema body = inl [Zod.mkIssue Zod.invalid_type []]).
Proof.
  pose proof (image_all_issues props) as Himage.
  pose proof (pdf_all_issues props) as Hpdf.
  assert (forall errors k errs i,
     Zod.parse ImageRenderRequestSchema (Some (JObj props)) = inl errors ->
     (k, errs) ∈ imageKeyIssues props -> i ∈ errs ->
     i ∈ errors /\ Zod.path i = [k]) as Hall.
  { intros errors k errs i Hp Hk Hi. split; [|by eapply image_key_paths].
    rewrite Hp in Himage. destruct Himage as [-> _].
    apply (elem_of_concat _ _ errs); [|done].
    apply list_elem_of_fmap. by exists (k, errs). }
  split; [exact Himage|]. split; [exact Hall|]. split; [exact Hpdf|].
  split; [|split; [|split; [|split; [|split]]]].
  - intros errors k errs i Hp Hk Hi. split; [|by eapply pdf_key_paths].
    rewrite Hp in Hpdf. destruct Hpdf as [-> _].
    apply (elem_of_concat _ _ errs); [|done].
    apply list_elem_of_fmap. by exists (k, errs).
  - intros key bound q. apply image_range.
  - eexists. split; [vm_compute; reflexivity|]. split; [reflexivity|]. split; reflexivity.
  - intros Hq.
    assert (("width", [Zod.mkIssue Zod.too_big ["width"]]) ∈ imageKeyIssues props) as Hkey.
    { apply lookupOption_elem.
      rewrite (image_range "width" 4096 props 4097 (list_elem_of_here _ _) Hq). done. }
    assert (Zod.mkIssue Zod.too_big ["width"] ∈ [Zod.mkIssue Zod.too_big ["width"]]) as Hi
      by apply list_elem_of_here.
    destruct (Zod.parse _ _) as [errors|request] eqn:Hp.
    + exists errors. split; [done|].
      by apply (Hall errors "width" _ _ eq_refl Hkey Hi).
    + exfalso. eapply elem_of_nil. rewrite <- Himage.
      eapply elem_of_concat; [|exact Hi].
      apply list_elem_of_fmap. by exists ("width", [Zod.mkIssue Zod.too_big ["width"]]).
  - intros env x req w errors. split; intros Hp.
    + rewrite postImage_orchestrate. by apply invalid_answer.
    + rewrite postPdf_orchestrate. by apply invalid_answer.
  - intros body Hbody.
    destruct body as [[| | | | |fields]|]; try (split; reflexivity).
    by destruct (Hbody fields).
Qed.

Lemma request_validation_witness :
  assoc "width" oversizedProps = Some (JNum 4097) /\
  exists errors,
    Zod.parse ImageRenderRequestSchema (Some (JObj oversizedProps)) = inl errors /\
    Zod.mkIssue Zod.too_big ["width"] ∈ errors.
Proof.
  split; [reflexivity|].
  destruct (request_validation oversizedProps)
    as (_ & _ & _ & _ & _ & _ & Hreject & _ & _).
  exact (Hreject eq_refl).
Defined.

(** * More properties of the service *)

(** ** The API key *)

Lemma eqb_string_neq (a b : string) : a <> b -> String.eqb a b = false.
Proof. intros H. by apply String.eqb_neq. Qed.

(** X1: the /render mount lets a request through to the gate exactly when
    it presents the configured key.  A key in X-API-Key is the only one
    looked at, so a wrong or empty one is not made good by a valid Bearer
    token; without X-API-Key the token after "Bearer " counts.  No key (or an
    empty one) is answered 401 UNAUTHORIZED and a wrong key 403 FORBIDDEN,
    whatever the number of jobs in flight, and the world is left as it was:
    nothing after the check is run. *)
Theorem api_key_guards_render env x (req : Request.t) w :
  (forall k, Request.x_api_key req = Some k \/
             (Request.x_api_key req = None /\
              Request.authorization req = Some ("Bearer " +:+ k)) ->
     (k = Env.API_KEY env -> k <> "" ->
        render env x req w = concurrencyLimit env (renderRouter env x req) w) /\
     (k = "" ->
        exists r, render env x req w = Some (w, Normal (HttpResponse.mk 401 (ErrorBody r))) /\
                  RenderErrorResponse.error r = UNAUTHORIZED) /\
     (k <> "" -> k <> Env.API_KEY env ->
        exists r, render env x req w = Some (w, Normal (HttpResponse.mk 403 (ErrorBody r))) /\
                  RenderErrorResponse.error r = FORBIDDEN)) /\
  (Request.x_api_key req = None ->
   (forall a, Request.authorization req = Some a -> Js.startsWith "Bearer " a = false) ->
     exists r, render env x req w = Some (w, Normal (HttpResponse.mk 401 (ErrorBody r))) /\
               RenderErrorResponse.error r = UNAUTHORIZED) /\
  (render env x req w = concurrencyLimit env (renderRouter env x req) w \/
   exists s r, render env x req w = Some (w, Normal (HttpResponse.mk s (ErrorBody r))) /\
               (s = 401 /\ RenderErrorResponse.error r = UNAUTHORIZED \/
                s = 403 /\ RenderErrorResponse.error r = FORBIDDEN)).
Proof.
  unfold render, apiKeyAuth.
  split; [|split].
  - intros k Hk.
    assert (match Request.x_api_key req with
            | Some apiKeyHeader => Some apiKeyHeader
            | None =>
                match Request.authorization req with
                | Some authHeader =>
                    if Js.startsWith "Bearer " authHeader
                    then Some (Js.slice 7 authHeader) else None
                | None => None
                end
            end = Some k) as ->.
    { destruct Hk as [->|[-> ->]]; [done|].
      by rewrite startsWith_app. }
    split; [|split].
    + intros -> Hne. rewrite (eqb_string_neq _ _ Hne). by rewrite String.eqb_refl.
    + intros ->. cbn. by eexists.
    + intros Hne Hbad. rewrite !eqb_string_neq by done. cbn. by eexists.
  - intros -> Ha. destruct (Request.authorization req) as [a|]; [|by eexists].
    rewrite (Ha a eq_refl). by eexists.
  - destruct (match Request.x_api_key req with Some _ => _ | None => _ end) as [k|].
    + destruct (String.eqb k ""); [right; eexists _, _; split; [done|by left]|].
      destruct (String.eqb k (Env.API_KEY env)); [by left|].
      right. eexists _, _. split; [done|by right].
    + right. eexists _, _. split; [done|by left].
Qed.

Lemma api_key_guards_render_witness :
  exists r, render sampleEnv sampleRun
              (Request.mk (Some "guess") (Some "Bearer secret") PostPdf (Some inlinePdfBody))
              busyWorld
            = Some (busyWorld, Normal (HttpResponse.mk 403 (ErrorBody r))) /\
            RenderErrorResponse.error r = FORBIDDEN.
Proof.
  destruct (api_key_guards_render sampleEnv sampleRun
              (Request.mk (Some "guess") (Some "Bearer secret") PostPdf (Some inlinePdfBody))
              busyWorld) as (Hkey & _ & _).
  destruct (Hkey "guess" (or_introl eq_refl)) as (_ & _ & Hwrong).
  apply Hwrong; discriminate.
Defined.

(** ** The calls of a render *)

Lemma evaluateReadyFlag_trace flag timeout w w' c :
  evaluateReadyFlag flag timeout w = Some (w', c) ->
  World.trace w' = World.trace w ++ [Called (PageEvaluateReadyFlag timeout)].
Proof.
  unfold evaluateReadyFlag. destruct (flag _); [by intros [= <- _]|].
  destruct (pollReady _ _ _ _ _) as [[t r]|]; [|done]. by intros [= <- _].
Qed.

Lemma waitForRenderReady_calls env b w w' c :
  waitForRenderReady env b w = Some (w', c) ->
  exists steps,
    World.trace w' = World.trace w ++ (Called <$> steps) /\
    steps `prefix_of` [PageEvaluateFontsReady;
                       PageEvaluateReadyFlag (Env.READY_FLAG_TIMEOUT_MS env);
                       PageWaitForTimeout 150] /\
    (c = Normal tt -> steps = [PageEvaluateFontsReady;
                               PageEvaluateReadyFlag (Env.READY_FLAG_TIMEOUT_MS env);
                               PageWaitForTimeout 150]).
Proof.
  destruct (Browser.fontsReady b) as [[ms [e|[]]]|] eqn:Hf.
  3:{ unfold waitForRenderReady. by rewrite Hf. }
  { unfold waitForRenderReady. rewrite Hf. intros [= <- <-].
    exists [PageEvaluateFontsReady].
    split; [done|]. split; [by eexists|done]. }
  rewrite (fonts_then env b w ms Hf). unfold bind.
  destruct (evaluateReadyFlag _ _ _) as [[w1 [r|e]]|] eqn:E; [| |done];
    apply evaluateReadyFlag_trace in E; cbn in E.
  - destruct r; cbn.
    + intros [= <- <-]. eexists [_; _; _]. cbn. rewrite E, <- ?app_assoc.
      split; [done|]. split; [by exists []|done].
    + intros [= <- <-]. eexists [_; _]. cbn. rewrite E, <- ?app_assoc.
      split; [done|]. split; [by eexists|done].
  - intros [= <- <-]. eexists [_; _]. cbn. rewrite E, <- ?app_assoc.
    split; [done|]. split; [by eexists|done].
Qed.

(** From the navigation to the capture. *)
Lemma onPage_calls env b url capture w w' (c : Completion (list byte)) :
  (call (PageGoto url (Env.NAVIGATION_TIMEOUT_MS env)) (Browser.goto b) ;;;
   waitForRenderReady env b ;;;
   let* buffer := call capture (Browser.capture b) in
   ret buffer) w = Some (w', c) ->
  exists steps,
    World.trace w' = World.trace w ++ (Called <$> steps) /\
    steps `prefix_of` pageSteps env url capture /\
    (forall bytes, c = Normal bytes ->
       steps = pageSteps env url capture /\ (Browser.capture b).2 = inr bytes).
Proof.
  unfold bind at 1, call at 1, bind, emit, elapse. cbn -[waitForRenderReady].
  destruct (Browser.goto b).2 as [e|[]]; cbn -[waitForRenderReady].
  { intros [= <- <-]. exists [PageGoto url (Env.NAVIGATION_TIMEOUT_MS env)].
    split; [done|]. split; [by eexists|done]. }
  destruct (waitForRenderReady _ _ _) as [[w1 [[]|e]]|] eqn:E; [| |done];
    apply waitForRenderReady_calls in E as (steps & Ht & Hpre & Hall); cbn in Ht.
  - specialize (Hall eq_refl) as ->.
    unfold call, bind, emit, elapse. cbn.
    destruct (Browser.capture b).2 as [e|bytes]; cbn; intros [= <- <-];
      exists (pageSteps env url capture); cbn; rewrite Ht, <- ?app_assoc;
      (split; [done|]); (split; [done|]); [done|by intros ? [= <-]].
  - intros [= <- <-].
    exists (PageGoto url (Env.NAVIGATION_TIMEOUT_MS env) :: steps).
    rewrite Ht, <- app_assoc. split; [done|]. split; [|done].
    destruct Hpre as [k Hk]. exists (k ++ [capture]). unfold pageSteps.
    cbn. f_equal. by rewrite app_assoc, <- Hk.
Qed.

(** The frame of both engines: the browser is looked up, a context and a
    page are opened, and whatever is done with the page, the page and then
    the context are closed; how the closings settle does not matter. *)
Lemma scoped_calls {A} context (b : Browser.t) (onPage : M A) w w' c :
  (getBrowser ;;;
   call context (Browser.newContext b) ;;;
   try_finally
     (call ContextNewPage (Browser.newPage b) ;;;
      try_finally onPage (swallow (call PageClose (Browser.closePage b))))
     (swallow (call ContextClose (Browser.closeContext b)))) w = Some (w', c) ->
  if World.browser w then
    match (Browser.newContext b).2, (Browser.newPage b).2 with
    | inl e, _ => World.trace w' = World.trace w ++ [Called context] /\ c = Throw e
    | inr _, inl e =>
        World.trace w' = World.trace w
          ++ [Called context; Called ContextNewPage; Called ContextClose] /\
        c = Throw e
    | inr _, inr _ =>
        exists w2 w3,
          onPage w2 = Some (w3, c) /\
          World.trace w2 = World.trace w ++ [Called context; Called ContextNewPage] /\
          World.trace w' = World.trace w3 ++ [Called PageClose; Called ContextClose]
    end
  else w' = w /\ c = Throw (Error "Browser not initialized. Call initBrowser() first.").
Proof.
  unfold bind at 1, getBrowser.
  destruct (World.browser w); [|by intros [= <- <-]].
  unfold bind at 1, call at 1, bind, emit, elapse. cbn -[try_finally].
  destruct (Browser.newContext b).2 as [e|[]]; cbn -[try_finally].
  { by intros [= <- <-]. }
  unfold try_finally at 1.
  destruct (Browser.newPage b).2 as [e|[]]; cbn -[try_finally swallow].
  { unfold swallow, try_catch, call, bind, emit, elapse. cbn.
    destruct (Browser.closeContext b).2 as [e'|[]]; cbn; intros [= <- <-];
      by rewrite <- ?app_assoc. }
  unfold try_finally at 1.
  match goal with |- context [onPage ?w2] => set (w2' := w2) end.
  destruct (onPage w2') as [[w3 c3]|] eqn:E; [|done].
  unfold swallow, try_catch, call, bind, emit, elapse. cbn.
  destruct (Browser.closePage b).2 as [e'|[]]; cbn;
    destruct (Browser.closeContext b).2 as [e''|[]]; cbn; intros [= <- <-];
    exists w2', w3; (split; [done|]);
    (split; [unfold w2'|]); cbn; by rewrite <- app_assoc.
Qed.

Lemma buildRenderUrl_cases env x path authToken :
  (exists url, forall w, buildRenderUrl env x path authToken w = Some (w, Normal url)) \/
  (exists e, forall w, buildRenderUrl env x path authToken w = Some (w, Throw e)).
Proof.
  unfold buildRenderUrl. destruct (Run.newURL _ _ _); [right|left]; by eexists.
Qed.

Lemma emulateMedia_first {A} (b : Browser.t) (k : M A) w w' c :
  (call PageEmulateMedia (Browser.emulateMedia b) ;;; k) w = Some (w', c) ->
  (exists e, (Browser.emulateMedia b).2 = inl e /\ c = Throw e /\
             World.trace w' = World.trace w ++ [Called PageEmulateMedia]) \/
  (exists w2, World.trace w2 = World.trace w ++ [Called PageEmulateMedia] /\
              k w2 = Some (w', c)).
Proof.
  unfold bind at 1, call at 1, bind, emit, elapse. cbn.
  destruct (Browser.emulateMedia b).2 as [e|[]]; cbn.
  - intros [= <- <-]. left. by exists e.
  - intros E. right. eexists. split; [|exact E]. done.
Qed.

(** What a render returns or throws does not depend on the closings. *)
Lemma scoped_completion {A} context (b' b : Browser.t) (onPage : M A) w :
  Browser.newContext b' = Browser.newContext b ->
  Browser.newPage b' = Browser.newPage b ->
  snd <$> (getBrowser ;;;
           call context (Browser.newContext b') ;;;
           try_finally
             (call ContextNewPage (Browser.newPage b') ;;;
              try_finally onPage (swallow (call PageClose (Browser.closePage b'))))
             (swallow (call ContextClose (Browser.closeContext b')))) w
  = snd <$> (getBrowser ;;;
             call context (Browser.newContext b) ;;;
             try_finally
               (call ContextNewPage (Browser.newPage b) ;;;
                try_finally onPage (swallow (call PageClose (Browser.closePage b))))
               (swallow (call ContextClose (Browser.closeContext b)))) w.
Proof.
  intros -> ->.
  unfold getBrowser, try_finally, swallow, try_catch, call, bind, emit, elapse, ret, throw.
  destruct (World.browser w); [|done].
  destruct (Browser.newContext b).2 as [e|[]]; [done|].
  destruct (Browser.newPage b).2 as [e|[]].
  { by destruct (Browser.closeContext b).2 as [?|[]], (Browser.closeContext b').2 as [?|[]]. }
  cbn.
  match goal with |- context [onPage ?w2] => destruct (onPage w2) as [[w3 c3]|] end; [|done].
  by destruct (Browser.closePage b).2 as [?|[]], (Browser.closePage b').2 as [?|[]],
       (Browser.closeContext b).2 as [?|[]], (Browser.closeContext b').2 as [?|[]].
Qed.

Lemma renderPdf_call_order env x w request w' c :
  renderPdf env x request w = Some (w', c) ->
  exists url steps,
    World.trace w' = World.trace w ++
      (Called <$> renderCalls w (Run.browser x) (BrowserNewContext 1200 800 1) steps) /\
    steps `prefix_of` pageSteps env url (pdfCapture request) /\
    (forall u, buildRenderUrl env x (PdfRenderRequest.url request)
                 (PdfRenderRequest.authToken request) w = Some (w, Normal u) ->
       u = url) /\
    (forall bytes, c = Normal bytes ->
       renderCalls w (Run.browser x) (BrowserNewContext 1200 800 1) steps =
         [BrowserNewContext 1200 800 1; ContextNewPage]
           ++ pageSteps env url (pdfCapture request)
           ++ [PageClose; ContextClose] /\
       steps = pageSteps env url (pdfCapture request) /\
       (Browser.capture (Run.browser x)).2 = inr bytes /\
       buildRenderUrl env x (PdfRenderRequest.url request)
         (PdfRenderRequest.authToken request) w = Some (w, Normal url)).
Proof.
  intros E.
  destruct (buildRenderUrl_cases env x (PdfRenderRequest.url request)
              (PdfRenderRequest.authToken request)) as [(url & Hurl)|(e & Hurl)].
  + exists url. pose proof (fun w0 => Hurl w0) as Hurl'. 
    apply scoped_calls in E. unfold renderCalls.
    destruct (World.browser w).
    2:{ destruct E as [-> ->]. exists []. rewrite app_nil_r.
        split; [done|]. split; [by eexists|]. split; [|done].
        intros u. rewrite Hurl. by intros [= <-]. }
    destruct (Browser.newContext _).2 as [e|[]].
    { destruct E as [-> ->]. exists []. split; [done|]. split; [by eexists|].
      split; [|done]. intros u. rewrite Hurl. by intros [= <-]. }
    destruct (Browser.newPage _).2 as [e|[]].
    { destruct E as [-> ->]. exists []. split; [done|]. split; [by eexists|].
      split; [|done]. intros u. rewrite Hurl. by intros [= <-]. }
    destruct E as (w2 & w3 & E & Ht2 & ->).
    unfold bind at 1 in E. rewrite Hurl in E.
    apply onPage_calls in E as (steps & Ht3 & Hpre & Hall).
    exists steps. split; [|split; [exact Hpre|split]].
    * rewrite Ht3, Ht2, !fmap_app, <- !app_assoc. done.
    * intros u. rewrite Hurl. by intros [= <-].
    * intros bytes ->. by destruct (Hall bytes eq_refl) as [-> Hc].
  + exists "". apply scoped_calls in E. unfold renderCalls.
    destruct (World.browser w).
    2:{ destruct E as [-> ->]. exists []. rewrite app_nil_r.
        split; [done|]. split; [by eexists|]. split; [|done].
        intros u. by rewrite Hurl. }
    destruct (Browser.newContext _).2 as [e'|[]].
    { destruct E as [-> ->]. exists []. split; [done|]. split; [by eexists|].
      split; [|done]. intros u. by rewrite Hurl. }
    destruct (Browser.newPage _).2 as [e'|[]].
    { destruct E as [-> ->]. exists []. split; [done|]. split; [by eexists|].
      split; [|done]. intros u. by rewrite Hurl. }
    destruct E as (w2 & w3 & E & Ht2 & ->).
    unfold bind at 1 in E. rewrite Hurl in E. injection E as <- <-.
    exists []. rewrite Ht2, <- app_assoc.
    split; [done|]. split; [by eexists|]. split; [|done]. intros u. by rewrite Hurl.
Qed.

Lemma renderImage_call_order env x w request w' c :
  renderImage env x request w = Some (w', c) ->
  exists url steps,
    World.trace w' = World.trace w ++
      (Called <$> renderCalls w (Run.browser x) (imageContext request) steps) /\
    steps `prefix_of` PageEmulateMedia :: pageSteps env url (imageCapture request) /\
    (forall u, buildRenderUrl env x (ImageRenderRequest.url request)
                 (ImageRenderRequest.authToken request) w = Some (w, Normal u) ->
       u = url) /\
    (forall bytes, c = Normal bytes ->
       renderCalls w (Run.browser x) (imageContext request) steps =
         [imageContext request; ContextNewPage]
           ++ (PageEmulateMedia :: pageSteps env url (imageCapture request))
           ++ [PageClose; ContextClose] /\
       steps = PageEmulateMedia :: pageSteps env url (imageCapture request) /\
       (Browser.capture (Run.browser x)).2 = inr bytes /\
       buildRenderUrl env x (ImageRenderRequest.url request)
         (ImageRenderRequest.authToken request) w = Some (w, Normal url)).
Proof.
  intros E.
  destruct (buildRenderUrl_cases env x (ImageRenderRequest.url request)
              (ImageRenderRequest.authToken request)) as [(url & Hurl)|(e & Hurl)].
  + exists url. apply scoped_calls in E. unfold renderCalls.
    destruct (World.browser w).
    2:{ destruct E as [-> ->]. exists []. rewrite app_nil_r.
        split; [done|]. split; [by eexists|]. split; [|done].
        intros u. rewrite Hurl. by intros [= <-]. }
    destruct (Browser.newContext _).2 as [e|[]].
    { destruct E as [-> ->]. exists []. split; [done|]. split; [by eexists|].
      split; [|done]. intros u. rewrite Hurl. by intros [= <-]. }
    destruct (Browser.newPage _).2 as [e|[]].
    { destruct E as [-> ->]. exists []. split; [done|]. split; [by eexists|].
      split; [|done]. intros u. rewrite Hurl. by intros [= <-]. }
    destruct E as (w2 & w3 & E & Ht2 & ->).
    apply emulateMedia_first in E as [(e & _ & -> & Ht)|(w2' & Ht & E)].
    { exists [PageEmulateMedia]. cbn. rewrite Ht, Ht2, <- !app_assoc.
      split; [done|]. split; [by eexists|]. split; [|done].
      intros u. rewrite Hurl. by intros [= <-]. }
    unfold bind at 1 in E. rewrite Hurl in E.
    apply onPage_calls in E as (steps & Ht3 & Hpre & Hall).
    exists (PageEmulateMedia :: steps). split; [|split; [|split]].
    * rewrite Ht3, Ht, Ht2, !fmap_app. cbn. rewrite <- !app_assoc. done.
    * by apply prefix_cons.
    * intros u. rewrite Hurl. by intros [= <-].
    * intros bytes ->. by destruct (Hall bytes eq_refl) as [-> Hc].
  + exists "". apply scoped_calls in E. unfold renderCalls.
    destruct (World.browser w).
    2:{ destruct E as [-> ->]. exists []. rewrite app_nil_r.
        split; [done|]. split; [by eexists|]. split; [|done].
        intros u. by rewrite Hurl. }
    destruct (Browser.newContext _).2 as [e'|[]].
    { destruct E as [-> ->]. exists []. split; [done|]. split; [by eexists|].
      split; [|done]. intros u. by rewrite Hurl. }
    destruct (Browser.newPage _).2 as [e'|[]].
    { destruct E as [-> ->]. exists []. split; [done|]. split; [by eexists|].
      split; [|done]. intros u. by rewrite Hurl. }
    destruct E as (w2 & w3 & E & Ht2 & ->).
    apply emulateMedia_first in E as [(e' & _ & -> & Ht)|(w2' & Ht & E)].
    { exists [PageEmulateMedia]. cbn. rewrite Ht, Ht2, <- !app_assoc.
      split; [done|]. split; [by eexists|]. split; [|done]. intros u. by rewrite Hurl. }
    unfold bind at 1 in E. rewrite Hurl in E. injection E as <- <-.
    exists [PageEmulateMedia]. cbn. rewrite Ht, Ht2, <- !app_assoc.
    split; [done|]. split; [by eexists|]. split; [|done]. intros u. by rewrite Hurl.
Qed.



(** X3: how the closing of the page and of the context settle (late, or
    with an error) never changes what a render returns or throws. *)
Theorem closing_failures_are_swallowed env x closePage closeContext w :
  (forall request,
     snd <$> renderPdf env (closingWith closePage closeContext x) request w
       = snd <$> renderPdf env x request w) /\
  (forall request,
     snd <$> renderImage env (closingWith closePage closeContext x) request w
       = snd <$> renderImage env x request w).
Proof.
  split; intros request; unfold renderPdf, renderImage;
    apply (scoped_completion _ _ (Run.browser x)); reflexivity.
Qed.

(** ** The life of the browser *)

Lemma renderPdf_no_browser env x request w :
  World.browser w = false ->
  renderPdf env x request w
    = Some (w, Throw (Error "Browser not initialized. Call initBrowser() first.")).
Proof. intros H. unfold renderPdf, bind at 1, getBrowser. by rewrite H. Qed.

Lemma renderImage_no_browser env x request w :
  World.browser w = false ->
  renderImage env x request w
    = Some (w, Throw (Error "Browser not initialized. Call initBrowser() first.")).
Proof. intros H. unfold renderImage, bind at 1, getBrowser. by rewrite H. Qed.

Lemma calls_settle x s w1 : calls (World.trace (settle x s w1)) = calls (World.trace w1).
Proof.
  rewrite settle_trace, calls_app. destruct (_ !! _); cbn; by rewrite app_nil_r.
Qed.

Lemma calls_renderStart {R} x (o : Orchestration.t R) req w request :
  calls (World.trace (renderStart x o req w request)) = calls (World.trace w).
Proof. rewrite renderStart_trace, calls_app. cbn. by rewrite app_nil_r. Qed.

Lemma orchestrate_no_browser {R} env x (o : Orchestration.t R) req w request :
  (forall w0, World.browser w0 = false ->
     Orchestration.engine o request w0
       = Some (w0, Throw (Error "Browser not initialized. Call initBrowser() first."))) ->
  World.browser w = false ->
  Zod.parse (Orchestration.schema o) (Request.body req) = inr request ->
  exists w' r,
    orchestrate env x o req w = Some (w', Normal (HttpResponse.mk 500 (ErrorBody r))) /\
    RenderErrorResponse.error r = RENDER_FAILED /\
    RenderErrorResponse.message r =
      match Env.NODE_ENV env with
      | production => "Render failed"
      | _ => "Browser not initialized. Call initBrowser() first."
      end /\
    calls (World.trace w') = calls (World.trace w) /\
    World.activeJobs w' !! Run.uuid x = None.
Proof.
  intros Hengine Hb Hp.
  erewrite orchestrate_engine_threw; [|done|apply Hengine; by rewrite renderStart_browser].
  eexists _, _. split; [reflexivity|]. split; [reflexivity|]. split; [reflexivity|].
  split; [|apply settle_absent].
  by rewrite calls_settle, resume_trace, calls_renderStart.
Qed.

(** X4: the browser is launched once: [initBrowser] on a live browser does
    nothing, a failed launch leaves the service without a browser, and
    [closeBrowser] forgets the browser only when the closing succeeded.
    Without a browser (before the launch, after a failed one, after the
    closing) a valid render request of either kind is answered 500
    RENDER_FAILED, with "Render failed" in production and the engine's text
    otherwise, no call having been made and the job being out of the
    registry. *)
Theorem browser_lifecycle env x req launch close w :
  (World.browser w = true -> initBrowser launch w = Some (w, Normal tt)) /\
  (World.browser w = false -> launch.2 = inr tt ->
     exists w', initBrowser launch w = Some (w', Normal tt) /\
                World.browser w' = true /\
                World.trace w' = World.trace w /\
                World.activeJobs w' = World.activeJobs w) /\
  (World.browser w = false -> forall e, launch.2 = inl e ->
     exists w', initBrowser launch w = Some (w', Throw e) /\ World.browser w' = false) /\
  (World.browser w = false -> closeBrowser close w = Some (w, Normal tt)) /\
  (World.browser w = true -> close.2 = inr tt ->
     exists w', closeBrowser close w = Some (w', Normal tt) /\ World.browser w' = false) /\
  (World.browser w = true -> forall e, close.2 = inl e ->
     exists w', closeBrowser close w = Some (w', Throw e) /\ World.browser w' = true) /\
  (World.browser w = false ->
     (forall request,
        Zod.parse PdfRenderRequestSchema (Request.body req) = inr request ->
        exists w' r,
          postPdf env x req w = Some (w', Normal (HttpResponse.mk 500 (ErrorBody r))) /\
          RenderErrorResponse.error r = RENDER_FAILED /\
          RenderErrorResponse.message r =
            match Env.NODE_ENV env with
            | production => "Render failed"
            | _ => "Browser not initialized. Call initBrowser() first."
            end /\
          calls (World.trace w') = calls (World.trace w) /\
          World.activeJobs w' !! Run.uuid x = None) /\
     (forall request,
        Zod.parse ImageRenderRequestSchema (Request.body req) = inr request ->
        exists w' r,
          postImage env x req w = Some (w', Normal (HttpResponse.mk 500 (ErrorBody r))) /\
          RenderErrorResponse.error r = RENDER_FAILED /\
          RenderErrorResponse.message r =
            match Env.NODE_ENV env with
            | production => "Render failed"
            | _ => "Browser not initialized. Call initBrowser() first."
            end /\
          calls (World.trace w') = calls (World.trace w) /\
          World.activeJobs w' !! Run.uuid x = None)).
Proof.
  unfold initBrowser, closeBrowser, bind, elapse, setBrowser, throw.
  repeat split.
  - by intros ->.
  - intros -> ->. by eexists.
  - intros Hb e ->. rewrite Hb. eexists. split; [done|exact Hb].
  - by intros ->.
  - intros Hb ->. rewrite Hb. by eexists.
  - intros Hb e ->. rewrite Hb. eexists. split; [done|exact Hb].
  - intros request Hp. rewrite postPdf_orchestrate.
    eapply orchestrate_no_browser; [|done..].
    intros w0. apply renderPdf_no_browser.
  - intros request Hp. rewrite postImage_orchestrate.
    eapply orchestrate_no_browser; [|done..].
    intros w0. apply renderImage_no_browser.
Qed.

Lemma browser_lifecycle_witness :
  exists w1,
    closeBrowser (30, inr tt) emptyWorld = Some (w1, Normal tt) /\
    World.browser w1 = false /\
    exists w' r,
      postPdf sampleEnv sampleRun (pdfRequest inlinePdfBody) w1
        = Some (w', Normal (HttpResponse.mk 500 (ErrorBody r))) /\
      RenderErrorResponse.error r = RENDER_FAILED /\
      RenderErrorResponse.message r = "Render failed" /\
      calls (World.trace w') = [].
Proof.
  destruct (browser_lifecycle sampleEnv sampleRun (pdfRequest inlinePdfBody)
              (0, inr tt) (30, inr tt) emptyWorld) as (_ & _ & _ & _ & Hclose & _).
  destruct (Hclose eq_refl eq_refl) as (w1 & E & Hb).
  exists w1. split; [exact E|]. split; [exact Hb|].
  destruct (browser_lifecycle sampleEnv sampleRun (pdfRequest inlinePdfBody)
              (0, inr tt) (30, inr tt) w1) as (_ & _ & _ & _ & _ & _ & Hdown).
  destruct (proj1 (Hdown Hb) inlinePdfRequest) as (w' & r & Ha & He & Hm & Hc & _).
  { vm_compute. reflexivity. }
  exists w', r. split; [exact Ha|]. split; [exact He|]. split; [exact Hm|].
  rewrite Hc. injection E as <-. reflexivity.
Defined.

(** ** The URL handed to the page *)

Lemma endsWithChar_snoc c s : Js.endsWithChar c (s +:+ String c "") = true.
Proof.
  induction s as [|a s IH]; [apply Ascii.eqb_refl|].
  change (String a s +:+ String c "") with (String a (s +:+ String c "")).
  destruct (s +:+ String c "") eqn:E; [by destruct s|]. exact IH.
Qed.

Lemma dropLast_snoc c s : Js.dropLast (s +:+ String c "") = s.
Proof.
  induction s as [|a s IH]; [done|].
  change (String a s +:+ String c "") with (String a (s +:+ String c "")).
  destruct (s +:+ String c "") as [|a0 s0] eqn:E; [by destruct s|].
  change (Js.dropLast (String a (String a0 s0)))
    with (String a (Js.dropLast (String a0 s0))).
  by rewrite IH.
Qed.

(** X5: the address given to the page is built from the configured base
    and the requested path by the platform's URL constructor, and is the
    same whether or not the path starts with a slash, whether or not the
    base ends with one, and whether the token is absent or empty; a
    non-empty token is added as the query parameter _renderToken.  Building
    it changes nothing in the world, and it fails exactly when the URL
    constructor does. *)
Theorem render_url_normalised env x path authToken w :
  (Js.startsWith "/" path = false ->
     buildRenderUrl env x ("/" +:+ path) authToken w = buildRenderUrl env x path authToken w) /\
  (forall env',
     Js.endsWithChar "/" (Env.REACT_APP_URL env) = false ->
     Env.REACT_APP_URL env' = Env.REACT_APP_URL env +:+ "/" ->
     buildRenderUrl env' x path authToken w = buildRenderUrl env x path authToken w) /\
  buildRenderUrl env x path (Some "") w = buildRenderUrl env x path None w /\
  (forall token u w0,
     authToken = Some token -> token <> "" ->
     buildRenderUrl env x path None w = Some (w0, Normal u) ->
     buildRenderUrl env x path authToken w
       = Some (w, Normal (Run.setSearchParam x u "_renderToken" token))) /\
  (exists c, buildRenderUrl env x path authToken w = Some (w, c)) /\
  (forall e,
     buildRenderUrl env x path authToken w = Some (w, Throw e) <->
     Run.newURL x (if Js.startsWith "/" path then path else "/" +:+ path)
       (if Js.endsWithChar "/" (Env.REACT_APP_URL env)
        then Js.dropLast (Env.REACT_APP_URL env) else Env.REACT_APP_URL env) = inl e).
Proof.
  unfold buildRenderUrl. split; [|split; [|split; [|split; [|split; [|intros e; split]]]]].
  - intros ->. done.
  - intros env' Hend ->. by rewrite (endsWithChar_snoc "/"), (dropLast_snoc "/"), Hend.
  - by destruct (Run.newURL _ _ _).
  - intros token u w0 -> Hne. destruct (Run.newURL _ _ _) as [e|u']; [done|].
    intros [= _ ->]. cbn. by rewrite (proj2 (String.eqb_neq _ _) Hne).
  - destruct (Run.newURL _ _ _); by eexists.
  - destruct (Run.newURL _ _ _); cbn; by intros [= ->].
  - by intros ->.
Qed.

Lemma render_url_normalised_witness :
  buildRenderUrl sampleEnv sampleRun "/report" None emptyWorld
    = buildRenderUrl sampleEnv sampleRun "report" None emptyWorld /\
  buildRenderUrl sampleEnv sampleRun "report" None emptyWorld
    = buildRenderUrl productionEnv sampleRun "report" None emptyWorld.
Proof.
  destruct (render_url_normalised sampleEnv sampleRun "report" None emptyWorld)
    as (Hslash & _).
  destruct (render_url_normalised productionEnv sampleRun "report" None emptyWorld)
    as (_ & Hbase & _).
  split; [exact (Hslash eq_refl)|].
  exact (Hbase sampleEnv eq_refl eq_refl).
Defined.

(** ** Uploads *)

Lemma trimSlashes_trimmed p :
  trimmed p ->
  Js.trimSlashes p = p /\ Js.trimSlashes ("/" +:+ p) = p /\
  Js.trimSlashes (p +:+ "/") = p /\ Js.trimSlashes ("/" +:+ p +:+ "/") = p.
Proof.
  intros (Hne & Hs & He). unfold Js.trimSlashes.
  change (Js.startsWith "/" ("/" +:+ p)) with true.
  change (Js.startsWith "/" ("/" +:+ p +:+ "/")) with true.
  change (Js.slice 1 ("/" +:+ p)) with p.
  change (Js.slice 1 ("/" +:+ p +:+ "/")) with (p +:+ "/").
  assert (Js.startsWith "/" (p +:+ "/") = false) as ->.
  { destruct p as [|a p]; [done|]. exact Hs. }
  rewrite Hs, He, (endsWithChar_snoc "/"), (dropLast_snoc "/"). done.
Qed.

Lemma append_nonempty_l (a b : string) : a <> "" -> String.eqb (a +:+ b) "" = false.
Proof. intros H. destruct a; [done|reflexivity]. Qed.

(** X6: with the storage client in place, [uploadFile] stores the bytes
    under the storage path (one slash at either end dropped) followed by
    the file name, or under the file name alone when no path is given, then
    asks for a signed URL of that same object.  An error reported by the
    upload is thrown as STORAGE_FAILED with its text and no URL is asked
    for; a signing that reports an error or no data is thrown as the fixed
    "STORAGE_FAILED: Failed to create signed URL".  On success the result
    names the object and the signed URL, and expires
    SIGNED_URL_EXPIRY_SECONDS after the signing returned. *)
Theorem upload_contract env x buffer filename contentType storagePath w client :
  World.supabase w = Some client ->
  exists path,
    (falsy storagePath = true -> path = filename) /\
    (forall p, trimmed p ->
       storagePath = Some p \/ storagePath = Some ("/" +:+ p) \/
       storagePath = Some (p +:+ "/") \/ storagePath = Some ("/" +:+ p +:+ "/") ->
       path = p +:+ "/" +:+ filename) /\
    let store := StorageUpload (Env.STORAGE_BUCKET env) path buffer contentType in
    let sign := StorageCreateSignedUrl (Env.STORAGE_BUCKET env) path
                  (Env.SIGNED_URL_EXPIRY_SECONDS env) in
    let s := Run.storage x in
    exists w' c,
      uploadFile env x buffer filename contentType storagePath w = Some (w', c) /\
      match (Storage.upload s).2 with
      | inl e =>
          c = Throw e /\ World.trace w' = World.trace w ++ [Called store]
      | inr (Some message) =>
          c = Throw (Error ("STORAGE_FAILED: " +:+ message)) /\
          World.trace w' = World.trace w ++ [Called store]
      | inr None =>
          World.trace w' = World.trace w ++ [Called store; Called sign] /\
          World.clock w' = World.clock w + (Storage.upload s).1 + (Storage.createSignedUrl s).1 /\
          match (Storage.createSignedUrl s).2 with
          | inl e => c = Throw e
          | inr (Some signedUrl, None) =>
              c = Normal (UploadResult.mk path signedUrl
                            (Run.toISOString x
                               (World.clock w' + Env.SIGNED_URL_EXPIRY_SECONDS env * 1000)))
          | inr _ => c = Throw (Error "STORAGE_FAILED: Failed to create signed URL")
          end
      end.
Proof.
  intros Hs.
  exists (let basePath :=
            match storagePath with
            | Some p => if String.eqb p "" then "" else Js.trimSlashes p
            | None => ""
            end in
          if String.eqb basePath "" then filename else basePath +:+ "/" +:+ filename).
  split; [|split].
  - destruct storagePath as [p|]; [|done]. cbn. by intros ->.
  - intros p Hp Hsp. destruct (trimSlashes_trimmed p Hp) as (H1 & H2 & H3 & H4).
    pose proof Hp as (Hne & _).
    assert (String.eqb p "" = false) as Hpe by (by apply String.eqb_neq).
    destruct Hsp as [->|[->|[->| ->]]]; cbn zeta.
    + by rewrite Hpe, H1, Hpe.
    + change (String.eqb ("/" +:+ p) "") with false. cbv iota. by rewrite H2, Hpe.
    + rewrite (append_nonempty_l p "/" Hne), H3, Hpe. done.
    + change (String.eqb ("/" +:+ p +:+ "/") "") with false. cbv iota. by rewrite H4, Hpe.
  - cbn zeta. unfold uploadFile, bind at 1, getClient. rewrite Hs.
    unfold bind at 1, call at 1, bind, emit, elapse. cbn.
    destruct (Storage.upload _).2 as [e|[message| ]]; cbn; [by eexists _, _..| ].
    unfold call, bind, emit, elapse, Date_now. cbn.
    destruct (Storage.createSignedUrl _).2 as [e|[[signedUrl| ] [err| ]]]; cbn;
      eexists _, _; (split; [reflexivity|]); cbn; by rewrite <- app_assoc.
Qed.

Lemma upload_contract_witness :
  exists path w' c,
    path = "org-123/invoices" +:+ "/" +:+ "report.pdf" /\
    uploadFile productionEnv sampleRun [x25]%byte "report.pdf" "application/pdf"
      (Some "/org-123/invoices/") storageWorld = Some (w', c) /\
    World.trace w' =
      [Called (StorageUpload "renders" path [x25]%byte "application/pdf");
       Called (StorageCreateSignedUrl "renders" path 3600)].
Proof.
  destruct (upload_contract productionEnv sampleRun [x25]%byte "report.pdf"
              "application/pdf" (Some "/org-123/invoices/") storageWorld _ eq_refl)
    as (path & _ & Hpath & w' & c & E & Ht & _).
  assert (trimmed "org-123/invoices") as Hp by (repeat split; discriminate).
  rewrite (Hpath "org-123/invoices" Hp (or_intror (or_intror (or_intror eq_refl)))) in *.
  eexists _, w', c. split; [reflexivity|]. split; [exact E|exact Ht].
Defined.

(** ** Storage failures, as answered *)

Lemma includes_after_marker p m :
  p = "READY_FLAG_TIMEOUT" \/ p = "NAVIGATION_TIMEOUT" \/ p = "Timeout" ->
  Js.includes p ("STORAGE_FAILED: " +:+ m) = Js.includes p m.
Proof. intros [->|[->| ->]]; reflexivity. Qed.

Lemma replace_marker m : Js.replace "STORAGE_FAILED: " "" ("STORAGE_FAILED: " +:+ m) = m.
Proof. reflexivity. Qed.

(** X7: an error reported by the upload reaches the client as 500
    STORAGE_FAILED with the storage service's own text, in every mode,
    unless that text happens to contain READY_FLAG_TIMEOUT,
    NAVIGATION_TIMEOUT or Timeout: the timeout tests come first, so such an
    upload error is answered 408 as a page timeout. *)
Theorem storage_error_classification env jobId message :
  let r := handleRenderError env (Error ("STORAGE_FAILED: " +:+ message)) jobId in
  (Js.includes "READY_FLAG_TIMEOUT" message = false ->
   Js.includes "NAVIGATION_TIMEOUT" message = false ->
   Js.includes "Timeout" message = false ->
     RenderErrorResponse.error r = STORAGE_FAILED /\
     RenderErrorResponse.message r = message /\
     getStatusCode (RenderErrorResponse.error r) = 500) /\
  (Js.includes "READY_FLAG_TIMEOUT" message = true ->
     RenderErrorResponse.error r = READY_FLAG_TIMEOUT /\
     getStatusCode (RenderErrorResponse.error r) = 408) /\
  (Js.includes "READY_FLAG_TIMEOUT" message = false ->
   Js.includes "NAVIGATION_TIMEOUT" message = true \/ Js.includes "Timeout" message = true ->
     RenderErrorResponse.error r = NAVIGATION_TIMEOUT /\
     RenderErrorResponse.message r = "Page navigation timed out" /\
     getStatusCode (RenderErrorResponse.error r) = 408).
Proof.
  cbn zeta. unfold handleRenderError.
  rewrite !includes_after_marker by auto.
  split; [|split].
  - intros -> -> ->. cbn [orb].
    change (Js.includes "STORAGE_FAILED" ("STORAGE_FAILED: " +:+ message)) with true.
    cbv iota. by rewrite replace_marker.
  - by intros ->.
  - intros -> [->| ->]; [done|]. by rewrite orb_true_r.
Qed.

Lemma storage_error_classification_witness :
  RenderErrorResponse.error
    (handleRenderError productionEnv
       (Error ("STORAGE_FAILED: " +:+ "Gateway Timeout")) "job-1") = NAVIGATION_TIMEOUT /\
  RenderErrorResponse.message
    (handleRenderError productionEnv
       (Error ("STORAGE_FAILED: " +:+ "Bucket not found")) "job-1") = "Bucket not found".
Proof.
  destruct (storage_error_classification productionEnv "job-1" "Gateway Timeout")
    as (_ & _ & Htimeout).
  destruct (storage_error_classification productionEnv "job-1" "Bucket not found")
    as (Hplain & _).
  split.
  - apply Htimeout; [reflexivity|right; reflexivity].
  - apply Hplain; reflexivity.
Defined.

(** ** The health report *)

Lemma omap_total_length {A B} (f : A -> option B) l :
  Forall (fun a => is_Some (f a)) l -> length (omap f l) = length l.
Proof.
  induction 1 as [|a l [b Hb] _ IH]; [done|]. cbn. rewrite Hb. cbn. by rewrite IH.
Qed.

(** X8: GET /health changes nothing and reports the number of registered
    jobs and the limit.  It answers 503 "degraded" exactly when the gate
    would turn a render request away, and 200 "healthy" otherwise (never
    "unhealthy").  The uptime is in whole seconds since the module was
    loaded.  In production no job is listed; otherwise every registered job
    is listed once, with its id, type, status and start time. *)
Theorem health_report env p w :
  exists code r,
    getHealth env p w = Some (w, Normal (code, r)) /\
    HealthResponse.active r = size (World.activeJobs w) /\
    HealthResponse.maxConcurrent r = Env.MAX_CONCURRENT_JOBS env /\
    (Z.of_nat (size (World.activeJobs w)) < Env.MAX_CONCURRENT_JOBS env ->
       code = 200 /\ HealthResponse.status r = healthy /\
       forall next, concurrencyLimit env next w = next w) /\
    (Env.MAX_CONCURRENT_JOBS env <= Z.of_nat (size (World.activeJobs w)) ->
       code = 503 /\ HealthResponse.status r = degraded /\
       forall next, exists e,
         concurrencyLimit env next w = Some (w, Normal (HttpResponse.mk 503 (ErrorBody e)))) /\
    1000 * HealthResponse.uptime r <= World.clock w - Process.startTime p
      < 1000 * (HealthResponse.uptime r + 1) /\
    (Env.NODE_ENV env = production -> HealthResponse.details r = None) /\
    (Env.NODE_ENV env <> production -> registry_ok w ->
       exists jobs,
         HealthResponse.details r = Some jobs /\
         length jobs = size (World.activeJobs w) /\
         forall jobId j, jobAt w jobId = Some j ->
           HealthJob.mk jobId (RenderJob.type j) (RenderJob.status j)
             (Process.toISOString p (RenderJob.startedAt j)) ∈ jobs).
Proof.
  set (entry := fun job : loc =>
         match World.heap w !! job with
         | Some j =>
             Some (HealthJob.mk (RenderJob.id j) (RenderJob.type j) (RenderJob.status j)
                     (Process.toISOString p (RenderJob.startedAt j)))
         | None => None
         end).
  assert (exists details,
    getHealth env p w =
      Some (w, Normal
        (match (if Z.of_nat (size (World.activeJobs w)) >=? Env.MAX_CONCURRENT_JOBS env
                then degraded else healthy) with healthy => 200 | _ => 503 end,
         HealthResponse.mk
           (if Z.of_nat (size (World.activeJobs w)) >=? Env.MAX_CONCURRENT_JOBS env
            then degraded else healthy)
           (Process.toISOString p (World.clock w))
           ((World.clock w - Process.startTime p) / 1000)
           (if falsy (Process.npm_package_version p) then "1.0.0"
            else default "" (Process.npm_package_version p))
           (Env.NODE_ENV env) (size (World.activeJobs w)) (Env.MAX_CONCURRENT_JOBS env)
           details)) /\
    details = match Env.NODE_ENV env with
              | production => None
              | _ => Some (omap entry (map_to_list (World.activeJobs w)).*2)
              end) as (details & E & Hdetails).
  { unfold getHealth, bind, getActiveJobCount, Date_now, jobDetails, bind, getActiveJobs.
    destruct (Env.NODE_ENV env); cbn; by eexists. }
  eexists _, _. split; [exact E|]. cbn.
  split; [done|]. split; [done|].
  split; [|split; [|split; [|split]]].
  - intros Hlt. unfold concurrencyLimit.
    destruct (Z.geb_spec (Z.of_nat (size (World.activeJobs w))) (Env.MAX_CONCURRENT_JOBS env));
      [lia|done].
  - intros Hge. unfold concurrencyLimit.
    destruct (Z.geb_spec (Z.of_nat (size (World.activeJobs w))) (Env.MAX_CONCURRENT_JOBS env));
      [|lia].
    split; [done|]. split; [done|]. intros next. by eexists.
  - pose proof (Z.div_mod (World.clock w - Process.startTime p) 1000 ltac:(lia)).
    pose proof (Z.mod_pos_bound (World.clock w - Process.startTime p) 1000 ltac:(lia)).
    lia.
  - intros Hprod. by rewrite Hdetails, Hprod.
  - intros Hdev Hok. exists (omap entry (map_to_list (World.activeJobs w)).*2).
    split; [rewrite Hdetails; by destruct (Env.NODE_ENV env)|]. split.
    + rewrite omap_total_length, length_fmap, length_map_to_list; [done|].
      apply Forall_forall. intros l Hl.
      apply list_elem_of_fmap in Hl as ([k l'] & -> & Hkl).
      apply elem_of_map_to_list in Hkl. destruct (Hok k l' Hkl) as (j & Hj & _).
      unfold entry. cbn. rewrite Hj. by eexists.
    + intros jobId j. unfold jobAt.
      destruct (World.activeJobs w !! jobId) as [l|] eqn:Hl; [|done]. intros Hj.
      destruct (Hok jobId l Hl) as (j' & Hj' & Hid).
      assert (j' = j) as -> by congruence.
      apply list_elem_of_omap. exists l. split.
      * apply list_elem_of_fmap. exists (jobId, l). split; [done|].
        by apply elem_of_map_to_list.
      * unfold entry. by rewrite Hj, Hid.
Qed.

Lemma health_report_witness :
  exists code r,
    getHealth lateEnv (Process.mk 0 None (Run.toISOString sampleRun)) busyWorld
      = Some (busyWorld, Normal (code, r)) /\
    code = 503 /\ HealthResponse.status r = degraded.
Proof.
  destruct (health_report lateEnv (Process.mk 0 None (Run.toISOString sampleRun)) busyWorld)
    as (code & r & E & _ & _ & _ & Hfull & _).
  exists code, r. split; [exact E|].
  destruct Hfull as (Hc & Hs & _); [vm_compute; discriminate|].
  by split.
Defined.

(** ** Successful answers *)

Lemma orchestrate_success {R} env x (o : Orchestration.t R) req w w' s r :
  orchestrate env x o req w = Some (w', Normal (HttpResponse.mk s (SuccessBody r))) ->
  s = 200 /\
  exists request w3 buffer,
    Zod.parse (Orchestration.schema o) (Request.body req) = inr request /\
    Orchestration.engine o request (renderStart x o req w request)
      = Some (w3, Normal buffer) /\
    RenderSuccessResponse.jobId r = Run.uuid x /\
    RenderSuccessResponse.fileSize r = length buffer /\
    RenderSuccessResponse.filename r = fileNameAt x o request w3 /\
    (Orchestration.uploadToStorage o request = false ->
       r = inlineResponse x o w request w3 buffer).
Proof.
  intros E. pose proof (orchestrate_outcome env x o req w) as H. rewrite E in H.
  inversion H as
    [ errors Hp
    | request Hp He
    | request w3 e Hp He
    | request w3 buffer Hp He Hu
    | request w3 buffer w5 e Hp He Hu Hup
    | request w3 buffer w5 u Hp He Hu Hup ]; subst.
  - split; [done|]. exists request, w3, buffer. by repeat split.
  - split; [done|]. exists request, w3, buffer. repeat split; try done.
    intros Hu'. congruence.
Qed.

Lemma dashed_no_colon s : Js.includes ":" (Js.dashColonsDots s) = false.
Proof.
  induction s as [|c s IH]; [done|].
  cbn [Js.dashColonsDots]. rewrite includes_cons, IH, orb_false_r.
  cbn [Js.startsWith].
  destruct (Ascii.eqb_spec c ":") as [->|Hc]; [done|].
  destruct (Ascii.eqb_spec c ".") as [->|Hd]; [done|]. cbn [orb].
  destruct (Ascii.eqb_spec ":" c) as [<-|]; done.
Qed.

Lemma dashed_no_dot s : Js.includes "." (Js.dashColonsDots s) = false.
Proof.
  induction s as [|c s IH]; [done|].
  cbn [Js.dashColonsDots]. rewrite includes_cons, IH, orb_false_r.
  cbn [Js.startsWith].
  destruct (Ascii.eqb_spec c ":") as [->|Hc]; [done|].
  destruct (Ascii.eqb_spec c ".") as [->|Hd]; [done|]. cbn [orb].
  destruct (Ascii.eqb_spec "." c) as [<-|]; done.
Qed.

(** X9: a 200 answer of either handler carries the job id of the request,
    the number of bytes the engine returned as [fileSize], and a file name
    that is the requested one followed by the extension (pdf, or the
    requested image format) or, when none (or an empty one) was requested,
    "render-", the time of the end of the render with every colon and dot
    replaced by a dash, and the extension. *)
Theorem answered_file_name env x req w w' s r :
  (postPdf env x req w = Some (w', Normal (HttpResponse.mk s (SuccessBody r))) ->
     s = 200 /\
     RenderSuccessResponse.jobId r = Run.uuid x /\
     exists request w3 buffer,
       Zod.parse PdfRenderRequestSchema (Request.body req) = inr request /\
       renderPdf env x request (renderStart x (pdfOrchestration env x) req w request)
         = Some (w3, Normal buffer) /\
       RenderSuccessResponse.fileSize r = length buffer /\
       (forall name, PdfRenderRequest.filename request = Some name -> name <> "" ->
          RenderSuccessResponse.filename r = name +:+ ".pdf") /\
       (falsy (PdfRenderRequest.filename request) = true ->
          exists stamp,
            RenderSuccessResponse.filename r = "render-" +:+ stamp +:+ ".pdf" /\
            stamp = Js.dashColonsDots (Run.toISOString x (World.clock w3)) /\
            Js.includes ":" stamp = false /\ Js.includes "." stamp = false)) /\
  (postImage env x req w = Some (w', Normal (HttpResponse.mk s (SuccessBody r))) ->
     s = 200 /\
     RenderSuccessResponse.jobId r = Run.uuid x /\
     exists request w3 buffer,
       Zod.parse ImageRenderRequestSchema (Request.body req) = inr request /\
       renderImage env x request (renderStart x (imageOrchestration env x) req w request)
         = Some (w3, Normal buffer) /\
       RenderSuccessResponse.fileSize r = length buffer /\
       (forall name, ImageRenderRequest.filename request = Some name -> name <> "" ->
          RenderSuccessResponse.filename r
            = name +:+ "." +:+ ImageFormat_text (ImageRenderRequest.format request)) /\
       (falsy (ImageRenderRequest.filename request) = true ->
          exists stamp,
            RenderSuccessResponse.filename r
              = "render-" +:+ stamp +:+ "."
                  +:+ ImageFormat_text (ImageRenderRequest.format request) /\
            stamp = Js.dashColonsDots (Run.toISOString x (World.clock w3)) /\
            Js.includes ":" stamp = false /\ Js.includes "." stamp = false)).
Proof.
  split.
  - rewrite postPdf_orchestrate. intros E.
    apply orchestrate_success in E
      as (-> & request & w3 & buffer & Hp & He & Hid & Hsize & Hname & _).
    split; [done|]. split; [done|]. exists request, w3, buffer.
    split; [done|]. split; [done|]. split; [done|].
    rewrite Hname. unfold fileNameAt. cbn. split.
    + intros name -> Hne. cbn. by rewrite (proj2 (String.eqb_neq _ _) Hne).
    + intros ->. eexists. split; [reflexivity|]. split; [reflexivity|].
      split; [apply dashed_no_colon|apply dashed_no_dot].
  - rewrite postImage_orchestrate. intros E.
    apply orchestrate_success in E
      as (-> & request & w3 & buffer & Hp & He & Hid & Hsize & Hname & _).
    split; [done|]. split; [done|]. exists request, w3, buffer.
    split; [done|]. split; [done|]. split; [done|].
    rewrite Hname. unfold fileNameAt. cbn. split.
    + intros name -> Hne. cbn. by rewrite (proj2 (String.eqb_neq _ _) Hne).
    + intros ->. eexists. split; [reflexivity|]. split; [reflexivity|].
      split; [apply dashed_no_colon|apply dashed_no_dot].
Qed.

Lemma answered_file_name_witness :
  exists w' r,
    postPdf sampleEnv sampleRun (pdfRequest inlinePdfBody) emptyWorld
      = Some (w', Normal (HttpResponse.mk 200 (SuccessBody r))) /\
    RenderSuccessResponse.jobId r = "job-1" /\
    RenderSuccessResponse.filename r = "render-2026-02-02T10-30-00-000Z.pdf".
Proof.
  assert (exists w' r,
    postPdf sampleEnv sampleRun (pdfRequest inlinePdfBody) emptyWorld
      = Some (w', Normal (HttpResponse.mk 200 (SuccessBody r)))) as (w' & r & E).
  { eexists _, _. vm_compute. reflexivity. }
  exists w', r. split; [exact E|].
  destruct (proj1 (answered_file_name sampleEnv sampleRun (pdfRequest inlinePdfBody)
                     emptyWorld w' 200 r) E)
    as (_ & Hid & request & w3 & buffer & Hp & _ & _ & _ & Hstamp).
  split; [exact Hid|].
  assert (request = inlinePdfRequest) as ->.
  { assert (Zod.parse PdfRenderRequestSchema (Request.body (pdfRequest inlinePdfBody))
              = inr inlinePdfRequest) as Hp' by (vm_compute; reflexivity).
    congruence. }
  destruct (Hstamp eq_refl) as (stamp & -> & -> & _). reflexivity.
Defined.

(** ** Images returned inline *)

Lemma readDataUrl_image format bs :
  readDataUrl ("data:" +:+ match format with
                           | jpeg => "image/jpeg"
                           | webp => "image/webp"
                           | png => "image/png"
                           end +:+ ";base64," +:+ Base64.encode bs)
    = Some ("image/" +:+ ImageFormat_text format, bs).
Proof.
  unfold readDataUrl. destruct format.
  - change (Js.startsWith "data:" ("data:" +:+ "image/png" +:+ ";base64," +:+ Base64.encode bs))
      with true.
    change (splitAtBase64Mark
              (Js.slice 5 ("data:" +:+ "image/png" +:+ ";base64," +:+ Base64.encode bs)))
      with (Some ("image/png", Base64.encode bs)).
    cbv iota beta. by rewrite decode_encode.
  - change (Js.startsWith "data:" ("data:" +:+ "image/jpeg" +:+ ";base64," +:+ Base64.encode bs))
      with true.
    change (splitAtBase64Mark
              (Js.slice 5 ("data:" +:+ "image/jpeg" +:+ ";base64," +:+ Base64.encode bs)))
      with (Some ("image/jpeg", Base64.encode bs)).
    cbv iota beta. by rewrite decode_encode.
  - change (Js.startsWith "data:" ("data:" +:+ "image/webp" +:+ ";base64," +:+ Base64.encode bs))
      with true.
    change (splitAtBase64Mark
              (Js.slice 5 ("data:" +:+ "image/webp" +:+ ";base64," +:+ Base64.encode bs)))
      with (Some ("image/webp", Base64.encode bs)).
    cbv iota beta. by rewrite decode_encode.
Qed.

(** X10: when an image request that does not ask for an upload renders,
    the handler answers 200 with a [dataUrl] and no [url]; read back, the
    data URL declares image/png, image/jpeg or image/webp as requested and
    its payload decodes to the bytes of the screenshot, whose number is
    [fileSize].  The screenshot itself was asked for as JPEG with the
    requested quality for a jpeg request, and as PNG without a quality for a
    png and for a webp request alike: a webp answer carries PNG bytes. *)
Theorem image_data_url_round_trip env x req w request w3 buffer :
  Zod.parse ImageRenderRequestSchema (Request.body req) = inr request ->
  ImageRenderRequest.uploadToStorage request = false ->
  renderImage env x request (renderStart x (imageOrchestration env x) req w request)
    = Some (w3, Normal buffer) ->
  (Browser.capture (Run.browser x)).2 = inr buffer /\
  Called (match ImageRenderRequest.format request with
          | jpeg => PageScreenshot true (Some (ImageRenderRequest.quality request))
          | png | webp => PageScreenshot false None
          end) ∈ World.trace w3 /\
  exists w' r u,
    postImage env x req w = Some (w', Normal (HttpResponse.mk 200 (SuccessBody r))) /\
    RenderSuccessResponse.dataUrl r = Some u /\
    RenderSuccessResponse.url r = None /\
    readDataUrl u = Some ("image/" +:+ ImageFormat_text (ImageRenderRequest.format request),
                          buffer) /\
    RenderSuccessResponse.fileSize r = length buffer /\
    Metadata.format (RenderSuccessResponse.metadata r)
      = imageOutput (ImageRenderRequest.format request).
Proof.
  intros Hp Hu He.
  destruct (renderImage_call_order _ _ _ _ _ _ He) as (url & steps & Ht & _ & _ & Hall).
  destruct (Hall buffer eq_refl) as (Hcalls & _ & Hc & _).
  split; [exact Hc|]. split.
  - rewrite Ht, Hcalls. apply elem_of_app. right.
    apply list_elem_of_fmap. eexists. split; [reflexivity|].
    unfold pageSteps, imageCapture.
    do 7 apply list_elem_of_further.
    destruct (ImageRenderRequest.format request); apply list_elem_of_here.
  - rewrite postImage_orchestrate.
    rewrite (orchestrate_inline env x (imageOrchestration env x) req w request w3 buffer
               Hp He Hu).
    eexists _, _, _. split; [reflexivity|]. split; [reflexivity|]. split; [reflexivity|].
    split; [apply readDataUrl_image|]. split; reflexivity.
Qed.

Lemma image_data_url_round_trip_witness :
  exists request w3 w' r u,
    Zod.parse ImageRenderRequestSchema (Some webpBody) = inr request /\
    ImageRenderRequest.format request = webp /\
    Called (PageScreenshot false None) ∈ World.trace w3 /\
    postImage sampleEnv sampleRun (Request.mk (Some "secret") None PostImage (Some webpBody))
      emptyWorld = Some (w', Normal (HttpResponse.mk 200 (SuccessBody r))) /\
    RenderSuccessResponse.dataUrl r = Some u /\
    readDataUrl u = Some ("image/webp", [x25; x50; x44; x46]%byte).
Proof.
  set (req := Request.mk (Some "secret") None PostImage (Some webpBody)).
  assert (exists request,
    Zod.parse ImageRenderRequestSchema (Request.body req) = inr request /\
    ImageRenderRequest.format request = webp /\
    ImageRenderRequest.uploadToStorage request = false /\
    renderImage sampleEnv sampleRun request
      (renderStart sampleRun (imageOrchestration sampleEnv sampleRun) req emptyWorld request)
      = Some (exec (renderImage sampleEnv sampleRun request)
                (renderStart sampleRun (imageOrchestration sampleEnv sampleRun) req
                   emptyWorld request),
              Normal [x25; x50; x44; x46]%byte))
    as (request & Hp & Hf & Hu & He).
  { eexists. split; [vm_compute; reflexivity|]. split; [reflexivity|].
    split; [reflexivity|]. vm_compute. reflexivity. }
  destruct (image_data_url_round_trip sampleEnv sampleRun req emptyWorld request _ _ Hp Hu He)
    as (_ & Hshot & w' & r & u & Ha & Hd & _ & Hread & _).
  rewrite Hf in Hshot, Hread.
  eexists request, _, w', r, u. split; [exact Hp|]. split; [exact Hf|].
  split; [exact Hshot|]. split; [exact Ha|]. split; [exact Hd|exact Hread].
Defined.

(** ** What a validated request holds *)

Lemma ap_inv {A B} (f : Zod.Parsed (A -> B)) (a : Zod.Parsed A) r :
  Zod.value (f <*> a) = Some r -> Zod.issues (f <*> a) = [] ->
  exists g v, Zod.value f = Some g /\ Zod.issues f = [] /\
              Zod.value a = Some v /\ Zod.issues a = [] /\ r = g v.
Proof.
  cbn. intros Hv Hi. apply app_eq_nil in Hi as [Hf Ha].
  destruct (Zod.value f) as [g|]; [|done]. destruct (Zod.value a) as [v|]; [|done].
  injection Hv as <-. by exists g, v.
Qed.

Lemma map_inv {A B} (g : A -> B) (a : Zod.Parsed A) r :
  Zod.value (g <$$> a) = Some r -> Zod.issues (g <$$> a) = [] ->
  exists v, Zod.value a = Some v /\ Zod.issues a = [] /\ r = g v.
Proof.
  cbn. intros Hv Hi. destruct (Zod.value a) as [v|]; [|done].
  injection Hv as <-. by exists v.
Qed.

Lemma parse_inv {A} (t : Zod.ZodType A) data a :
  Zod.parse t data = inr a -> Zod.value (t [] data) = Some a /\ Zod.issues (t [] data) = [].
Proof.
  unfold Zod.parse. destruct (Zod.issues _); [|done].
  destruct (Zod.value _); [|done]. by intros [= ->].
Qed.

Lemma check_inv {A} ok c (t : Zod.ZodType A) p v a :
  Zod.value (Zod.check ok c t p v) = Some a -> Zod.issues (Zod.check ok c t p v) = [] ->
  Zod.value (t p v) = Some a /\ Zod.issues (t p v) = [] /\ ok a = true.
Proof.
  unfold Zod.check. destruct (Zod.value (t p v)) as [a'|] eqn:Ha; [|by rewrite Ha].
  destruct (ok a') eqn:Hok.
  - rewrite Ha. by intros [= ->].
  - cbn. intros _ Hi. by apply app_eq_nil in Hi as [_ ?].
Qed.

Lemma held_url p v s :
  Zod.value (Zod.minLength 1 Zod.string_ p v) = Some s ->
  Zod.issues (Zod.minLength 1 Zod.string_ p v) = [] ->
  v = Some (JStr s) /\ s <> "".
Proof.
  intros Hv Hi. apply check_inv in Hv as (Hv & _ & Hok); [|done].
  destruct v as [[]|]; try done. injection Hv as ->. split; [done|].
  by destruct s.
Qed.

Lemma held_optional_string p v o :
  Zod.value (Zod.optional Zod.string_ p v) = Some o ->
  Zod.issues (Zod.optional Zod.string_ p v) = [] ->
  JStr <$> o = v.
Proof. destruct v as [[]|]; cbn; try done; by intros [= <-]. Qed.

Lemma held_default_string d p v s :
  Zod.value (Zod.default (JStr d) Zod.string_ p v) = Some s ->
  Zod.issues (Zod.default (JStr d) Zod.string_ p v) = [] ->
  JStr s = default (JStr d) v.
Proof. destruct v as [[]|]; cbn; try done; by intros [= <-]. Qed.

Lemma held_default_boolean d p v b :
  Zod.value (Zod.default (JBool d) Zod.boolean p v) = Some b ->
  Zod.issues (Zod.default (JBool d) Zod.boolean p v) = [] ->
  JBool b = default (JBool d) v.
Proof. destruct v as [[]|]; cbn; try done; by intros [= <-]. Qed.

Lemma held_default_enum {A} (options : list (string * A)) d p v a :
  Zod.value (Zod.default (JStr d) (Zod.enum options) p v) = Some a ->
  Zod.issues (Zod.default (JStr d) (Zod.enum options) p v) = [] ->
  exists s, JStr s = default (JStr d) v /\ (s, a) ∈ options.
Proof.
  destruct v as [[]|]; cbn; try done.
  - destruct (Zod.lookupOption _ _) as [a'|] eqn:E; [|done]. cbn. intros [= <-] _.
    eexists. split; [done|]. by apply lookupOption_elem.
  - destruct (Zod.lookupOption _ _) as [a'|] eqn:E; [|done]. cbn. intros [= <-] _.
    eexists. split; [done|]. by apply lookupOption_elem.
Qed.

Lemma held_default_number d a b p v q :
  Zod.value (Zod.default (JNum d) (Zod.max b (Zod.min a Zod.number)) p v) = Some q ->
  Zod.issues (Zod.default (JNum d) (Zod.max b (Zod.min a Zod.number)) p v) = [] ->
  JNum q = default (JNum d) v /\ (a <= q <= b)%Q.
Proof.
  intros Hv Hi.
  assert (forall v', Zod.value (Zod.max b (Zod.min a Zod.number) p v') = Some q ->
            Zod.issues (Zod.max b (Zod.min a Zod.number) p v') = [] ->
            v' = Some (JNum q) /\ (a <= q <= b)%Q) as Hrange.
  { intros v' Hv' Hi'.
    apply check_inv in Hv' as (Hv' & Hi'' & Hmax); [|done].
    apply check_inv in Hv' as (Hv' & _ & Hmin); [|done].
    destruct v' as [[]|]; try done. injection Hv' as ->.
    split; [done|]. split; by apply Qle_bool_iff. }
  destruct v as [j|]; cbn in Hv, Hi; apply Hrange in Hv as [Hj Hq]; try done.
  - split; [|done]. by injection Hj as ->.
  - split; [|done]. by injection Hj as ->.
Qed.

Lemma held_margins p v m :
  Zod.value (Zod.default (JObj []) MarginsSchema p v) = Some m ->
  Zod.issues (Zod.default (JObj []) MarginsSchema p v) = [] ->
  exists sides,
    JObj sides = default (JObj []) v /\
    JStr (Margins.top m) = default (JStr "20mm") (assoc "top" sides) /\
    JStr (Margins.bottom m) = default (JStr "20mm") (assoc "bottom" sides) /\
    JStr (Margins.left m) = default (JStr "15mm") (assoc "left" sides) /\
    JStr (Margins.right m) = default (JStr "15mm") (assoc "right" sides).
Proof.
  assert (forall v', Zod.value (MarginsSchema p v') = Some m ->
            Zod.issues (MarginsSchema p v') = [] ->
            exists sides, v' = Some (JObj sides) /\
              JStr (Margins.top m) = default (JStr "20mm") (assoc "top" sides) /\
              JStr (Margins.bottom m) = default (JStr "20mm") (assoc "bottom" sides) /\
              JStr (Margins.left m) = default (JStr "15mm") (assoc "left" sides) /\
              JStr (Margins.right m) = default (JStr "15mm") (assoc "right" sides)) as Hobj.
  { intros v'. unfold MarginsSchema, Zod.object.
    destruct v' as [[| | | | |sides]|]; try done. intros Hv Hi.
    apply ap_inv in Hv as (g3 & right & Hv & Hi3 & Hright & Hiright & ->); [|done].
    apply ap_inv in Hv as (g2 & left & Hv & Hi2 & Hleft & Hileft & ->); [|done].
    apply ap_inv in Hv as (g1 & bottom & Hv & Hi1 & Hbottom & Hibottom & ->); [|done].
    apply map_inv in Hv as (top & Htop & Hitop & ->); [|done].
    exists sides. split; [done|]. cbn.
    split; [by eapply held_default_string|]. split; [by eapply held_default_string|].
    split; by eapply held_default_string. }
  intros Hv Hi. destruct v as [j|]; unfold Zod.default in Hv, Hi.
  - destruct (Hobj _ Hv Hi) as (sides & [= ->] & H). by exists sides.
  - destruct (Hobj _ Hv Hi) as (sides & [= <-] & H). by exists [].
Qed.

Lemma image_held body request :
  Zod.parse ImageRenderRequestSchema body = inr request ->
  exists props,
    body = Some (JObj props) /\
    (assoc "url" props = Some (JStr (ImageRenderRequest.url request)) /\
     ImageRenderRequest.url request <> "") /\
    JStr <$> ImageRenderRequest.authToken request = assoc "authToken" props /\
    JStr (ImageFormat_text (ImageRenderRequest.format request))
      = default (JStr "png") (assoc "format" props) /\
    (JNum (ImageRenderRequest.quality request) = default (JNum 90) (assoc "quality" props) /\
     (1 <= ImageRenderRequest.quality request <= 100)%Q) /\
    (JNum (ImageRenderRequest.width request) = default (JNum 1080) (assoc "width" props) /\
     (1 <= ImageRenderRequest.width request <= 4096)%Q) /\
    (JNum (ImageRenderRequest.height request) = default (JNum 1080) (assoc "height" props) /\
     (1 <= ImageRenderRequest.height request <= 4096)%Q) /\
    (JNum (ImageRenderRequest.scale request) = default (JNum 1) (assoc "scale" props) /\
     (1 <= ImageRenderRequest.scale request <= 3)%Q) /\
    JStr <$> ImageRenderRequest.filename request = assoc "filename" props /\
    JBool (ImageRenderRequest.uploadToStorage request)
      = default (JBool true) (assoc "uploadToStorage" props) /\
    JStr <$> ImageRenderRequest.storagePath request = assoc "storagePath" props.
Proof.
  intros Hp. apply parse_inv in Hp as [Hv Hi].
  unfold ImageRenderRequestSchema, Zod.object in Hv, Hi.
  destruct body as [[| | | | |props]|]; try done.
  apply ap_inv in Hv as (g9 & storagePath & Hv & Hi9 & H10 & Hi10 & ->); [|done].
  apply ap_inv in Hv as (g8 & upload & Hv & Hi8 & H9 & Hi9' & ->); [|done].
  apply ap_inv in Hv as (g7 & filename & Hv & Hi7 & H8 & Hi8' & ->); [|done].
  apply ap_inv in Hv as (g6 & scale & Hv & Hi6 & H7 & Hi7' & ->); [|done].
  apply ap_inv in Hv as (g5 & height & Hv & Hi5 & H6 & Hi6' & ->); [|done].
  apply ap_inv in Hv as (g4 & width & Hv & Hi4 & H5 & Hi5' & ->); [|done].
  apply ap_inv in Hv as (g3 & quality & Hv & Hi3 & H4 & Hi4' & ->); [|done].
  apply ap_inv in Hv as (g2 & format & Hv & Hi2 & H3 & Hi3' & ->); [|done].
  apply ap_inv in Hv as (g1 & authToken & Hv & Hi1 & H2 & Hi2' & ->); [|done].
  apply map_inv in Hv as (url & H1 & Hi1' & ->); [|done].
  exists props. split; [done|]. cbn.
  split; [by eapply held_url|].
  split; [by eapply held_optional_string|].
  split.
  { destruct (held_default_enum _ _ _ _ _ H3 Hi3') as (s & Hs & Hin).
    cbn [snd] in Hs. rewrite <- Hs. f_equal.
    repeat (apply elem_of_cons in Hin as [[= -> ->]|Hin]; [done|]).
    by apply elem_of_nil in Hin. }
  split; [by eapply held_default_number|].
  split; [by eapply held_default_number|].
  split; [by eapply held_default_number|].
  split; [by eapply held_default_number|].
  split; [by eapply held_optional_string|].
  split; [by eapply held_default_boolean|by eapply held_optional_string].
Qed.

Lemma pdf_held body request :
  Zod.parse PdfRenderRequestSchema body = inr request ->
  exists props sides,
    body = Some (JObj props) /\
    (assoc "url" props = Some (JStr (PdfRenderRequest.url request)) /\
     PdfRenderRequest.url request <> "") /\
    JStr <$> PdfRenderRequest.authToken request = assoc "authToken" props /\
    JStr (PaperSize_text (PdfRenderRequest.paperSize request))
      = default (JStr "A4") (assoc "paperSize" props) /\
    JStr (Orientation_text (PdfRenderRequest.orientation request))
      = default (JStr "portrait") (assoc "orientation" props) /\
    JBool (PdfRenderRequest.printBackground request)
      = default (JBool true) (assoc "printBackground" props) /\
    (JObj sides = default (JObj []) (assoc "margins" props) /\
     JStr (Margins.top (PdfRenderRequest.margins request))
       = default (JStr "20mm") (assoc "top" sides) /\
     JStr (Margins.bottom (PdfRenderRequest.margins request))
       = default (JStr "20mm") (assoc "bottom" sides) /\
     JStr (Margins.left (PdfRenderRequest.margins request))
       = default (JStr "15mm") (assoc "left" sides) /\
     JStr (Margins.right (PdfRenderRequest.margins request))
       = default (JStr "15mm") (assoc "right" sides)) /\
    JStr <$> PdfRenderRequest.filename request = assoc "filename" props /\
    JBool (PdfRenderRequest.uploadToStorage request)
      = default (JBool true) (assoc "uploadToStorage" props) /\
    JStr <$> PdfRenderRequest.storagePath request = assoc "storagePath" props.
Proof.
  intros Hp. apply parse_inv in Hp as [Hv Hi].
  unfold PdfRenderRequestSchema, Zod.object in Hv, Hi.
  destruct body as [[| | | | |props]|]; try done.
  apply ap_inv in Hv as (g8 & storagePath & Hv & Hi8 & H9 & Hi9 & ->); [|done].
  apply ap_inv in Hv as (g7 & upload & Hv & Hi7 & H8 & Hi8' & ->); [|done].
  apply ap_inv in Hv as (g6 & filename & Hv & Hi6 & H7 & Hi7' & ->); [|done].
  apply ap_inv in Hv as (g5 & margins & Hv & Hi5 & H6 & Hi6' & ->); [|done].
  apply ap_inv in Hv as (g4 & background & Hv & Hi4 & H5 & Hi5' & ->); [|done].
  apply ap_inv in Hv as (g3 & orientation & Hv & Hi3 & H4 & Hi4' & ->); [|done].
  apply ap_inv in Hv as (g2 & paperSize & Hv & Hi2 & H3 & Hi3' & ->); [|done].
  apply ap_inv in Hv as (g1 & authToken & Hv & Hi1 & H2 & Hi2' & ->); [|done].
  apply map_inv in Hv as (url & H1 & Hi1' & ->); [|done].
  destruct (held_margins _ _ _ H6 Hi6') as (sides & Hsides).
  exists props, sides. split; [done|]. cbn.
  split; [by eapply held_url|].
  split; [by eapply held_optional_string|].
  split.
  { destruct (held_default_enum _ _ _ _ _ H3 Hi3') as (s & Hs & Hin).
    cbn [snd] in Hs. rewrite <- Hs. f_equal.
    repeat (apply elem_of_cons in Hin as [[= -> ->]|Hin]; [done|]).
    by apply elem_of_nil in Hin. }
  split.
  { destruct (held_default_enum _ _ _ _ _ H4 Hi4') as (s & Hs & Hin).
    cbn [snd] in Hs. rewrite <- Hs. f_equal.
    repeat (apply elem_of_cons in Hin as [[= -> ->]|Hin]; [done|]).
    by apply elem_of_nil in Hin. }
  split; [by eapply held_default_boolean|].
  split; [exact Hsides|].
  split; [by eapply held_optional_string|].
  split; [by eapply held_default_boolean|by eapply held_optional_string].
Qed.

(** ** The calls of a request *)

Lemma uploadFile_calls env x buffer filename contentType storagePath w w5 c :
  uploadFile env x buffer filename contentType storagePath w = Some (w5, c) ->
  exists up,
    World.trace w5 = World.trace w ++ (Called <$> up) /\
    Forall (fun call => isStorageCall call = true) up /\
    forall u, c = Normal u ->
      up = [StorageUpload (Env.STORAGE_BUCKET env) (UploadResult.path u) buffer contentType;
            StorageCreateSignedUrl (Env.STORAGE_BUCKET env) (UploadResult.path u)
              (Env.SIGNED_URL_EXPIRY_SECONDS env)].
Proof.
  unfold uploadFile, bind at 1, getClient.
  destruct (World.supabase w).
  2:{ intros [= <- <-]. exists []. rewrite app_nil_r. by repeat split. }
  unfold bind at 1, call at 1, bind, emit, elapse. cbn.
  destruct (Storage.upload _).2 as [e|[message| ]]; cbn.
  1,2: intros [= <- <-]; eexists [_]; split; [done|]; split; [by repeat constructor|done].
  unfold call, bind, emit, elapse, Date_now. cbn.
  destruct (Storage.createSignedUrl _).2 as [e|[[signedUrl| ] [err| ]]]; cbn;
    intros [= <- <-]; eexists [_; _]; cbn; rewrite <- app_assoc;
    (split; [done|]); (split; [by repeat constructor|]); try done.
  by intros u [= <-].
Qed.

Lemma calls_uploadStart x w3 :
  calls (World.trace (uploadStart x w3)) = calls (World.trace w3).
Proof.
  unfold uploadStart. rewrite updateJobStatus_trace, calls_app, resume_trace.
  destruct (_ !! _); cbn; by rewrite app_nil_r.
Qed.

(** The calls of a request are those of its engine, then those of its
    upload. *)
Lemma orchestrate_calls {R} env x (o : Orchestration.t R) req w w' c :
  orchestrate env x o req w = Some (w', c) ->
  (exists errors,
     Zod.parse (Orchestration.schema o) (Request.body req) = inl errors /\
     calls (World.trace w') = calls (World.trace w)) \/
  (exists request w3 c3 up,
     Zod.parse (Orchestration.schema o) (Request.body req) = inr request /\
     Orchestration.engine o request (renderStart x o req w request) = Some (w3, c3) /\
     calls (World.trace w') = calls (World.trace w3) ++ up /\
     Forall (fun call => isStorageCall call = true) up /\
     (up <> [] ->
        exists buffer, c3 = Normal buffer /\ Orchestration.uploadToStorage o request = true) /\
     (forall r, c = Normal (HttpResponse.mk 200 (SuccessBody r)) ->
        exists buffer, c3 = Normal buffer /\
        (Orchestration.uploadToStorage o request = true ->
           exists path,
             up = [StorageUpload (Env.STORAGE_BUCKET env) path buffer
                     (Orchestration.contentType o request);
                   StorageCreateSignedUrl (Env.STORAGE_BUCKET env) path
                     (Env.SIGNED_URL_EXPIRY_SECONDS env)]))).
Proof.
  intros E. pose proof (orchestrate_outcome env x o req w) as H. rewrite E in H.
  inversion H as
    [ errors Hp
    | request Hp He
    | request w3 e Hp He
    | request w3 buffer Hp He Hu
    | request w3 buffer w5 e Hp He Hu Hup
    | request w3 buffer w5 u Hp He Hu Hup ]; subst.
  - left. exists errors. split; [done|].
    rewrite calls_settle, created_trace, calls_app. cbn. by rewrite app_nil_r.
  - right. exists request, w3, (Throw e), []. split; [done|]. split; [done|].
    rewrite calls_settle, resume_trace, app_nil_r. by repeat split.
  - right. exists request, w3, (Normal buffer), []. split; [done|]. split; [done|].
    rewrite calls_settle, resume_trace, app_nil_r.
    split; [done|]. split; [done|]. split; [done|].
    intros r _. exists buffer. split; [done|]. congruence.
  - right. apply uploadFile_calls in Hup as (up & Ht & Hst & _).
    exists request, w3, (Normal buffer), up. split; [done|]. split; [done|].
    rewrite calls_settle, resume_trace, Ht, calls_app, calls_Called, calls_uploadStart.
    split; [done|]. split; [done|]. split; [by eexists|]. intros r Hr. discriminate Hr.
  - right. apply uploadFile_calls in Hup as (up & Ht & Hst & Hup).
    exists request, w3, (Normal buffer), up. split; [done|]. split; [done|].
    rewrite calls_settle, resume_trace, Ht, calls_app, calls_Called, calls_uploadStart.
    split; [done|]. split; [done|]. split; [by eexists|].
    intros r _. exists buffer. split; [done|]. intros _. eexists. by apply Hup.
Qed.

Lemma no_context_among_storage_calls up a b s :
  Forall (fun call => isStorageCall call = true) up -> BrowserNewContext a b s ∈ up -> False.
Proof.
  intros Hst Hin. rewrite Forall_forall in Hst. by apply Hst in Hin.
Qed.

Lemma context_of_renderCalls ws b context steps full k width height scale :
  full = steps ++ k ->
  Forall (fun call => forall a b s, call <> BrowserNewContext a b s) full ->
  BrowserNewContext width height scale ∈ renderCalls ws b context steps ->
  BrowserNewContext width height scale = context.
Proof.
  intros -> Hfull Hin. apply Forall_app in Hfull as [Hsteps _].
  rewrite Forall_forall in Hsteps.
  unfold renderCalls in Hin.
  destruct (World.browser ws); [|by apply elem_of_nil in Hin].
  destruct (Browser.newContext b).2; [|destruct (Browser.newPage b).2]; cbn in Hin.
  - by apply list_elem_of_singleton in Hin.
  - rewrite !elem_of_cons in Hin. destruct Hin as [?|[?|[?|Hin]]]; try done.
    by apply elem_of_nil in Hin.
  - rewrite !elem_of_cons, elem_of_app, !elem_of_cons in Hin.
    destruct Hin as [?|[?|[Hin|[?|[?|Hin]]]]]; try done.
    + by destruct (Hsteps _ Hin width height scale).
    + by apply elem_of_nil in Hin.
Qed.

(** X11: a body accepted as an image request has a non-empty url, a
    quality from 1 to 100, a width and a height from 1 to 4096 and a scale
    from 1 to 3, and an accepted PDF request has a non-empty url; and
    whatever the request, the only browser context that [postImage] asks for
    has a viewport within these bounds, while [postPdf] only ever asks for
    1200 by 800 at scale 1. *)
Theorem validated_requests_are_in_range env x req w :
  (forall request,
     Zod.parse ImageRenderRequestSchema (Request.body req) = inr request ->
     ImageRenderRequest.url request <> "" /\
     (1 <= ImageRenderRequest.quality request <= 100)%Q /\
     (1 <= ImageRenderRequest.width request <= 4096)%Q /\
     (1 <= ImageRenderRequest.height request <= 4096)%Q /\
     (1 <= ImageRenderRequest.scale request <= 3)%Q) /\
  (forall request,
     Zod.parse PdfRenderRequestSchema (Request.body req) = inr request ->
     PdfRenderRequest.url request <> "") /\
  (forall w' c width height scale,
     postImage env x req w = Some (w', c) ->
     BrowserNewContext width height scale ∈ calls (World.trace w') ->
     BrowserNewContext width height scale ∈ calls (World.trace w) \/
     ((1 <= width <= 4096)%Q /\ (1 <= height <= 4096)%Q /\ (1 <= scale <= 3)%Q)) /\
  (forall w' c width height scale,
     postPdf env x req w = Some (w', c) ->
     BrowserNewContext width height scale ∈ calls (World.trace w') ->
     BrowserNewContext width height scale ∈ calls (World.trace w) \/
     (width = 1200%Q /\ height = 800%Q /\ scale = 1%Q)).
Proof.
  assert (forall request,
     Zod.parse ImageRenderRequestSchema (Request.body req) = inr request ->
     ImageRenderRequest.url request <> "" /\
     (1 <= ImageRenderRequest.quality request <= 100)%Q /\
     (1 <= ImageRenderRequest.width request <= 4096)%Q /\
     (1 <= ImageRenderRequest.height request <= 4096)%Q /\
     (1 <= ImageRenderRequest.scale request <= 3)%Q) as Himage.
  { intros request Hp.
    destruct (image_held _ _ Hp)
      as (props & _ & [_ Hurl] & _ & _ & [_ Hq] & [_ Hw] & [_ Hh] & [_ Hs] & _).
    done. }
  split; [exact Himage|]. split; [|split].
  - intros request Hp. by destruct (pdf_held _ _ Hp) as (props & sides & _ & [_ Hurl] & _).
  - intros w' c width height scale E Hin.
    rewrite postImage_orchestrate in E.
    apply orchestrate_calls in E
      as [(errors & _ & Hc)|(request & w3 & c3 & up & Hp & He & Hc & Hst & _)].
    { left. by rewrite <- Hc. }
    rewrite Hc in Hin. apply elem_of_app in Hin as [Hin|Hin].
    2:{ by apply no_context_among_storage_calls in Hin. }
    cbn in He. apply renderImage_call_order in He as (url & steps & Ht & Hpre & _).
    rewrite Ht, calls_app, calls_Called, calls_renderStart in Hin.
    apply elem_of_app in Hin as [Hin|Hin]; [by left|]. right.
    assert (BrowserNewContext width height scale = imageContext request) as [= -> -> ->].
    { destruct Hpre as [k Hk]. eapply context_of_renderCalls; [exact Hk| |exact Hin].
      unfold pageSteps, imageCapture. repeat constructor; done. }
    by destruct (Himage request Hp) as (_ & _ & ? & ? & ?).
  - intros w' c width height scale E Hin.
    rewrite postPdf_orchestrate in E.
    apply orchestrate_calls in E
      as [(errors & _ & Hc)|(request & w3 & c3 & up & Hp & He & Hc & Hst & _)].
    { left. by rewrite <- Hc. }
    rewrite Hc in Hin. apply elem_of_app in Hin as [Hin|Hin].
    2:{ by apply no_context_among_storage_calls in Hin. }
    cbn in He. apply renderPdf_call_order in He as (url & steps & Ht & Hpre & _).
    rewrite Ht, calls_app, calls_Called, calls_renderStart in Hin.
    apply elem_of_app in Hin as [Hin|Hin]; [by left|]. right.
    assert (BrowserNewContext width height scale = BrowserNewContext 1200 800 1)
      as [= -> -> ->]; [|done].
    destruct Hpre as [k Hk]. eapply context_of_renderCalls; [exact Hk| |exact Hin].
    unfold pageSteps, pdfCapture. repeat constructor; done.
Qed.

Lemma validated_requests_are_in_range_witness :
  exists request,
    Zod.parse ImageRenderRequestSchema (Some boundaryBody) = inr request /\
    (1 <= ImageRenderRequest.width request <= 4096)%Q /\
    (1 <= ImageRenderRequest.scale request <= 3)%Q.
Proof.
  assert (exists request,
            Zod.parse ImageRenderRequestSchema (Some boundaryBody) = inr request)
    as (request & Hp) by (eexists; vm_compute; reflexivity).
  exists request. split; [exact Hp|].
  destruct (validated_requests_are_in_range sampleEnv sampleRun
              (Request.mk None None PostImage (Some boundaryBody)) emptyWorld)
    as (Hrange & _).
  destruct (Hrange request Hp) as (_ & _ & Hw & _ & Hs). by split.
Defined.

(** ** Defaults and unknown keys *)

(** X12: every field of a validated request is the property of that name
    in the body, or the default of the schema when the body has no such
    property: png, 90, 1080 by 1080 at scale 1 and an upload for images; A4,
    portrait, backgrounds printed, margins of 20mm (top, bottom) and 15mm
    (left, right) and an upload for PDFs; the optional authToken, filename
    and storagePath are absent when the body has none.  So properties
    outside the schema are ignored: two bodies that agree on the keys of
    the schema are parsed alike. *)
Theorem validated_request_fields body :
  (forall request,
     Zod.parse ImageRenderRequestSchema body = inr request ->
     exists props,
       body = Some (JObj props) /\
       assoc "url" props = Some (JStr (ImageRenderRequest.url request)) /\
       JStr <$> ImageRenderRequest.authToken request = assoc "authToken" props /\
       JStr (ImageFormat_text (ImageRenderRequest.format request))
         = default (JStr "png") (assoc "format" props) /\
       JNum (ImageRenderRequest.quality request) = default (JNum 90) (assoc "quality" props) /\
       JNum (ImageRenderRequest.width request) = default (JNum 1080) (assoc "width" props) /\
       JNum (ImageRenderRequest.height request) = default (JNum 1080) (assoc "height" props) /\
       JNum (ImageRenderRequest.scale request) = default (JNum 1) (assoc "scale" props) /\
       JStr <$> ImageRenderRequest.filename request = assoc "filename" props /\
       JBool (ImageRenderRequest.uploadToStorage request)
         = default (JBool true) (assoc "uploadToStorage" props) /\
       JStr <$> ImageRenderRequest.storagePath request = assoc "storagePath" props) /\
  (forall request,
     Zod.parse PdfRenderRequestSchema body = inr request ->
     exists props sides,
       body = Some (JObj props) /\
       assoc "url" props = Some (JStr (PdfRenderRequest.url request)) /\
       JStr <$> PdfRenderRequest.authToken request = assoc "authToken" props /\
       JStr (PaperSize_text (PdfRenderRequest.paperSize request))
         = default (JStr "A4") (assoc "paperSize" props) /\
       JStr (Orientation_text (PdfRenderRequest.orientation request))
         = default (JStr "portrait") (assoc "orientation" props) /\
       JBool (PdfRenderRequest.printBackground request)
         = default (JBool true) (assoc "printBackground" props) /\
       (JObj sides = default (JObj []) (assoc "margins" props) /\
        JStr (Margins.top (PdfRenderRequest.margins request))
          = default (JStr "20mm") (assoc "top" sides) /\
        JStr (Margins.bottom (PdfRenderRequest.margins request))
          = default (JStr "20mm") (assoc "bottom" sides) /\
        JStr (Margins.left (PdfRenderRequest.margins request))
          = default (JStr "15mm") (assoc "left" sides) /\
        JStr (Margins.right (PdfRenderRequest.margins request))
          = default (JStr "15mm") (assoc "right" sides)) /\
       JStr <$> PdfRenderRequest.filename request = assoc "filename" props /\
       JBool (PdfRenderRequest.uploadToStorage request)
         = default (JBool true) (assoc "uploadToStorage" props) /\
       JStr <$> PdfRenderRequest.storagePath request = assoc "storagePath" props) /\
  (forall props props',
     body = Some (JObj props) ->
     (forall k, k ∈ ["url"; "authToken"; "format"; "quality"; "width"; "height"; "scale";
                     "filename"; "uploadToStorage"; "storagePath"] ->
        assoc k props' = assoc k props) ->
     Zod.parse ImageRenderRequestSchema (Some (JObj props'))
       = Zod.parse ImageRenderRequestSchema body) /\
  (forall props props',
     body = Some (JObj props) ->
     (forall k, k ∈ ["url"; "authToken"; "paperSize"; "orientation"; "printBackground";
                     "margins"; "filename"; "uploadToStorage"; "storagePath"] ->
        assoc k props' = assoc k props) ->
     Zod.parse PdfRenderRequestSchema (Some (JObj props'))
       = Zod.parse PdfRenderRequestSchema body).
Proof.
  split; [|split; [|split]].
  - intros request Hp.
    destruct (image_held _ _ Hp)
      as (props & Hb & [Hurl _] & Ht & Hf & [Hq _] & [Hw _] & [Hh _] & [Hs _] & Hrest).
    exists props. by repeat (split; [done|]).
  - intros request Hp.
    destruct (pdf_held _ _ Hp) as (props & sides & Hb & [Hurl _] & Hrest).
    exists props, sides. by repeat (split; [done|]).
  - intros props props' -> Hsame.
    unfold Zod.parse, ImageRenderRequestSchema, Zod.object, Zod.key. cbn [fst snd].
    rewrite !Hsame; [done|set_solver..].
  - intros props props' -> Hsame.
    unfold Zod.parse, PdfRenderRequestSchema, Zod.object, Zod.key. cbn [fst snd].
    rewrite !Hsame; [done|set_solver..].
Qed.

Lemma validated_request_fields_witness :
  Zod.parse PdfRenderRequestSchema
    (Some (JObj [("debug", JBool true); ("url", JStr "/render/a4/invoice-123")]))
  = Zod.parse PdfRenderRequestSchema (Some storedPdfBody).
Proof.
  destruct (validated_request_fields (Some storedPdfBody)) as (_ & _ & _ & Hpdf).
  apply (Hpdf [("url", JStr "/render/a4/invoice-123")]); [reflexivity|].
  intros k Hk.
  repeat (apply elem_of_cons in Hk as [->|Hk]; [reflexivity|]).
  by apply elem_of_nil in Hk.
Defined.

(** ** The registry across a request *)

Lemma renderStart_activeJobs {R} x (o : Orchestration.t R) req w request :
  World.activeJobs (renderStart x o req w request)
    = <[Run.uuid x := theJob w]> (World.activeJobs w).
Proof.
  unfold renderStart. rewrite updateJobStatus_activeJobs.
  unfold exec at 1, registerJob.
  unfold exec at 1, setUrl. cbn [World.heap World.with_heap].
  unfold created, exec, newJob. cbn [World.heap World.with_heap World.with_trace].
  fold (theJob w). rewrite lookup_alter_eq, lookup_insert_eq. reflexivity.
Qed.

Lemma renderStart_job {R} x (o : Orchestration.t R) req w request :
  jobAt (renderStart x o req w request) (Run.uuid x)
    = Some (RenderJob.mk (Run.uuid x) (Orchestration.kind o)
              (JStr (Orchestration.url o request)) (World.clock w) rendering).
Proof.
  unfold jobAt. rewrite renderStart_registered.
  unfold renderStart. unfold exec at 1, updateJobStatus.
  assert (World.activeJobs (exec (registerJob (theJob w))
            (exec (setUrl (theJob w) (JStr (Orchestration.url o request)))
               (created x o req w))) !! Run.uuid x = Some (theJob w)) as ->.
  { rewrite <- (renderStart_registered x o req w request). unfold renderStart.
    by rewrite updateJobStatus_activeJobs. }
  unfold setStatus. cbn [World.heap World.with_heap World.with_trace].
  rewrite lookup_alter_eq.
  unfold exec at 1, registerJob.
  unfold exec at 1, setUrl. cbn [World.heap World.with_heap].
  unfold created, exec, newJob. cbn [World.heap World.with_heap World.with_trace].
  fold (theJob w). rewrite lookup_alter_eq, lookup_insert_eq. cbn.
  by rewrite lookup_alter_eq, lookup_insert_eq.
Qed.

Lemma settle_activeJobs x s w1 :
  World.activeJobs (settle x s w1) = delete (Run.uuid x) (World.activeJobs w1).
Proof. unfold settle, exec at 1, removeJob. cbn. by rewrite updateJobStatus_activeJobs. Qed.

Lemma orchestrate_registry {R} env x (o : Orchestration.t R) req w w' c :
  (forall request, exists P d, external P d (Orchestration.engine o request)) ->
  World.activeJobs w !! Run.uuid x = None ->
  (forall h a, (Run.othersDuringRender x (h, a)).2 = a) ->
  (forall h a, (Run.othersDuringUpload x (h, a)).2 = a) ->
  orchestrate env x o req w = Some (w', c) ->
  World.activeJobs w' = World.activeJobs w.
Proof.
  intros Hext Hnew Hr Hu E.
  pose proof (orchestrate_outcome env x o req w) as H. rewrite E in H.
  assert (forall request w3 c3,
            Orchestration.engine o request (renderStart x o req w request) = Some (w3, c3) ->
            World.activeJobs (resume (Run.othersDuringRender x) w3)
              = <[Run.uuid x := theJob w]> (World.activeJobs w)) as Hengine.
  { intros request w3 c3 He. destruct (Hext request) as (P & d & Hx).
    destruct (engine_trace P d _ _ _ _ Hx He) as [Ha _].
    unfold resume. cbn. by rewrite Hr, Ha, renderStart_activeJobs. }
  assert (forall request w3 c3 buffer filename contentType storagePath w5 c5,
            Orchestration.engine o request (renderStart x o req w request) = Some (w3, c3) ->
            uploadFile env x buffer filename contentType storagePath (uploadStart x w3)
              = Some (w5, c5) ->
            World.activeJobs (resume (Run.othersDuringUpload x) w5)
              = <[Run.uuid x := theJob w]> (World.activeJobs w)) as Hupload.
  { intros request w3 c3 buffer filename contentType storagePath w5 c5 He Hup.
    destruct (engine_trace _ True _ _ _ _
                (external_uploadFile True env x buffer filename contentType storagePath) Hup)
      as [Ha _].
    unfold resume at 1. cbn. rewrite Hu, Ha. unfold uploadStart.
    rewrite updateJobStatus_activeJobs. by eapply Hengine. }
  inversion H as
    [ errors Hp
    | request Hp He
    | request w3 e Hp He
    | request w3 buffer Hp He Hup
    | request w3 buffer w5 e Hp He Hup Hfile
    | request w3 buffer w5 u Hp He Hup Hfile ]; subst; rewrite settle_activeJobs.
  - rewrite created_activeJobs. by apply delete_id.
  - erewrite Hengine by done. by apply delete_insert_id.
  - erewrite Hengine by done. by apply delete_insert_id.
  - erewrite Hupload by done. by apply delete_insert_id.
  - erewrite Hupload by done. by apply delete_insert_id.
Qed.



(** ** The registry stays well formed *)

Lemma registry_ok_setUrl l u w : registry_ok w -> registry_ok (exec (setUrl l u) w).
Proof.
  intros Hok k l'. unfold exec, setUrl. cbn. intros Hk.
  destruct (Hok k l' Hk) as (j & Hj & Hid).
  destruct (decide (l = l')) as [->|Hne].
  - exists (RenderJob.with_url u j). by rewrite lookup_alter_eq, Hj.
  - exists j. by rewrite lookup_alter_ne.
Qed.

Lemma registry_ok_same w w1 :
  World.heap w1 = World.heap w -> World.activeJobs w1 = World.activeJobs w ->
  registry_ok w -> registry_ok w1.
Proof. intros Hh Ha Hok k l. rewrite Hh, Ha. apply Hok. Qed.

Lemma registry_ok_external {A} P d (m : M A) w w1 c :
  external P d m -> m w = Some (w1, c) -> registry_ok w -> registry_ok w1.
Proof.
  intros Hm E. pose proof (wp_elim _ _ _ _ _ _ (Hm w) E) as [_ _ Hh Ha _].
  by apply registry_ok_same.
Qed.

Lemma registry_ok_settle x s w1 : registry_ok w1 -> registry_ok (settle x s w1).
Proof. intros H. by apply registry_ok_removeJob, registry_ok_updateJobStatus. Qed.

Lemma orchestrate_registry_ok {R} env x (o : Orchestration.t R) req w w' c :
  (forall request, exists P d, external P d (Orchestration.engine o request)) ->
  (forall w0, registry_ok w0 -> registry_ok (resume (Run.othersDuringRender x) w0)) ->
  (forall w0, registry_ok w0 -> registry_ok (resume (Run.othersDuringUpload x) w0)) ->
  registry_ok w ->
  orchestrate env x o req w = Some (w', c) ->
  registry_ok w'.
Proof.
  intros Hext Hr Hu Hok E.
  pose proof (orchestrate_outcome env x o req w) as H. rewrite E in H.
  assert (registry_ok (created x o req w)) as Hcreated by (by apply registry_ok_newJob).
  assert (forall request, registry_ok (renderStart x o req w request)) as Hstart.
  { intros request.
    by apply registry_ok_updateJobStatus, registry_ok_registerJob, registry_ok_setUrl. }
  assert (forall request w3 c3,
            Orchestration.engine o request (renderStart x o req w request) = Some (w3, c3) ->
            registry_ok (resume (Run.othersDuringRender x) w3)) as Hengine.
  { intros request w3 c3 He. destruct (Hext request) as (P & d & Hx).
    apply Hr. by eapply registry_ok_external. }
  assert (forall request w3 c3 buffer filename contentType storagePath w5 c5,
            Orchestration.engine o request (renderStart x o req w request) = Some (w3, c3) ->
            uploadFile env x buffer filename contentType storagePath (uploadStart x w3)
              = Some (w5, c5) ->
            registry_ok (resume (Run.othersDuringUpload x) w5)) as Hupload.
  { intros request w3 c3 buffer filename contentType storagePath w5 c5 He Hup.
    apply Hu. eapply registry_ok_external; [apply (external_uploadFile True)|exact Hup|].
    apply registry_ok_updateJobStatus. by eapply Hengine. }
  inversion H; subst; apply registry_ok_settle; eauto.
Qed.

(** X14: the handlers keep the registry well formed: if every registered
    reference points to a job object carrying the id it is registered
    under, and the other requests keep it so while this one waits, the same
    holds when the handler has finished. *)
Theorem handlers_keep_registry_well_formed env x req w :
  (forall w0, registry_ok w0 -> registry_ok (resume (Run.othersDuringRender x) w0)) ->
  (forall w0, registry_ok w0 -> registry_ok (resume (Run.othersDuringUpload x) w0)) ->
  registry_ok w ->
  (forall w' c, postPdf env x req w = Some (w', c) -> registry_ok w') /\
  (forall w' c, postImage env x req w = Some (w', c) -> registry_ok w').
Proof.
  intros Hr Hu Hok. split; intros w' c.
  - rewrite postPdf_orchestrate. apply orchestrate_registry_ok; try done.
    intros request. eexists _, _. apply external_renderPdf.
  - rewrite postImage_orchestrate. apply orchestrate_registry_ok; try done.
    intros request. eexists _, _. apply external_renderImage.
Qed.

Lemma handlers_keep_registry_well_formed_witness :
  registry_ok sampleWorld /\
  forall w' c,
    postPdf sampleEnv sampleRun (pdfRequest inlinePdfBody) sampleWorld = Some (w', c) ->
    registry_ok w'.
Proof.
  split; [exact sampleWorld_ok|].
  exact (proj1 (handlers_keep_registry_well_formed sampleEnv sampleRun
                  (pdfRequest inlinePdfBody) sampleWorld
                  (fun w0 H => H) (fun w0 H => H) sampleWorld_ok)).
Defined.

(** ** What is stored *)

Lemma uploadFile_success env x buffer filename contentType storagePath w w5 u :
  uploadFile env x buffer filename contentType storagePath w = Some (w5, Normal u) ->
  (Storage.upload (Run.storage x)).2 = inr None /\
  (Storage.createSignedUrl (Run.storage x)).2 = inr (Some (UploadResult.signedUrl u), None) /\
  (UploadResult.path u = filename \/
   exists folder, UploadResult.path u = folder +:+ "/" +:+ filename) /\
  World.trace w5 = World.trace w ++
    [Called (StorageUpload (Env.STORAGE_BUCKET env) (UploadResult.path u) buffer contentType);
     Called (StorageCreateSignedUrl (Env.STORAGE_BUCKET env) (UploadResult.path u)
               (Env.SIGNED_URL_EXPIRY_SECONDS env))].
Proof.
  unfold uploadFile, bind at 1, getClient.
  destruct (World.supabase w); [|done].
  unfold bind at 1, call at 1, bind, emit, elapse. cbn.
  destruct (Storage.upload _).2 as [e|[message| ]]; cbn; [done..|].
  unfold call, bind, emit, elapse, Date_now. cbn.
  destruct (Storage.createSignedUrl _).2 as [e|[[signedUrl| ] [err| ]]]; cbn; try done.
  intros [= <- <-]. cbn. split; [done|]. split; [done|]. split; [|by rewrite <- app_assoc].
  destruct (String.eqb _ ""); [by left|right; by eexists].
Qed.

Lemma orchestrate_uploaded {R} env x (o : Orchestration.t R) req w w' r request :
  orchestrate env x o req w = Some (w', Normal (HttpResponse.mk 200 (SuccessBody r))) ->
  Zod.parse (Orchestration.schema o) (Request.body req) = inr request ->
  Orchestration.uploadToStorage o request = true ->
  exists w3 buffer w5 u,
    Orchestration.engine o request (renderStart x o req w request)
      = Some (w3, Normal buffer) /\
    uploadFile env x buffer (fileNameAt x o request w3) (Orchestration.contentType o request)
      (Orchestration.storagePath o request) (uploadStart x w3) = Some (w5, Normal u) /\
    r = uploadedResponse x o w request w3 w5 buffer u /\
    w' = settle x completed (resume (Run.othersDuringUpload x) w5).
Proof.
  intros E Hp Hu. pose proof (orchestrate_outcome env x o req w) as H. rewrite E in H.
  inversion H as
    [ errors Hp'
    | request' Hp' He
    | request' w3 e Hp' He
    | request' w3 buffer Hp' He Hu'
    | request' w3 buffer w5 e Hp' He Hu' Hup
    | request' w3 buffer w5 u Hp' He Hu' Hup ]; subst;
    assert (request' = request) as -> by congruence.
  - congruence.
  - by exists w3, buffer, w5, u.
Qed.

Lemma orchestrate_stores {R} env x (o : Orchestration.t R) req w w' r request :
  external isBrowserCall (Browser.fontsReady (Run.browser x) = None)
    (Orchestration.engine o request) ->
  orchestrate env x o req w = Some (w', Normal (HttpResponse.mk 200 (SuccessBody r))) ->
  Zod.parse (Orchestration.schema o) (Request.body req) = inr request ->
  Orchestration.uploadToStorage o request = true ->
  exists w3 buffer path signedUrl,
    Orchestration.engine o request (renderStart x o req w request)
      = Some (w3, Normal buffer) /\
    (Storage.upload (Run.storage x)).2 = inr None /\
    (Storage.createSignedUrl (Run.storage x)).2 = inr (Some signedUrl, None) /\
    RenderSuccessResponse.url r = Some signedUrl /\
    RenderSuccessResponse.dataUrl r = None /\
    is_Some (RenderSuccessResponse.expiresAt r) /\
    RenderSuccessResponse.fileSize r = length buffer /\
    storageCalls (World.trace w') = storageCalls (World.trace w) ++
      [StorageUpload (Env.STORAGE_BUCKET env) path buffer (Orchestration.contentType o request);
       StorageCreateSignedUrl (Env.STORAGE_BUCKET env) path
         (Env.SIGNED_URL_EXPIRY_SECONDS env)] /\
    (path = RenderSuccessResponse.filename r \/
     exists folder, path = folder +:+ "/" +:+ RenderSuccessResponse.filename r).
Proof.
  intros Hext E Hp Hu.
  destruct (orchestrate_uploaded _ _ _ _ _ _ _ _ E Hp Hu)
    as (w3 & buffer & w5 & u & He & Hup & -> & ->).
  apply uploadFile_success in Hup as (Hstore & Hsign & Hpath & Ht5).
  destruct (engine_trace _ _ _ _ _ _ Hext He) as (_ & cs & Ht3 & Hcs).
  exists w3, buffer, (UploadResult.path u), (UploadResult.signedUrl u).
  split; [done|]. split; [done|]. split; [done|]. split; [done|]. split; [done|].
  split; [by eexists|]. split; [done|]. split; [|exact Hpath].
  rewrite settle_trace, storageCalls_app, resume_trace, Ht5, storageCalls_app.
  unfold uploadStart. rewrite storageCalls_updateJobStatus, resume_trace, Ht3.
  rewrite storageCalls_app, storageCalls_browser, renderStart_trace by done.
  rewrite storageCalls_app. destruct (_ !! _); cbn; by rewrite !app_nil_r.
Qed.

(** X15: when a request that asks for an upload is answered 200, the
    storage service was called exactly twice for it: once to store the very
    bytes of the capture, with the content type of the format, under a path
    ending in the answered file name, and once to sign that same path; the
    answer carries the signed URL and its expiry, no data URL, and the
    number of bytes stored. *)
Theorem upload_carries_capture env x req w w' r :
  (forall request,
     postPdf env x req w = Some (w', Normal (HttpResponse.mk 200 (SuccessBody r))) ->
     Zod.parse PdfRenderRequestSchema (Request.body req) = inr request ->
     PdfRenderRequest.uploadToStorage request = true ->
     exists buffer path signedUrl,
       (Browser.capture (Run.browser x)).2 = inr buffer /\
       (Storage.upload (Run.storage x)).2 = inr None /\
       (Storage.createSignedUrl (Run.storage x)).2 = inr (Some signedUrl, None) /\
       RenderSuccessResponse.url r = Some signedUrl /\
       RenderSuccessResponse.dataUrl r = None /\
       is_Some (RenderSuccessResponse.expiresAt r) /\
       RenderSuccessResponse.fileSize r = length buffer /\
       storageCalls (World.trace w') = storageCalls (World.trace w) ++
         [StorageUpload (Env.STORAGE_BUCKET env) path buffer "application/pdf";
          StorageCreateSignedUrl (Env.STORAGE_BUCKET env) path
            (Env.SIGNED_URL_EXPIRY_SECONDS env)] /\
       (path = RenderSuccessResponse.filename r \/
        exists folder, path = folder +:+ "/" +:+ RenderSuccessResponse.filename r)) /\
  (forall request,
     postImage env x req w = Some (w', Normal (HttpResponse.mk 200 (SuccessBody r))) ->
     Zod.parse ImageRenderRequestSchema (Request.body req) = inr request ->
     ImageRenderRequest.uploadToStorage request = true ->
     exists buffer path signedUrl,
       (Browser.capture (Run.browser x)).2 = inr buffer /\
       (Storage.upload (Run.storage x)).2 = inr None /\
       (Storage.createSignedUrl (Run.storage x)).2 = inr (Some signedUrl, None) /\
       RenderSuccessResponse.url r = Some signedUrl /\
       RenderSuccessResponse.dataUrl r = None /\
       is_Some (RenderSuccessResponse.expiresAt r) /\
       RenderSuccessResponse.fileSize r = length buffer /\
       storageCalls (World.trace w') = storageCalls (World.trace w) ++
         [StorageUpload (Env.STORAGE_BUCKET env) path buffer
            ("image/" +:+ ImageFormat_text (ImageRenderRequest.format request));
          StorageCreateSignedUrl (Env.STORAGE_BUCKET env) path
            (Env.SIGNED_URL_EXPIRY_SECONDS env)] /\
       (path = RenderSuccessResponse.filename r \/
        exists folder, path = folder +:+ "/" +:+ RenderSuccessResponse.filename r)).
Proof.
  split; intros request E Hp Hu.
  - rewrite postPdf_orchestrate in E.
    destruct (orchestrate_stores env x (pdfOrchestration env x) req w w' r request
                (external_renderPdf env x request) E Hp Hu)
      as (w3 & buffer & path & signedUrl & He & Hrest).
    exists buffer, path, signedUrl. split; [|exact Hrest].
    cbn in He. apply renderPdf_call_order in He as (url & steps & _ & _ & _ & Hall).
    by destruct (Hall buffer eq_refl) as (_ & _ & Hc & _).
  - rewrite postImage_orchestrate in E.
    destruct (orchestrate_stores env x (imageOrchestration env x) req w w' r request
                (external_renderImage env x request) E Hp Hu)
      as (w3 & buffer & path & signedUrl & He & Hs1 & Hs2 & Hurl & Hd & Hx & Hsz & Hcalls & Hpath).
    exists buffer, path, signedUrl.
    cbn in He. apply renderImage_call_order in He as (url & steps & _ & _ & _ & Hall).
    destruct (Hall buffer eq_refl) as (_ & _ & Hc & _).
    repeat (split; [done|]). split; [|exact Hpath].
    rewrite Hcalls. cbn. by destruct (ImageRenderRequest.format request).
Qed.


Lemma upload_carries_capture_witness :
  exists w' r buffer path signedUrl,
    postPdf productionEnv sampleRun (pdfRequest storedPdfBody) storageWorld
      = Some (w', Normal (HttpResponse.mk 200 (SuccessBody r))) /\
    (Browser.capture (Run.browser sampleRun)).2 = inr buffer /\
    RenderSuccessResponse.url r = Some signedUrl /\
    storageCalls (World.trace w') = storageCalls (World.trace storageWorld) ++
      [StorageUpload (Env.STORAGE_BUCKET productionEnv) path buffer "application/pdf";
       StorageCreateSignedUrl (Env.STORAGE_BUCKET productionEnv) path
         (Env.SIGNED_URL_EXPIRY_SECONDS productionEnv)].
Proof.
  assert (exists w' r,
    postPdf productionEnv sampleRun (pdfRequest storedPdfBody) storageWorld
      = Some (w', Normal (HttpResponse.mk 200 (SuccessBody r)))) as (w' & r & E).
  { eexists _, _. vm_compute. reflexivity. }
  assert (Zod.parse PdfRenderRequestSchema (Request.body (pdfRequest storedPdfBody))
            = inr storedPdfRequest) as Hp by (vm_compute; reflexivity).
  destruct (proj1 (upload_carries_capture productionEnv sampleRun (pdfRequest storedPdfBody)
                     storageWorld w' r) storedPdfRequest E Hp eq_refl)
    as (buffer & path & signedUrl & Hc & _ & _ & Hurl & _ & _ & _ & Hcalls & _).
  exists w', r, buffer, path, signedUrl.
  split; [exact E|]. split; [exact Hc|]. split; [exact Hurl|exact Hcalls].
Defined.

(** ** The Chromium settings *)

Lemma comma_free_cons c a :
  Js.includes "," (String c a) = false <-> c <> ","%char /\ Js.includes "," a = false.
Proof.
  rewrite includes_cons. cbn [Js.startsWith].
  destruct (Ascii.eqb_spec "," c) as [<-|Hc]; cbn [orb].
  - split; [done|]. by intros [? _].
  - split; [|by intros [_ ?]]. intros ->. split; [|done]. by intros ->.
Qed.

Lemma split_nonempty c s : split c s <> [].
Proof.
  destruct s as [|a s]; [done|]. cbn [split].
  destruct (Ascii.eqb a c); [done|]. by destruct (split c s).
Qed.

Lemma split_comma_free a : Js.includes "," a = false -> split "," a = [a].
Proof.
  induction a as [|c a IH]; [done|].
  intros [Hc Ha]%comma_free_cons. cbn [split].
  rewrite (proj2 (Ascii.eqb_neq _ _) Hc), (IH Ha). done.
Qed.

Lemma split_piece a s :
  Js.includes "," a = false -> split "," (a +:+ "," +:+ s) = a :: split "," s.
Proof.
  induction a as [|c a IH].
  - intros _. reflexivity.
  - intros [Hc Ha]%comma_free_cons.
    change (String c a +:+ "," +:+ s) with (String c (a +:+ "," +:+ s)).
    cbn [split]. rewrite (proj2 (Ascii.eqb_neq _ _) Hc), (IH Ha). done.
Qed.

Lemma split_pieces_comma_free s : Forall (fun piece => Js.includes "," piece = false) (split "," s).
Proof.
  induction s as [|c s IH]; [by repeat constructor|].
  cbn [split]. destruct (Ascii.eqb_spec c ",") as [->|Hc].
  - by constructor.
  - pose proof (split_nonempty "," s) as Hne.
    destruct (split "," s) as [|piece pieces]; [done|].
    inversion IH as [|? ? Hpiece Hpieces]; subst.
    constructor; [|done]. by apply comma_free_cons.
Qed.

Lemma split_join args :
  args <> [] -> Forall (fun a => Js.includes "," a = false) args ->
  split "," (join "," args) = args.
Proof.
  induction args as [|a [|b args] IH]; [done| |].
  - intros _ Ha. inversion Ha; subst. by apply split_comma_free.
  - intros _ Ha. inversion Ha as [|? ? Hfree Hrest]; subst.
    change (join "," (a :: b :: args)) with (a +:+ "," +:+ join "," (b :: args)).
    rewrite split_piece by done. by rewrite IH.
Qed.

(** X16: the Chromium arguments are the comma-separated pieces of the
    setting, the empty ones dropped: no argument is empty or contains a
    comma, and a list of non-empty, comma-free arguments written with commas
    between them is read back as it was.  The default gives the three
    sandbox flags.  The browser is headless exactly when the setting is the
    text "true", which is the default. *)
Theorem chromium_settings raw :
  Forall (fun a => a <> "" /\ Js.includes "," a = false) (load_CHROMIUM_ARGS raw) /\
  (forall args,
     Forall (fun a => a <> "" /\ Js.includes "," a = false) args ->
     load_CHROMIUM_ARGS (Some (join "," args)) = args) /\
  load_CHROMIUM_ARGS None
    = ["--no-sandbox"; "--disable-setuid-sandbox"; "--disable-dev-shm-usage"] /\
  load_CHROMIUM_ARGS (Some "") = [] /\
  (load_CHROMIUM_HEADLESS raw = true <-> raw = None \/ raw = Some "true").
Proof.
  split; [|split; [|split; [|split]]].
  - unfold load_CHROMIUM_ARGS.
    pose proof (split_pieces_comma_free
                  (default "--no-sandbox,--disable-setuid-sandbox,--disable-dev-shm-usage" raw))
      as Hfree.
    induction Hfree as [|piece pieces Hpiece _ IH]; [constructor|].
    cbn [List.filter]. destruct (String.eqb_spec piece ""); cbn [negb]; [exact IH|].
    by constructor.
  - intros args Hargs. unfold load_CHROMIUM_ARGS.
    cbv beta iota delta [default from_option id].
    destruct args as [|a args]; [reflexivity|].
    rewrite split_join; [|done|by eapply Forall_impl; [exact Hargs|intros ? [_ ?]]].
    induction Hargs as [|b rest [Hb _] _ IH]; [done|].
    cbn [List.filter]. rewrite (proj2 (String.eqb_neq _ _) Hb). cbn [negb]. by rewrite IH.
  - reflexivity.
  - reflexivity.
  - unfold load_CHROMIUM_HEADLESS.
    destruct raw as [v|]; cbv beta iota delta [default from_option id].
    + rewrite String.eqb_eq. split; [intros ->; by right|]. by intros [?|[= ->]].
    + split; [by left|reflexivity].
Qed.

Lemma chromium_settings_witness :
  load_CHROMIUM_ARGS (Some (join "," ["--headless=new"; "--no-sandbox"]))
    = ["--headless=new"; "--no-sandbox"].
Proof.
  destruct (chromium_settings None) as (_ & Hback & _).
  apply Hback. repeat constructor; discriminate.
Defined.

